(** * virals: transcript synchronizer, Deepgram webhook and video actions

    A shallow embedding of the parts of the application that carry its
    observable contracts:

    - [src/components/videos/interactive-transcript.tsx]: the
      [InteractiveTranscript] component (the [words] memo, the current-word
      effect, [handleWordClick], the two confidence classifiers and what
      the component function returns or throws);
    - [src/app/api/deepgram/callback/route.ts]: the webhook [POST] handler;
    - the server actions of [app/actions/videos]: [updateTranscript],
      [uploadVideoFile], [deleteVideoFile] and [deleteVideo], and further
      [getVideoPublicUrl], [getVideoById] and [createVideoWithFile];
    - the video page ([VideoPlayerWithTranscript] and the player's
      [seekTo]), [getTranscriptText] of the transcript manager and of the
      video detail, the file chooser of the upload form, the filter of the
      list of videos and [getFileName].

    JavaScript numbers are IEEE-754 binary64 values and are modelled by
    Rocq's primitive floats, so a literal such as [0.7] denotes the same
    double as in the source.  Values of type [any] are modelled by the
    inductive type [JS.value].  Code that can throw returns a [JS.result];
    code of the server actions runs in a state-and-exception monad over a
    [Store.world] that holds the session, the tables, the storage bucket,
    a fault plan for the remote calls and the trace of calls made. *)

From Stdlib Require Import List String Ascii ZArith Bool Lia Floats.
Import ListNotations.

Set Warnings "-inexact-float,-register-all".
Local Open Scope string_scope.
Local Open Scope Z_scope.

(* ===================================================================== *)
(** ** JavaScript values *)
(* ===================================================================== *)

Module JS.

(** What [JSON.parse] can produce, plus [undefined]. An object is kept as
    its list of own properties; a property read takes the first binding. *)
Inductive value : Type :=
| Undefined
| Null
| Bool (b : bool)
| Num (n : float)
| Str (s : string)
| Arr (elems : list value)
| Obj (props : list (string * value)).

Inductive exn : Type :=
| TypeError                 (* property read on null or undefined *)
| SyntaxError               (* malformed JSON *)
| ZodError (issue : string)  (* a schema's [parse] rejected its input *)
| Failure (message : string) (* an [Error] thrown by a collaborator *)
| InvalidChild              (* React's Error for an object given as a child *).

Inductive result (A : Type) : Type :=
| Ok (a : A)
| Throw (e : exn).
Arguments Ok {A} a.
Arguments Throw {A} e.

Definition bind {A B} (r : result A) (k : A -> result B) : result B :=
  match r with
  | Ok a => k a
  | Throw e => Throw e
  end.

Fixpoint lookup (k : string) (props : list (string * value)) : option value :=
  match props with
  | [] => None
  | (k', v) :: rest => if String.eqb k k' then Some v else lookup k rest
  end.

(** [v.k] for a property name [k] that no built-in prototype defines (all
    the names read by the modelled code are of that kind: [metadata],
    [request_id], [results], [channels], [alternatives], [transcript],
    [words], [word], [punctuated_word], [start], [end], [confidence]). *)
Definition get (v : value) (k : string) : result value :=
  match v with
  | Undefined | Null => Throw TypeError
  | Obj props =>
      match lookup k props with
      | Some x => Ok x
      | None => Ok Undefined
      end
  | Bool _ | Num _ | Str _ | Arr _ => Ok Undefined
  end.

(** [v[0]]. *)
Definition first (v : value) : result value :=
  match v with
  | Undefined | Null => Throw TypeError
  | Arr elems =>
      match elems with
      | x :: _ => Ok x
      | [] => Ok Undefined
      end
  | Str s =>
      match s with
      | String c _ => Ok (Str (String c EmptyString))
      | EmptyString => Ok Undefined
      end
  | Obj props =>
      match lookup "0" props with
      | Some x => Ok x
      | None => Ok Undefined
      end
  | Bool _ | Num _ => Ok Undefined
  end.

Definition isArray (v : value) : bool :=
  match v with
  | Arr _ => true
  | _ => false
  end.

Definition isNaN (n : float) : bool := negb (PrimFloat.eqb n n).

(** ToBoolean. *)
Definition truthy (v : value) : bool :=
  match v with
  | Undefined | Null => false
  | Bool b => b
  | Num n => negb (PrimFloat.eqb n 0%float || isNaN n)
  | Str s =>
      match s with
      | EmptyString => false
      | String _ _ => true
      end
  | Arr _ | Obj _ => true
  end.

(** [a || b] on values. *)
Definition or_else (a b : value) : value := if truthy a then a else b.

(** Whether React accepts [v] as a child, [{v}] in JSX: a string or a
    number is text, a boolean, null or undefined is nothing, an array
    gives its elements in turn; a plain object is refused ("Objects are
    not valid as a React child"). *)
Fixpoint valid_child (v : value) : bool :=
  match v with
  | Obj _ => false
  | Arr elems => forallb valid_child elems
  | Undefined | Null | Bool _ | Num _ | Str _ => true
  end.

Definition react_child (v : value) : result value :=
  if valid_child v then Ok v else Throw InvalidChild.

Section Coercions.

(** ToNumber on strings, arrays and objects is the language runtime's
    (StringToNumber after ToPrimitive); it is left as a parameter. *)
Variable ToNumberExt : value -> float.

Definition ToNumber (v : value) : float :=
  match v with
  | Undefined => nan
  | Null => 0%float
  | Bool true => 1%float
  | Bool false => 0%float
  | Num n => n
  | Str _ | Arr _ | Obj _ => ToNumberExt v
  end.

(** [t >= v] and [t <= v] for a number [t]: both operands go through
    ToNumber and every comparison with NaN is false. *)
Definition ge (t : float) (v : value) : bool := PrimFloat.leb (ToNumber v) t.
Definition le (t : float) (v : value) : bool := PrimFloat.leb t (ToNumber v).

End Coercions.

End JS.

Notation "x <- r ;; k" := (JS.bind r (fun x => k))
  (at level 61, r at next level, right associativity, only parsing).

(* ===================================================================== *)
(** ** The interactive transcript component *)
(* ===================================================================== *)

Module Transcript.
Import JS.

(** interface Word *)
Record Word : Type := {
  word : string;
  start : float;
  end_ : float;
  confidence : float;
  punctuated_word : option string
}.

(** A [Word] as the object the component receives. *)
Definition js_of_word (w : Word) : value :=
  Obj ([("word", Str (word w));
        ("start", Num (start w));
        ("end", Num (end_ w));
        ("confidence", Num (confidence w))]
       ++ match punctuated_word w with
          | Some p => [("punctuated_word", Str p)]
          | None => []
          end).

(** The predicate of the claim on a typed word. *)
Definition within (currentTime : float) (w : Word) : bool :=
  PrimFloat.leb (start w) currentTime && PrimFloat.leb currentTime (end_ w).

(** interface InteractiveTranscriptProps; [T] is what the parent's
    [onWordClick] does with the seek time. *)
Record Props (T : Type) : Type := {
  transcriptData : value;
  currentTime : float;
  onWordClick : value -> T;
  highlightCurrentWord : bool
}.
Arguments transcriptData {T} _.
Arguments currentTime {T} _.
Arguments onWordClick {T} _.
Arguments highlightCurrentWord {T} _.

(** The two [useState] cells. *)
Record State : Type := {
  showConfidence : bool;
  currentWordIndex : Z
}.

(** The [words] memo. *)
Definition words (transcriptData : value) : list value :=
  match transcriptData with
  | Arr elems =>
      if (Z.of_nat (List.length elems) =? 0) then [] else elems
  | _ => []
  end.

(** [Array.prototype.findIndex] with a callback that may throw. *)
Fixpoint findIndex_from (p : value -> result bool) (l : list value) (i : Z)
  : result Z :=
  match l with
  | [] => Ok (-1)
  | x :: rest =>
      match p x with
      | Throw e => Throw e
      | Ok true => Ok i
      | Ok false => findIndex_from p rest (i + 1)
      end
  end.

Definition findIndex (p : value -> result bool) (l : list value) : result Z :=
  findIndex_from p l 0.

Definition getConfidenceColor (confidence : float) : string :=
  if PrimFloat.leb 0.7 confidence then "text-green-600"
  else if PrimFloat.leb 0.7 confidence then "text-yellow-600"
  else "text-red-600".

Definition getConfidenceBadge (confidence : float) : string :=
  if PrimFloat.leb 0.9 confidence then "High"
  else if PrimFloat.leb 0.7 confidence then "Medium"
  else "Low".

(** The band a class name or a badge text stands for. *)
Inductive band : Type := Low | Medium | High.

Definition band_rank (b : band) : Z :=
  match b with
  | Low => 0
  | Medium => 1
  | High => 2
  end.

Definition band_of_color (c : string) : option band :=
  if String.eqb c "text-green-600" then Some High
  else if String.eqb c "text-yellow-600" then Some Medium
  else if String.eqb c "text-red-600" then Some Low
  else None.

Definition band_of_badge (c : string) : option band :=
  if String.eqb c "High" then Some High
  else if String.eqb c "Medium" then Some Medium
  else if String.eqb c "Low" then Some Low
  else None.

Section Component.

Variable ToNumberExt : value -> float.

(** (word) => currentTime >= word.start && currentTime <= word.end *)
Definition inWord (currentTime : float) (word : value) : result bool :=
  s <- get word "start" ;;
  if ge ToNumberExt currentTime s
  then e <- get word "end" ;; Ok (le ToNumberExt currentTime e)
  else Ok false.

(** What one firing of the debounce timer does. *)
Record timer_fire : Type := {
  setCurrentWordIndex : Z;
  scrollIntoView : option Z
}.

(** One run of the current-word effect: either the index is reset at once
    and nothing is scheduled, or a timer is armed whose callback computes
    the index, stores it and scrolls to the word when there is one
    ([mounted] says whether [transcriptRef.current] is set and holds the
    word's element). *)
Inductive effect_run : Type :=
| Immediate (index : Z)
| Debounced (delay_ms : Z) (callback : result timer_fire).

Definition currentWordEffect (highlight : bool) (ws : list value)
    (currentTime : float) (mounted : bool) : effect_run :=
  if negb highlight || (Z.of_nat (List.length ws) =? 0)
  then Immediate (-1)
  else Debounced 50
         (index <- findIndex (inWord currentTime) ws ;;
          Ok {| setCurrentWordIndex := index;
                scrollIntoView :=
                  if (index >=? 0) && mounted then Some index else None |}).

(** The value [currentWordIndex] takes once the effect has run to its end. *)
Definition locateCurrentWord (highlight : bool) (ws : list value)
    (currentTime : float) : result Z :=
  match currentWordEffect highlight ws currentTime true with
  | Immediate index => Ok index
  | Debounced _ callback => f <- callback ;; Ok (setCurrentWordIndex f)
  end.

(** handleWordClick; it is a closure of the component, so it is given the
    props and the state it could read. *)
Definition handleWordClick {T} (props : Props T) (st : State) (word : value)
  : result T :=
  s <- get word "start" ;;
  Ok (onWordClick props s).

(** One rendered word: the [data-word-index], the highlight flag, the
    child [{displayWord}] and, when confidences are shown, the badge's
    colour class and text. The [title] and [aria-label] strings are left
    out. *)
Record span : Type := {
  data_word_index : Z;
  isCurrentWord : bool;
  displayWord : value;
  badge : option (string * string)
}.

Inductive view : Type :=
| Fallback                         (* "No interactive transcript available" *)
| TranscriptView (word_count : Z) (spans : list span).

(** The element the [map] callback returns for one word, or the
    TypeError of reading a property from null or undefined. React looks
    at the child [{displayWord}] only after the whole [map] has run; that
    check is made in [InteractiveTranscript]. *)
Definition render_word (highlight : bool) (st : State) (index : Z)
    (word : value) : result span :=
  p <- get word "punctuated_word" ;;
  w <- get word "word" ;;
  c <- get word "confidence" ;;
  Ok {| data_word_index := index;
        isCurrentWord := highlight && (index =? currentWordIndex st);
        displayWord := or_else p w;
        badge :=
          if showConfidence st
          then Some (getConfidenceColor (ToNumber ToNumberExt c),
                     getConfidenceBadge (ToNumber ToNumberExt c))
          else None |}.

(** words.map((word, index) => ...) *)
Fixpoint render_words (highlight : bool) (st : State) (ws : list value)
    (index : Z) : result (list span) :=
  match ws with
  | [] => Ok []
  | w :: rest =>
      s <- render_word highlight st index w ;;
      ss <- render_words highlight st rest (index + 1) ;;
      Ok (s :: ss)
  end.

(** Rendering the component: the element tree, or the exception that
    escapes. The component function runs first and throws where a property
    is read from null or undefined; the statistics block below the words
    reads only elements that [render_words] has already read, so it adds
    no way to throw. React then renders the returned tree and throws on a
    [displayWord] that is not a valid child. *)
Definition InteractiveTranscript {T} (props : Props T) (st : State)
  : result view :=
  let ws := words (transcriptData props) in
  if (Z.of_nat (List.length ws) =? 0) then Ok Fallback
  else
    spans <- render_words (highlightCurrentWord props) st ws 0 ;;
    if forallb (fun s => valid_child (displayWord s)) spans
    then Ok (TranscriptView (Z.of_nat (List.length ws)) spans)
    else Throw InvalidChild.

End Component.

End Transcript.

(* ===================================================================== *)
(** ** The record store, the storage bucket and the session *)
(* ===================================================================== *)

Module Store.
Import JS.

(** Video["status"] *)
Inductive Status : Type := uploaded | transcribing | transcribed | error_status.

(** A row of the [videos] table: interface Video, and the
    [deepgram_request_id] column the actions read and write. *)
Record Video : Type := {
  id : string;
  project_id : string;
  storage_path : string;
  status : Status;
  transcript_text : value;
  transcript_data_full : value;
  created_at : string;
  deepgram_request_id : option string
}.

(** A row of the [projects] table (the columns the video actions read). *)
Record Project : Type := {
  p_id : string;
  p_user_id : string
}.

(** A [File] of a form submission. *)
Record File : Type := {
  name : string;
  size : Z;
  type : string
}.

(** The calls that leave the process, in the order they are made. *)
Inductive call : Type :=
| CreateClient
| AuthGetUser
| VideosUpdateByRequestId (requestId transcriptText transcriptData : value)
| VideosSelectOwned (videoId userId : string)
| VideosDelete (videoId : string)
| ProjectsSelectOwned (projectId userId : string)
| StorageUpload (path contentType : string)
| StorageRemove (paths : list string)
| RevalidatePath (path : string).

(** How a call goes: it works, it comes back with an [error], or it
    throws. *)
Inductive fault : Type := NoFault | ReportsError | Throws.

Record world : Type := {
  session : option string;          (* id of the signed-in user *)
  projects : list Project;
  videos : list Video;
  bucket : list (string * File);    (* objects of the "videos" bucket *)
  public_url : string -> string;   (* getPublicUrl(path).data.publicUrl *)
  plan : nat -> fault;              (* fault of the n-th call *)
  clock : nat -> string;            (* Date.now(), after n calls *)
  random : nat -> string;           (* Math.random().toString(36).substring(2) *)
  trace : list call
}.

Definition with_trace (w : world) (t : list call) : world :=
  {| session := session w; projects := projects w; videos := videos w;
     bucket := bucket w; public_url := public_url w; plan := plan w;
     clock := clock w; random := random w; trace := t |}.

Definition with_videos (w : world) (vs : list Video) : world :=
  {| session := session w; projects := projects w; videos := vs;
     bucket := bucket w; public_url := public_url w; plan := plan w;
     clock := clock w; random := random w; trace := trace w |}.

Definition with_bucket (w : world) (b : list (string * File)) : world :=
  {| session := session w; projects := projects w; videos := videos w;
     bucket := b; public_url := public_url w; plan := plan w;
     clock := clock w; random := random w; trace := trace w |}.

(** Server code: a computation on the world that returns or throws. *)
Definition M (A : Type) : Type := world -> result A * world.

Definition ret {A} (a : A) : M A := fun w => (Ok a, w).

Definition throw {A} (e : exn) : M A := fun w => (Throw e, w).

Definition mbind {A B} (m : M A) (k : A -> M B) : M B :=
  fun w =>
    match m w with
    | (Ok a, w') => k a w'
    | (Throw e, w') => (Throw e, w')
    end.

(** try { m } catch (e) { h e } *)
Definition try_catch {A} (m : M A) (h : exn -> M A) : M A :=
  fun w =>
    match m w with
    | (Ok a, w') => (Ok a, w')
    | (Throw e, w') => h e w'
    end.

Definition lift {A} (r : result A) : M A := fun w => (r, w).

Definition read {A} (f : world -> A) : M A := fun w => (Ok (f w), w).

(** Make a call: log it and learn how it goes. *)
Definition remote (c : call) : M fault :=
  fun w => (Ok (plan w (List.length (trace w))), with_trace w (trace w ++ [c])).

End Store.

Declare Scope store_scope.
Delimit Scope store_scope with store.
Notation "x <~ m ;; k" := (Store.mbind m (fun x => k))
  (at level 61, m at next level, right associativity, only parsing) : store_scope.
Notation "m ;;; k" := (Store.mbind m (fun _ => k))
  (at level 61, right associativity, only parsing) : store_scope.

Module Supabase.
Import JS Store.
Local Open Scope store_scope.

(** await createClient() *)
Definition createClient : M unit :=
  f <~ remote CreateClient ;;
  match f with
  | Throws => throw (Failure "createClient")
  | NoFault | ReportsError => ret tt
  end.

(** await supabase.auth.getUser(): the user's id, or [None] when
    [authError || !userData?.user]. *)
Definition auth_getUser : M (option string) :=
  f <~ remote AuthGetUser ;;
  match f with
  | Throws => throw (Failure "auth.getUser")
  | ReportsError => ret None
  | NoFault => read session
  end.

(** The row filter [.eq(column, v)] on a text column. A string is compared
    as it is; another value would be sent in its textual form, which the
    model does not compute: such a filter selects no row. *)
Definition eq_text (column : option string) (v : value) : bool :=
  match column, v with
  | Some c, Str s => String.eqb c s
  | _, _ => false
  end.

(** A column of an update body: a key whose value is [undefined] is
    dropped by JSON.stringify, so the column keeps its value. *)
Definition assign (v old : value) : value :=
  match v with
  | Undefined => old
  | _ => v
  end.

Definition set_transcript (transcriptText transcriptData : value) (v : Video)
  : Video :=
  {| id := id v; project_id := project_id v; storage_path := storage_path v;
     status := transcribed;
     transcript_text := assign transcriptText (transcript_text v);
     transcript_data_full := assign transcriptData (transcript_data_full v);
     created_at := created_at v;
     deepgram_request_id := deepgram_request_id v |}.

(** supabase.from("videos").update({ transcript_text, transcript_data_full,
    status: "transcribed" }).eq("deepgram_request_id", requestId);
    the result is whether an [error] came back. *)
Definition videos_update_transcript (requestId transcriptText transcriptData : value)
  : M bool :=
  f <~ remote (VideosUpdateByRequestId requestId transcriptText transcriptData) ;;
  match f with
  | Throws => throw (Failure "fetch")
  | ReportsError => ret true
  | NoFault =>
      fun w =>
        (Ok false,
         with_videos w
           (map (fun v =>
                   if eq_text (deepgram_request_id v) requestId
                   then set_transcript transcriptText transcriptData v
                   else v)
                (videos w)))
  end.

(** The rows of videos joined with their project ([projects!inner]) that
    pass [.eq("id", videoId).eq("projects.user_id", userId)]. *)
Definition owned_rows (w : world) (videoId userId : string) : list Video :=
  flat_map
    (fun v =>
       if String.eqb (id v) videoId
       then map (fun _ => v)
                (filter (fun p => String.eqb (p_id p) (project_id v)
                                  && String.eqb (p_user_id p) userId)
                        (projects w))
       else [])
    (videos w).

(** [.single()]: the row when there is exactly one, an error otherwise. *)
Definition single {A} (rows : list A) : option A :=
  match rows with
  | [r] => Some r
  | _ => None
  end.

(** The select of [deleteVideo]; [None] stands for
    [fetchError || !existingVideo]. *)
Definition videos_select_owned (videoId userId : string) : M (option Video) :=
  f <~ remote (VideosSelectOwned videoId userId) ;;
  match f with
  | Throws => throw (Failure "fetch")
  | ReportsError => ret None
  | NoFault => read (fun w => single (owned_rows w videoId userId))
  end.

(** supabase.from("videos").delete().eq("id", videoId) *)
Definition videos_delete (videoId : string) : M bool :=
  f <~ remote (VideosDelete videoId) ;;
  match f with
  | Throws => throw (Failure "fetch")
  | ReportsError => ret true
  | NoFault =>
      fun w =>
        (Ok false,
         with_videos w
           (filter (fun v => negb (String.eqb (id v) videoId)) (videos w)))
  end.

(** The select of [uploadVideoFile] on projects, with [.single()]. *)
Definition projects_select_owned (projectId userId : string)
  : M (option Project) :=
  f <~ remote (ProjectsSelectOwned projectId userId) ;;
  match f with
  | Throws => throw (Failure "fetch")
  | ReportsError => ret None
  | NoFault =>
      read (fun w =>
              single (filter (fun p => String.eqb (p_id p) projectId
                                       && String.eqb (p_user_id p) userId)
                             (projects w)))
  end.

Definition has_object (path : string) (b : list (string * File)) : bool :=
  existsb (fun o => String.eqb (fst o) path) b.

(** supabase.storage.from("videos").upload(path, body, { contentType });
    an object that exists already is an error (no upsert). *)
Definition storage_upload (path : string) (f : File) : M bool :=
  ft <~ remote (StorageUpload path (type f)) ;;
  match ft with
  | Throws => throw (Failure "fetch")
  | ReportsError => ret true
  | NoFault =>
      fun w =>
        if has_object path (bucket w) then (Ok true, w)
        else (Ok false, with_bucket w (bucket w ++ [(path, f)]))
  end.

(** supabase.storage.from("videos").remove([path]) *)
Definition storage_remove (path : string) : M bool :=
  f <~ remote (StorageRemove [path]) ;;
  match f with
  | Throws => throw (Failure "fetch")
  | ReportsError => ret true
  | NoFault =>
      fun w =>
        (Ok false,
         with_bucket w
           (filter (fun o => negb (String.eqb (fst o) path)) (bucket w)))
  end.

(** supabase.storage.from("videos").getPublicUrl(path): the URL is built
    by the storage client without a request and without a failure of its
    own. The client is not part of the repository (it escapes the path
    onto the bucket's address), so the URL it gives for a path is read off
    the world. *)
Definition storage_getPublicUrl (path : string) : M string :=
  read (fun w => public_url w path).

(** revalidatePath(path): logged; it has no failure of its own. *)
Definition revalidatePath (path : string) : M unit :=
  remote (RevalidatePath path) ;;; ret tt.

End Supabase.

(* ===================================================================== *)
(** ** The video server actions *)
(* ===================================================================== *)

Module Videos.
Import JS Store Supabase.
Local Open Scope store_scope.

(** The [error] of an ActionResult: a literal message, the [message] of a
    caught exception, or the caught exception itself. *)
Inductive error_value : Type :=
| Message (text : string)
| MessageOf (e : exn)
| Caught (e : exn).

(** type ActionResult<T> *)
Record ActionResult (T : Type) : Type := {
  success : bool;
  data : option T;
  error : option error_value
}.
Arguments success {T} _.
Arguments data {T} _.
Arguments error {T} _.

Definition succeed {T} (d : option T) : ActionResult T :=
  {| success := true; data := d; error := None |}.

Definition fail {T} (e : error_value) : ActionResult T :=
  {| success := false; data := None; error := Some e |}.

Definition updateTranscript (requestId transcriptText transcriptData : value)
  : M (ActionResult unit) :=
  try_catch
    (createClient ;;;
     error <~ videos_update_transcript requestId transcriptText transcriptData ;;
     if (error : bool)
     then ret (fail (Message "Failed to update transcript"))
     else ret (succeed None))
    (fun e => ret (fail (Caught e))).

(** A FormData entry is a string or a File; [get] of an absent name is
    null ([None]). *)
Inductive entry : Type :=
| EString (s : string)
| EFile (f : File).

Definition FormData : Type := list (string * entry).

Fixpoint formData_get (k : string) (fd : FormData) : option entry :=
  match fd with
  | [] => None
  | (k', e) :: rest => if String.eqb k k' then Some e else formData_get k rest
  end.

(** [!x] for an entry or null. *)
Definition missing (x : option entry) : bool :=
  match x with
  | None => true
  | Some (EString s) =>
      match s with
      | EmptyString => true
      | String _ _ => false
      end
  | Some (EFile _) => false
  end.

(** [file.size > maxSize]; [size] of a string entry is undefined, and
    [undefined > n] is false. *)
Definition size_exceeds (x : option entry) (maxSize : Z) : bool :=
  match x with
  | Some (EFile f) => size f >? maxSize
  | _ => false
  end.

(** [allowedTypes.includes(file.type)]; [type] of a string entry is
    undefined, which the list does not include. *)
Definition type_allowed (allowedTypes : list string) (x : option entry) : bool :=
  match x with
  | Some (EFile f) => existsb (String.eqb (type f)) allowedTypes
  | _ => false
  end.

(** An entry inside a template literal or a filter. *)
Definition entry_text (x : option entry) : string :=
  match x with
  | Some (EString s) => s
  | Some (EFile _) => "[object File]"
  | None => "null"
  end.

(** name.split(".").pop(): what follows the last dot, or all of [name]. *)
Fixpoint last_segment (name acc : string) : string :=
  match name with
  | EmptyString => acc
  | String c rest =>
      if Ascii.eqb c "."%char then last_segment rest EmptyString
      else last_segment rest (acc ++ String c EmptyString)
  end.

Record uploaded_file : Type := {
  storagePath : string;
  publicUrl : string
}.

Definition maxSize : Z := 100 * 1024 * 1024.

Definition allowedTypes : list string :=
  ["video/mp4"; "video/mov"; "video/avi"; "video/webm"; "video/quicktime"].

Definition uploadVideoFile (formData : FormData)
  : M (ActionResult uploaded_file) :=
  try_catch
    (let file := formData_get "file" formData in
     let projectId := formData_get "projectId" formData in
     if missing file then ret (fail (Message "No file provided"))
     else if missing projectId then ret (fail (Message "Project ID is required"))
     else if size_exceeds file maxSize
     then ret (fail (Message "File size must be less than 100MB"))
     else if negb (type_allowed allowedTypes file)
     then ret (fail (Message
            "File type not supported. Please use MP4, MOV, AVI, or WebM"))
     else
       match file with
       | Some (EFile f) =>
           createClient ;;;
           user <~ auth_getUser ;;
           match user with
           | None => ret (fail (Message "Authentication required"))
           | Some userId =>
               project <~ projects_select_owned (entry_text projectId) userId ;;
               match project with
               | None => ret (fail (Message "Project not found or access denied"))
               | Some _ =>
                   now <~ read (fun w => clock w (List.length (trace w))) ;;
                   rnd <~ read (fun w => random w (List.length (trace w))) ;;
                   let fileExt := last_segment (name f) EmptyString in
                   let fileName := now ++ "_" ++ rnd ++ "." ++ fileExt in
                   let storagePath :=
                     "videos/" ++ entry_text projectId ++ "/" ++ fileName in
                   uploadError <~ storage_upload storagePath f ;;
                   if (uploadError : bool)
                   then ret (fail (Message "Failed to upload file"))
                   else
                     publicUrl <~ storage_getPublicUrl storagePath ;;
                     ret (succeed (Some {| storagePath := storagePath;
                                           publicUrl := publicUrl |}))
               end
           end
       | _ =>
           (* not reached: [type_allowed] holds of File entries only *)
           ret (fail (Message
             "File type not supported. Please use MP4, MOV, AVI, or WebM"))
       end)
    (fun e => ret (fail (MessageOf e))).

Definition deleteVideoFile (storagePath : string) : M (ActionResult unit) :=
  try_catch
    (createClient ;;;
     user <~ auth_getUser ;;
     match user with
     | None => ret (fail (Message "Authentication required"))
     | Some _ =>
         (* a [deleteError] is logged and otherwise ignored *)
         storage_remove storagePath ;;;
         ret (succeed None)
     end)
    (fun e => ret (fail (MessageOf e))).

Section DeleteVideo.

(** Whether zod's [z.uuid] accepts a string. *)
Variable uuid : string -> bool.

(** videoIdSchema.parse(id) *)
Definition videoIdSchema_parse (id : string) : M string :=
  if uuid id then ret id else throw (ZodError "Invalid video ID").

Definition deleteVideo (id : string) : M (ActionResult unit) :=
  try_catch
    (validatedId <~ videoIdSchema_parse id ;;
     createClient ;;;
     user <~ auth_getUser ;;
     match user with
     | None => ret (fail (Message "Authentication required"))
     | Some userId =>
         existingVideo <~ videos_select_owned validatedId userId ;;
         match existingVideo with
         | None => ret (fail (Message "Video not found or access denied"))
         | Some existingVideo =>
             error <~ videos_delete validatedId ;;
             if (error : bool)
             then ret (fail (Message "Failed to delete video"))
             else
               (match storage_path existingVideo with
                | EmptyString => ret tt
                | String _ _ =>
                    deleteVideoFile (storage_path existingVideo) ;;; ret tt
                end) ;;;
               revalidatePath ("/projects/" ++ project_id existingVideo) ;;;
               revalidatePath "/videos" ;;;
               ret (succeed None)
         end
     end)
    (fun e => ret (fail (MessageOf e))).

End DeleteVideo.

End Videos.

(* ===================================================================== *)
(** ** The Deepgram webhook *)
(* ===================================================================== *)

Module Webhook.
Import JS Store Videos.
Local Open Scope store_scope.

(** What the handler reads of a Request: the outcome of [request.json()]. *)
Record Request : Type := {
  json : result value
}.

(** new Response(body, { status }) *)
Record Response : Type := {
  body : string;
  http_status : Z
}.

(** [data?.rest]: the chain is skipped, with value undefined, when [data]
    is null or undefined. *)
Definition optional (data : value) (rest : value -> result value)
  : result value :=
  match data with
  | Undefined | Null => Ok Undefined
  | _ => rest data
  end.

(** data.results.channels[0].alternatives[0] *)
Definition alternative0 (data : value) : result value :=
  results <- get data "results" ;;
  channels <- get results "channels" ;;
  channel <- first channels ;;
  alternatives <- get channel "alternatives" ;;
  first alternatives.

Definition POST (request : Request) : M Response :=
  try_catch
    (data <~ lift (json request) ;;
     requestId <~ lift (optional data (fun d =>
       metadata <- get d "metadata" ;; get metadata "request_id")) ;;
     transcriptText <~ lift (optional data (fun d =>
       a <- alternative0 d ;; get a "transcript")) ;;
     transcriptData <~ lift (optional data (fun d =>
       a <- alternative0 d ;; get a "words")) ;;
     updateTranscript requestId transcriptText transcriptData ;;;
     ret {| body := "ok"; http_status := 200 |})
    (fun _ => ret {| body := "error"; http_status := 500 |}).

End Webhook.

(* ===================================================================== *)
(** ** Vocabulary of the statements *)
(* ===================================================================== *)

Module Shape.
Import JS.

(** [v] is an object whose property [k] is [x]. *)
Definition has (v : value) (k : string) (x : value) : Prop :=
  exists props, v = Obj props /\ lookup k props = Some x.

(** An array element that carries the four required fields of a Word. *)
Definition has_required_fields (v : value) : bool :=
  match v with
  | Obj props =>
      match lookup "word" props, lookup "start" props,
            lookup "end" props, lookup "confidence" props with
      | Some (Str _), Some (Num _), Some (Num _), Some (Num _) => true
      | _, _, _, _ => false
      end
  | _ => false
  end.

(** The three kinds of malformed transcript data the specification
    names. *)
Definition malformed (transcriptData : value) : Prop :=
  isArray transcriptData = false
  \/ transcriptData = Arr []
  \/ exists elems, transcriptData = Arr elems
                   /\ existsb (fun e => negb (has_required_fields e)) elems = true.

(** The documented body of the provider's callback:
    { metadata: { request_id },
      results: { channels: [ { alternatives: [ { transcript, words } ] } ] } },
    other properties and further channels or alternatives allowed. *)
Definition documented (data : value) (request_id transcript : string)
    (ws : list value) : Prop :=
  exists metadata results channel channels alternative alternatives,
    has data "metadata" metadata
    /\ has metadata "request_id" (Str request_id)
    /\ has data "results" results
    /\ has results "channels" (Arr (channel :: channels))
    /\ has channel "alternatives" (Arr (alternative :: alternatives))
    /\ has alternative "transcript" (Str transcript)
    /\ has alternative "words" (Arr ws).

(** [v] is an object with nothing to read from at [k]: the property is
    absent, undefined or null. *)
Definition nothing_at (v : value) (k : string) : Prop :=
  exists props,
    v = Obj props
    /\ (lookup k props = None \/ lookup k props = Some Undefined
        \/ lookup k props = Some Null).

(** An array with nothing to read from at index 0. *)
Definition no_first (elems : list value) : Prop :=
  elems = []
  \/ exists rest, elems = Undefined :: rest \/ elems = Null :: rest.

(** A body that lacks one of the nested fields of the documented shape:
    [metadata], [results], [channels], channel 0, [alternatives] or
    alternative 0. The fields above the lacking one are as documented;
    nothing is asked of the others. *)
Inductive lacks_nested_field (data : value) : Prop :=
| lacks_metadata :
    nothing_at data "metadata" -> lacks_nested_field data
| lacks_results :
    nothing_at data "results" -> lacks_nested_field data
| lacks_channels (results : value) :
    has data "results" results ->
    nothing_at results "channels" -> lacks_nested_field data
| lacks_channel_0 (results : value) (channels : list value) :
    has data "results" results ->
    has results "channels" (Arr channels) ->
    no_first channels -> lacks_nested_field data
| lacks_alternatives (results channel : value) (channels : list value) :
    has data "results" results ->
    has results "channels" (Arr (channel :: channels)) ->
    nothing_at channel "alternatives" -> lacks_nested_field data
| lacks_alternative_0 (results channel : value) (channels : list value)
    (alternatives : list value) :
    has data "results" results ->
    has results "channels" (Arr (channel :: channels)) ->
    has channel "alternatives" (Arr alternatives) ->
    no_first alternatives -> lacks_nested_field data.

(** What the webhook handler reads before it calls [updateTranscript]
    (route.ts, lines 12 to 15): the parsed body and the three optional
    chains, or the first exception one of them raises. *)
Definition webhook_reads (request : Webhook.Request)
  : result (value * value * value) :=
  data <- Webhook.json request ;;
  requestId <- Webhook.optional data (fun d =>
    metadata <- get d "metadata" ;; get metadata "request_id") ;;
  transcriptText <- Webhook.optional data (fun d =>
    a <- Webhook.alternative0 d ;; get a "transcript") ;;
  transcriptData <- Webhook.optional data (fun d =>
    a <- Webhook.alternative0 d ;; get a "words") ;;
  Ok (requestId, transcriptText, transcriptData).

(** The inputs [uploadVideoFile] must reject on their form alone. *)
Definition file_missing (formData : Videos.FormData) : Prop :=
  Videos.formData_get "file" formData = None
  \/ Videos.formData_get "file" formData = Some (Videos.EString "").

Definition project_missing (formData : Videos.FormData) : Prop :=
  Videos.formData_get "projectId" formData = None
  \/ Videos.formData_get "projectId" formData = Some (Videos.EString "").

Definition file_too_large (formData : Videos.FormData) : Prop :=
  exists f, Videos.formData_get "file" formData = Some (Videos.EFile f)
            /\ Store.size f > 104857600.

Definition type_disallowed (formData : Videos.FormData) : Prop :=
  exists f, Videos.formData_get "file" formData = Some (Videos.EFile f)
            /\ ~ In (Store.type f)
                    ["video/mp4"; "video/mov"; "video/avi"; "video/webm";
                     "video/quicktime"].

End Shape.

(* ===================================================================== *)
(** ** A small world and a callback body, for concrete runs *)
(* ===================================================================== *)

Module Demo.
Import JS Store.

Definition video1 : Video :=
  {| id := "0b8f7a52-3c1d-4e6f-9a2b-5d4c3b2a1f00";
     project_id := "p1";
     storage_path := "videos/p1/clip.mp4";
     status := transcribing;
     transcript_text := Null;
     transcript_data_full := Null;
     created_at := "2025-10-01T10:00:00Z";
     deepgram_request_id := Some "abc" |}.

Definition video2 : Video :=
  {| id := "7e1c2d3f-4a5b-4c6d-8e7f-9a0b1c2d3e4f";
     project_id := "p2";
     storage_path := "videos/p2/talk.webm";
     status := uploaded;
     transcript_text := Null;
     transcript_data_full := Null;
     created_at := "2025-10-01T11:00:00Z";
     deepgram_request_id := None |}.

Definition clip : File :=
  {| name := "clip.mp4"; size := 2048; type := "video/mp4" |}.

(** [encodeURI] on a string held as its UTF-8 bytes: letters, digits and
    the characters ; / ? : @ & = + $ , - _ . ! ~ * ' ( ) # are kept, every
    other byte becomes a percent sign and two upper-case hex digits. *)
Definition hex_digit (n : nat) : ascii :=
  nth n (list_ascii_of_string "0123456789ABCDEF") "0"%char.

Definition uri_kept (c : ascii) : bool :=
  let n := nat_of_ascii c in
  ((65 <=? n) && (n <=? 90))%nat
  || ((97 <=? n) && (n <=? 122))%nat
  || ((48 <=? n) && (n <=? 57))%nat
  || existsb (Ascii.eqb c) (list_ascii_of_string ";/?:@&=+$,-_.!~*'()#").

Fixpoint encodeURI (s : string) : string :=
  match s with
  | EmptyString => EmptyString
  | String c rest =>
      if uri_kept c then String c (encodeURI rest)
      else
        String "%"%char
          (String (hex_digit (nat_of_ascii c / 16))
             (String (hex_digit (nat_of_ascii c mod 16)) (encodeURI rest)))
  end.

(** The public URL of an object of the demo bucket. *)
Definition demo_url (path : string) : string :=
  encodeURI
    ("https://store.example/storage/v1/object/public/videos/" ++ path).

(** User [u1] owns project [p1] and is signed in; [faults] is the fault
    plan. *)
Definition world_of (faults : nat -> fault) : world :=
  {| session := Some "u1";
     projects := [ {| p_id := "p1"; p_user_id := "u1" |};
                   {| p_id := "p2"; p_user_id := "u2" |} ];
     videos := [video1; video2];
     bucket := [("videos/p1/clip.mp4", clip)];
     public_url := demo_url;
     plan := faults;
     clock := fun _ => "1759312800000";
     random := fun _ => "k2j8x1m4q";
     trace := [] |}.

(** All calls go well but the seventh, which throws. *)
Definition broken_storage : world :=
  world_of (fun n => if Nat.eqb n 6 then Throws else NoFault).

(** All calls go well but the second, which comes back with an error. *)
Definition failing_update : world :=
  world_of (fun n => if Nat.eqb n 1 then ReportsError else NoFault).

Definition cuban : value :=
  Obj [("word", Str "cuban"); ("start", Num 1.314923); ("end", Num 1.7930769);
       ("confidence", Num 0.87236464)].

(** A callback body of the documented shape, for request [rid]. *)
Definition payload (rid : string) : value :=
  Obj [("metadata", Obj [("request_id", Str rid)]);
       ("results",
        Obj [("channels",
              Arr [Obj [("alternatives",
                         Arr [Obj [("transcript", Str "cuban");
                                   ("confidence", Num 0.87236464);
                                   ("words", Arr [cuban])]])]])])].

End Demo.

(* ===================================================================== *)
(** ** More server actions: reading a video, its public URL, and creating
       a video from a form *)
(* ===================================================================== *)

Module VideoReads.
Import JS Store Supabase Videos.
Local Open Scope store_scope.

(** The [data] of [getVideoPublicUrl]. *)
Record PublicUrl : Type := {
  publicUrl : string
}.

Definition getVideoPublicUrl (storagePath : string)
  : M (ActionResult PublicUrl) :=
  try_catch
    (createClient ;;;
     user <~ auth_getUser ;;
     match user with
     | None => ret (fail (Message "Authentication required"))
     | Some _ =>
         publicUrl <~ storage_getPublicUrl storagePath ;;
         ret (succeed (Some {| publicUrl := publicUrl |}))
     end)
    (fun e => ret (fail (MessageOf e))).

Section GetVideoById.

Variable uuid : string -> bool.

(** The row is returned as a [Video], the declared type of the result;
    the [projects] object that the select joins to it is left out. *)
Definition getVideoById (id : string) : M (ActionResult Video) :=
  try_catch
    (validatedId <~ videoIdSchema_parse uuid id ;;
     createClient ;;;
     user <~ auth_getUser ;;
     match user with
     | None => ret (fail (Message "Authentication required"))
     | Some userId =>
         video <~ videos_select_owned validatedId userId ;;
         match video with
         | None => ret (fail (Message "Video not found or access denied"))
         | Some video => ret (succeed (Some video))
         end
     end)
    (fun e => ret (fail (MessageOf e))).

End GetVideoById.

(** What [createVideoWithFile] hands to [createVideo]: the form entries as
    they are ([None] is null), the storage path of the form or of the
    upload, the status or its default, and a null transcript. *)
Record CreateVideoData : Type := {
  cv_project_id : option entry;
  cv_storage_path : option entry;
  cv_status : option entry;
  cv_transcript : value
}.

(** [file && file.size > 0]; [size] of a string entry is undefined. *)
Definition has_content (file : option entry) : bool :=
  match file with
  | Some (EFile f) => size f >? 0
  | _ => false
  end.

(** The value [FormData.append] stores: null becomes the string "null",
    a string or a File is kept. *)
Definition appended (x : option entry) : entry :=
  match x with
  | None => EString "null"
  | Some e => e
  end.

(** [status || "uploaded"] *)
Definition status_or_default (status : option entry) : option entry :=
  if missing status then Some (EString "uploaded") else status.

Section CreateVideoWithFile.

(** [createVideo] is taken as it comes: what is modelled here is how
    [createVideoWithFile] reaches it. *)
Variable createVideo : CreateVideoData -> M (ActionResult Video).

Definition createVideoWithFile (formData : FormData)
  : M (ActionResult Video) :=
  try_catch
    (let file := formData_get "file" formData in
     let projectId := formData_get "projectId" formData in
     let status := formData_get "status" formData in
     let storagePath := formData_get "storagePath" formData in
     if has_content file then
       let uploadFormData :=
         [("file", appended file); ("projectId", appended projectId)] in
       uploadResult <~ uploadVideoFile uploadFormData ;;
       if negb (success uploadResult)
       then ret {| success := false; data := None;
                   error := error uploadResult |}
       else
         match data uploadResult with
         | None => throw TypeError
         | Some stored =>
             createVideo
               {| cv_project_id := projectId;
                  cv_storage_path := Some (EString (Videos.storagePath stored));
                  cv_status := status_or_default status;
                  cv_transcript := Null |}
         end
     else
       createVideo
         {| cv_project_id := projectId;
            cv_storage_path := storagePath;
            cv_status := status_or_default status;
            cv_transcript := Null |})
    (fun e => ret (fail (MessageOf e))).

End CreateVideoWithFile.

End VideoReads.

(* ===================================================================== *)
(** ** The logging webhook *)
(* ===================================================================== *)

Module WebhookLog.
Import JS Webhook.

(** The handler that only logs what it reads; it has no try/catch, so an
    exception of a read leaves the handler. The console output is left
    out. *)
Definition POST (request : Request) : result Response :=
  data <- json request ;;
  _ <- optional data (fun d => a <- alternative0 d ;; get a "transcript") ;;
  _ <- optional data (fun d => a <- alternative0 d ;; get a "words") ;;
  _ <- optional data (fun d =>
         metadata <- get d "metadata" ;; get metadata "request_id") ;;
  Ok {| body := "ok"; http_status := 200 |}.

End WebhookLog.

(* ===================================================================== *)
(** ** Showing a stored transcript as text *)
(* ===================================================================== *)

Module TranscriptText.
Import JS Webhook.

(** What ends up on the page: a value as it is, or
    [JSON.stringify(v, null, 2)] of one. *)
Inductive text : Type :=
| Shown (v : value)
| Stringified (v : value).

Definition is_string (v : value) : bool :=
  match v with
  | Str _ => true
  | _ => false
  end.

(** [v?.k] and [v?.[0]] *)
Definition get_opt (v : value) (k : string) : result value :=
  optional v (fun d => get d k).

Definition first_opt (v : value) : result value :=
  optional v first.

(** [results?.channels?.[0]?.alternatives?.[0]?.transcript], from the
    value of [results] on. *)
Definition transcript_of_results (results : value) : result value :=
  channels <- get_opt results "channels" ;;
  channel <- first_opt channels ;;
  alternatives <- get_opt channel "alternatives" ;;
  alternative <- first_opt alternatives ;;
  get_opt alternative "transcript".

(** TranscriptManager's [getTranscriptText]. *)
Definition getTranscriptText (transcriptData : value) : text :=
  if negb (truthy transcriptData) then Shown (Str "")
  else
    match
      (results <- get transcriptData "results" ;;
       deepgram <- transcript_of_results results ;;
       if truthy deepgram
       then
         a <- alternative0 transcriptData ;;
         t <- get a "transcript" ;;
         Ok (Shown t)
       else if is_string transcriptData then Ok (Shown transcriptData)
       else
         t <- get transcriptData "transcript" ;;
         if truthy t then Ok (Shown t)
         else Ok (Stringified transcriptData))
    with
    | Ok t => t
    | Throw _ => Shown (Str "Error parsing transcript")
    end.

End TranscriptText.

(* ===================================================================== *)
(** ** The video page: player, transcript section and seeking *)
(* ===================================================================== *)

Module Page.
Import JS Store Transcript TranscriptText.

(** The [useState] cells of VideoPlayerWithTranscript. *)
Record PageState : Type := {
  currentTime : float;
  publicUrl : option string;
  isLoadingUrl : bool;
  urlError : option string
}.

(** What the page holds of the DOM: whether [videoPlayerRef.current] and
    the player's [videoRef.current] are set, and the values assigned to
    the media element's [currentTime], oldest first. *)
Record Dom : Type := {
  player_attached : bool;
  element_mounted : bool;
  assignments : list float
}.

Definition setCurrentTime (time : float) (st : PageState) : PageState :=
  {| currentTime := time; publicUrl := publicUrl st;
     isLoadingUrl := isLoadingUrl st; urlError := urlError st |}.

Definition handleTimeUpdate (newTime : float) (st : PageState) : PageState :=
  setCurrentTime newTime st.

Definition handleVideoSeek (time : float) (st : PageState) : PageState :=
  setCurrentTime time st.

(** The player's [seekTo]: assigning a NaN or an infinity to
    [currentTime] of a media element is a TypeError. *)
Definition seekTo {S : Type} (onSeek : option (float -> S -> S))
    (time : float) (dom : Dom) (s : S) : result (Dom * S) :=
  if element_mounted dom then
    if PrimFloat.is_finite time then
      Ok ({| player_attached := player_attached dom;
             element_mounted := element_mounted dom;
             assignments := assignments dom ++ [time] |},
          match onSeek with
          | Some f => f time s
          | None => s
          end)
    else Throw TypeError
  else Ok (dom, s).

(** The page's [handleWordClick]. *)
Definition handleWordClick (startTime : float) (dom : Dom) (st : PageState)
  : result (Dom * PageState) :=
  if player_attached dom then seekTo (Some handleVideoSeek) startTime dom st
  else Ok (dom, st).

Definition hasInteractiveTranscript (video : Video) : bool :=
  match transcript_data_full video with
  | Arr elems => Z.of_nat (List.length elems) >? 0
  | _ => false
  end.

(** The line under "No transcript available". *)
Definition status_hint (s : Status) : string :=
  match s with
  | uploaded => "Video needs to be transcribed"
  | transcribing => "Transcript is being generated..."
  | error_status => "An error occurred during transcription"
  | transcribed => "Transcript data may be corrupted"
  end.

(** The card shown when there are no word timestamps. *)
Inductive card : Type :=
| TranscriptText (t : text)
| NoTranscript (hint : string).

(** The text is a child of the card's paragraph: a Deepgram transcript
    that React does not accept as a child makes the rendering throw. *)
Definition transcript_card (video : Video) : result card :=
  if truthy (transcript_text video) then
    if is_string (transcript_text video)
    then Ok (TranscriptText (Shown (transcript_text video)))
    else
      results <- get_opt (transcript_text video) "results" ;;
      deepgram <- transcript_of_results results ;;
      if truthy deepgram
      then
        child <- react_child deepgram ;;
        Ok (TranscriptText (Shown child))
      else Ok (TranscriptText (Stringified (transcript_text video)))
  else Ok (NoTranscript (status_hint (status video))).

(** The transcript section of the page. *)
Inductive transcript_section : Type :=
| Interactive (child : result view)
| Plain (c : result card).

(** What VideoPlayerWithTranscript returns: the "Loading Video" card, the
    "Unable to Load Video" card with its reason, or the player on its URL
    above the transcript section. *)
Inductive page_view : Type :=
| LoadingVideo
| UnableToLoad (reason : string)
| Player (url : string) (section : transcript_section).

(** ToBoolean of a [string | null] state cell. *)
Definition truthy_text (s : option string) : bool :=
  match s with
  | Some (String _ _) => true
  | Some EmptyString | None => false
  end.

Definition text_of (s : option string) : string :=
  match s with
  | Some t => t
  | None => EmptyString
  end.

Section Wiring.

Variable ToNumberExt : value -> float.

(** The props the page gives to InteractiveTranscript. *)
Definition child_props (video : Video) (st : PageState)
  : Props (Dom -> PageState -> result (Dom * PageState)) :=
  {| transcriptData := transcript_data_full video;
     Transcript.currentTime := currentTime st;
     onWordClick := fun startTime => handleWordClick (ToNumber ToNumberExt startTime);
     highlightCurrentWord := true |}.

(** The component function with its two early returns; [child] is the
    state of the InteractiveTranscript it mounts. *)
Definition VideoPlayerWithTranscript (video : Video) (st : PageState)
    (child : State) : page_view :=
  if isLoadingUrl st then LoadingVideo
  else if truthy_text (urlError st) || negb (truthy_text (publicUrl st))
  then UnableToLoad (if truthy_text (urlError st) then text_of (urlError st)
                     else "Video URL not available")
  else
    Player (text_of (publicUrl st))
      (if hasInteractiveTranscript video
       then Interactive
              (InteractiveTranscript ToNumberExt (child_props video st) child)
       else Plain (transcript_card video)).

End Wiring.

End Page.

(* ===================================================================== *)
(** ** The upload form: choosing a file *)
(* ===================================================================== *)

Module UploadForm.
Import Store.

(** The cells of VideoUploadForm that choosing a file touches:
    [formData.storage_path], [selectedFile] and [errors]. *)
Record FormState : Type := {
  storage_path : string;
  selectedFile : option File;
  errors : list (string * string)
}.

Fixpoint error_of (field : string) (errs : list (string * string))
  : option string :=
  match errs with
  | [] => None
  | (k, v) :: rest => if String.eqb field k then Some v else error_of field rest
  end.

(** [errors[field]] is set and not empty. *)
Definition has_error (field : string) (errs : list (string * string)) : bool :=
  match error_of field errs with
  | Some (String _ _) => true
  | _ => false
  end.

(** handleFileSelect, for the file [e.target.files?.[0]] ([None] when
    there is none); [now] is [Date.now()] as text. The errors are first
    emptied; then [updateFormData] blanks the storage-path error if the
    errors it was rendered with had one. *)
Definition handleFileSelect (projectId now : string) (file : option File)
    (st : FormState) : FormState :=
  match file with
  | None => st
  | Some file =>
      let maxSize := 100 * 1024 * 1024 in
      if size file >? maxSize then
        {| storage_path := storage_path st; selectedFile := selectedFile st;
           errors := [("file", "File size must be less than 100MB")] |}
      else
        let allowedTypes :=
          ["video/mp4"; "video/mov"; "video/avi"; "video/webm";
           "video/quicktime"] in
        if negb (existsb (String.eqb (type file)) allowedTypes) then
          {| storage_path := storage_path st; selectedFile := selectedFile st;
             errors :=
               [("file",
                 "File type not supported. Please use MP4, MOV, AVI, or WebM")] |}
        else
          {| storage_path := "videos/" ++ projectId ++ "/" ++ now ++ "_" ++ name file;
             selectedFile := Some file;
             errors := if has_error "storage_path" (errors st)
                       then [("storage_path", "")] else [] |}
  end.

End UploadForm.

(* ===================================================================== *)
(** ** Vocabulary of the further statements *)
(* ===================================================================== *)

Module Outcome.
Import JS Videos.

(** Whether a run returned a result that reports success. *)
Definition success_of {T} (r : result (ActionResult T)) : bool :=
  match r with
  | Ok a => success a
  | Throw _ => false
  end.

(** Whether a string has a dot. *)
Fixpoint has_dot (s : string) : bool :=
  match s with
  | EmptyString => false
  | String c rest => Ascii.eqb c "."%char || has_dot rest
  end.

End Outcome.

(* ===================================================================== *)
(** ** Two words that touch, for concrete runs of the page *)
(* ===================================================================== *)

Module Demo2.
Import JS Store Transcript.

Definition cuban : Word :=
  {| word := "cuban"; start := 1.3; end_ := 1.8; confidence := 0.87;
     punctuated_word := None |}.

Definition food : Word :=
  {| word := "food"; start := 1.8; end_ := 2.1; confidence := 0.93;
     punctuated_word := Some "food." |}.

Definition video : Video :=
  {| id := "0b8f7a52-3c1d-4e6f-9a2b-5d4c3b2a1f00";
     project_id := "p1";
     storage_path := "videos/p1/clip.mp4";
     status := transcribed;
     transcript_text := Str "cuban food.";
     transcript_data_full := Arr (map js_of_word [cuban; food]);
     created_at := "2025-10-01T10:00:00Z";
     deepgram_request_id := Some "abc" |}.

Definition page : Page.PageState :=
  {| Page.currentTime := 0%float;
     Page.publicUrl := Some "https://store.example/clip.mp4";
     Page.isLoadingUrl := false;
     Page.urlError := None |}.

Definition dom : Page.Dom :=
  {| Page.player_attached := true; Page.element_mounted := true;
     Page.assignments := [] |}.

Definition child : State :=
  {| showConfidence := false; currentWordIndex := -1 |}.

End Demo2.

(* ===================================================================== *)
(** ** The span of a typed word *)
(* ===================================================================== *)

Module Rendering.
Import JS Transcript.

(** The text shown for a word: its punctuated form when it has one that
    is not empty, its plain form otherwise. *)
Definition display_of (w : Word) : string :=
  match punctuated_word w with
  | Some (String c s) => String c s
  | _ => word w
  end.

(** The span expected at position [index] for the word [w]. *)
Definition span_of (highlight : bool) (st : State) (index : Z) (w : Word)
  : span :=
  {| data_word_index := index;
     isCurrentWord := highlight && (index =? currentWordIndex st);
     displayWord := Str (display_of w);
     badge := if showConfidence st
              then Some (getConfidenceColor (confidence w),
                         getConfidenceBadge (confidence w))
              else None |}.

End Rendering.

(* ===================================================================== *)
(** ** The list of videos and the name shown for a video *)
(* ===================================================================== *)

(** [VideosList] of src/components/videos/videos-list.tsx: the filter, the
    counts on the status buttons and the sort toggle. The sort itself is
    not modelled; it permutes [filteredVideos]. *)
Module VideosList.
Import Store.

(** TranscriptStatus | "all" *)
Inductive StatusFilter : Type := All | Only (s : Status).

Inductive SortField : Type := by_created_at | by_status | by_storage_path.
Inductive SortOrder : Type := asc | desc.

Record ListState : Type := {
  searchTerm : string;
  statusFilter : StatusFilter;
  sortField : SortField;
  sortOrder : SortOrder
}.

(** The four [useState] initial values. *)
Definition initial : ListState :=
  {| searchTerm := ""; statusFilter := All;
     sortField := by_created_at; sortOrder := desc |}.

(** [===] on two statuses. *)
Definition status_eqb (a b : Status) : bool :=
  match a, b with
  | uploaded, uploaded => true
  | transcribing, transcribing => true
  | transcribed, transcribed => true
  | error_status, error_status => true
  | _, _ => false
  end.

Definition field_eqb (a b : SortField) : bool :=
  match a, b with
  | by_created_at, by_created_at => true
  | by_status, by_status => true
  | by_storage_path, by_storage_path => true
  | _, _ => false
  end.

(** videoStatusValues *)
Definition videoStatusValues : list Status :=
  [uploaded; transcribing; transcribed; error_status].

Section Filter.

(** [String.prototype.toLowerCase] and [includes], and the joined
    [video.projects?.project_title]. *)
Variable toLowerCase : string -> string.
Variable includes : string -> string -> bool.
Variable project_title : Video -> option string.

Definition matchesSearch (st : ListState) (video : Video) : bool :=
  String.eqb (searchTerm st) ""
  || includes (toLowerCase (storage_path video))
              (toLowerCase (searchTerm st))
  || match project_title video with
     | Some title => includes (toLowerCase title) (toLowerCase (searchTerm st))
     | None => false
     end.

Definition matchesStatus (st : ListState) (video : Video) : bool :=
  match statusFilter st with
  | All => true
  | Only s => status_eqb (status video) s
  end.

Definition filteredVideos (st : ListState) (videos : list Video)
  : list Video :=
  filter (fun video => matchesSearch st video && matchesStatus st video)
         videos.

End Filter.

Definition getStatusCount (videos : list Video) (s : Status) : nat :=
  List.length (filter (fun video => status_eqb (status video) s) videos).

Definition toggleSort (field : SortField) (st : ListState) : ListState :=
  if field_eqb (sortField st) field
  then {| searchTerm := searchTerm st; statusFilter := statusFilter st;
          sortField := sortField st;
          sortOrder := match sortOrder st with asc => desc | desc => asc end |}
  else {| searchTerm := searchTerm st; statusFilter := statusFilter st;
          sortField := field; sortOrder := desc |}.

Definition setStatusFilter (f : StatusFilter) (st : ListState) : ListState :=
  {| searchTerm := searchTerm st; statusFilter := f;
     sortField := sortField st; sortOrder := sortOrder st |}.

Definition setSearchTerm (s : string) (st : ListState) : ListState :=
  {| searchTerm := s; statusFilter := statusFilter st;
     sortField := sortField st; sortOrder := sortOrder st |}.

(** The "Clear Filters" button. *)
Definition clearFilters (st : ListState) : ListState :=
  setStatusFilter All (setSearchTerm "" st).

(** What the list shows: the empty page, the "no match" notice with its
    button, or the grid of as many cards as [sortedVideos] has. *)
Inductive list_view : Type :=
| NoVideosYet
| NoMatch
| Grid (cards : nat).

Section View.
Variable toLowerCase : string -> string.
Variable includes : string -> string -> bool.
Variable project_title : Video -> option string.

Definition render (st : ListState) (videos : list Video) : list_view :=
  match videos with
  | [] => NoVideosYet
  | _ :: _ =>
      match List.length
              (filteredVideos toLowerCase includes project_title st videos)
      with
      | O => NoMatch
      | S n => Grid (S n)
      end
  end.

End View.

End VideosList.

(** [getFileName] of src/components/videos/video-card.tsx. *)
Module FileName.

(** s.split(sep).pop(): what follows the last [sep], or all of [s]. *)
Fixpoint last_part (sep : ascii) (s acc : string) : string :=
  match s with
  | EmptyString => acc
  | String c rest =>
      if Ascii.eqb c sep then last_part sep rest EmptyString
      else last_part sep rest (acc ++ String c EmptyString)
  end.

(** storagePath.split("/").pop() || storagePath *)
Definition getFileName (storagePath : string) : string :=
  match last_part "/"%char storagePath EmptyString with
  | EmptyString => storagePath
  | String c rest => String c rest
  end.

(** `${getFileName(video.storage_path)}_transcript.txt` *)
Definition download_name (storagePath : string) : string :=
  getFileName storagePath ++ "_transcript.txt".

Fixpoint has_slash (s : string) : bool :=
  match s with
  | EmptyString => false
  | String c rest => Ascii.eqb c "/"%char || has_slash rest
  end.

End FileName.


(* ===================================================================== *)
(** ** Comparison of doubles *)
(* ===================================================================== *)

Module FloatOrder.

Lemma SFleb_trans (x y z : spec_float) :
  SFleb x y = true -> SFleb y z = true -> SFleb x z = true.
Proof.
  unfold SFleb.
  destruct x as [sx|sx| |sx mx ex], y as [sy|sy| |sy my ey],
           z as [sz|sz| |sz mz ez];
    simpl; try discriminate; try reflexivity;
    repeat match goal with b : bool |- _ => destruct b end;
    simpl; try discriminate; try reflexivity.
  all: change (Pos.compare_cont Eq) with Pos.compare.
  all: destruct (Z.compare_spec ex ey), (Z.compare_spec ey ez),
         (Z.compare_spec ex ez);
    simpl; try discriminate; try reflexivity; try lia;
    destruct (Pos.compare_spec mx my), (Pos.compare_spec my mz),
      (Pos.compare_spec mx mz);
    simpl; try discriminate; try reflexivity; try lia.
Qed.

(** [<=] on doubles is transitive (NaN is below and above nothing). *)
Lemma leb_trans (x y z : float) :
  PrimFloat.leb x y = true -> PrimFloat.leb y z = true ->
  PrimFloat.leb x z = true.
Proof. rewrite !leb_spec. apply SFleb_trans. Qed.

End FloatOrder.

(* ===================================================================== *)
(** ** The transcript synchronizer: proofs *)
(* ===================================================================== *)

Module TranscriptFacts.
Import JS Transcript Shape.

Section Synchronizer.

Variable X : value -> float.

(** On a well-typed word the callback of [findIndex] does not throw and
    decides [start <= currentTime <= end]. *)
Lemma inWord_js_of_word (t : float) (w : Word) :
  inWord X t (js_of_word w) = Ok (within t w).
Proof.
  unfold inWord, within, js_of_word, ge, le. simpl.
  destruct (PrimFloat.leb (start w) t); reflexivity.
Qed.

(** [findIndex] on any array and any callback: what a returned index
    means. *)
Lemma findIndex_from_sound (p : value -> result bool) :
  forall (l : list value) (i r : Z),
    findIndex_from p l i = Ok r ->
    (r = -1 /\ forall x, In x l -> p x = Ok false)
    \/ exists (k : nat) (x : value),
         r = i + Z.of_nat k /\ nth_error l k = Some x /\ p x = Ok true
         /\ forall (j : nat) (y : value),
              (j < k)%nat -> nth_error l j = Some y -> p y = Ok false.
Proof.
  induction l as [|a l IH]; intros i r H; simpl in H.
  - left. split; [congruence | intros x []].
  - destruct (p a) as [[|]|e] eqn:Hp; try discriminate.
    + right. exists 0%nat, a. repeat split; try assumption.
      * injection H as <-. lia.
      * intros j y Hj. lia.
    + destruct (IH _ _ H) as [[-> Hall] | (k & x & -> & Hn & Hx & Hbefore)].
      * left. split; [reflexivity|]. intros x [<-|Hin]; auto.
      * right. exists (S k), x. repeat split; try assumption; try lia.
        intros [|j] y Hj Hy; simpl in Hy.
        -- congruence.
        -- apply (Hbefore j); [lia | assumption].
Qed.

(** On well-typed words [findIndex] returns, and returns the first
    match. *)
Lemma findIndex_from_words (t : float) :
  forall (ws : list Word) (i : Z),
    (findIndex_from (inWord X t) (map js_of_word ws) i = Ok (-1)
     /\ forall w, In w ws -> within t w = false)
    \/ exists (k : nat) (w : Word),
         findIndex_from (inWord X t) (map js_of_word ws) i
           = Ok (i + Z.of_nat k)
         /\ nth_error ws k = Some w /\ within t w = true
         /\ forall (j : nat) (w' : Word),
              (j < k)%nat -> nth_error ws j = Some w' -> within t w' = false.
Proof.
  induction ws as [|a ws IH]; intros i; simpl.
  - left. split; [reflexivity | intros w []].
  - rewrite inWord_js_of_word. destruct (within t a) eqn:Ha.
    + right. exists 0%nat, a. repeat split; try assumption.
      * f_equal. lia.
      * intros j w' Hj. lia.
    + destruct (IH (i + 1)) as [[-> Hall] | (k & w & -> & Hn & Hw & Hbefore)].
      * left. split; [reflexivity|]. intros w [<-|Hin]; auto.
      * right. exists (S k), w. repeat split; try assumption.
        -- f_equal. lia.
        -- intros [|j] w' Hj Hw'; simpl in Hw'.
           ++ congruence.
           ++ apply (Hbefore j); [lia | assumption].
Qed.

Lemma locateCurrentWord_unfold (highlight : bool) (l : list value) (t : float) :
  locateCurrentWord X highlight l t
  = if negb highlight || (Z.of_nat (List.length l) =? 0) then Ok (-1)
    else findIndex (inWord X t) l.
Proof.
  unfold locateCurrentWord, currentWordEffect.
  destruct (negb highlight || (Z.of_nat (List.length l) =? 0)); [reflexivity|].
  simpl. destruct (findIndex (inWord X t) l); reflexivity.
Qed.

(** C1. For every list of words and every playback time the current-word
    index is computed without an exception and is either -1 or the index
    of a word with [start <= currentTime <= end] (both bounds inclusive)
    before which no word satisfies that predicate; with highlighting on,
    any word that satisfies the predicate forces a result that is not -1
    and not after it, so among several matches the earliest wins. *)
Theorem locateCurrentWord_first_match :
  forall (highlight : bool) (ws : list Word) (t : float),
  exists r : Z,
    locateCurrentWord X highlight (map js_of_word ws) t = Ok r
    /\ (r = -1
        \/ exists (i : nat) (w : Word),
             r = Z.of_nat i /\ nth_error ws i = Some w
             /\ PrimFloat.leb (start w) t = true
             /\ PrimFloat.leb t (end_ w) = true
             /\ forall (j : nat) (w' : Word),
                  (j < i)%nat -> nth_error ws j = Some w' ->
                  within t w' = false)
    /\ (highlight = true ->
        forall (i : nat) (w : Word),
          nth_error ws i = Some w -> within t w = true ->
          0 <= r <= Z.of_nat i).
Proof.
  intros highlight ws t. rewrite locateCurrentWord_unfold.
  destruct highlight; simpl negb; simpl orb.
  2:{ exists (-1). split; [reflexivity|]. split; [now left | discriminate]. }
  destruct ws as [|a ws].
  { exists (-1). split; [reflexivity|]. split; [now left|].
    intros _ [|i] w H; discriminate H. }
  replace (Z.of_nat (List.length (map js_of_word (a :: ws))) =? 0) with false
    by (symmetry; apply Z.eqb_neq; simpl List.length; lia).
  unfold findIndex.
  destruct (findIndex_from_words t (a :: ws) 0)
    as [[Hr Hall] | (k & w & Hr & Hn & Hw & Hbefore)]; rewrite Hr.
  - exists (-1). split; [reflexivity|]. split; [now left|].
    intros _ i w Hi Hw. apply nth_error_In in Hi.
    rewrite (Hall w Hi) in Hw. discriminate.
  - exists (0 + Z.of_nat k). split; [reflexivity|]. split.
    + right. exists k, w. unfold within in Hw.
      apply andb_true_iff in Hw as [Hs He]. repeat split; auto.
    + intros _ i w' Hi Hw'. split; [lia|].
      destruct (Nat.lt_ge_cases i k) as [Hlt|Hge]; [|lia].
      rewrite (Hbefore i w' Hlt Hi) in Hw'. discriminate.
Qed.

(** The same on any array, whatever its elements: an index that is
    returned is -1 or that of the first element on which the callback
    holds. *)
Lemma locateCurrentWord_any_array (highlight : bool) (l : list value)
    (t : float) (r : Z) :
  locateCurrentWord X highlight l t = Ok r ->
  r = -1
  \/ exists (k : nat) (x : value),
       r = Z.of_nat k /\ nth_error l k = Some x /\ inWord X t x = Ok true
       /\ forall (j : nat) (y : value),
            (j < k)%nat -> nth_error l j = Some y -> inWord X t y = Ok false.
Proof.
  rewrite locateCurrentWord_unfold.
  destruct (negb highlight || (Z.of_nat (List.length l) =? 0)).
  - intros [= <-]. now left.
  - intros H. apply findIndex_from_sound in H.
    destruct H as [[-> _] | (k & x & -> & Hk & Hx & Hbefore)]; [now left|].
    right. exists k, x. repeat split; assumption.
Qed.

(** Scenario A of the specification. *)
Example scenario_A :
  let ws := [ {| word := "cuban"; start := 1.3; end_ := 1.8;
                 confidence := 0.9; punctuated_word := None |};
              {| word := "food"; start := 1.8; end_ := 2.1;
                 confidence := 0.9; punctuated_word := None |} ] in
  locateCurrentWord X true (map js_of_word ws) 1.5 = Ok 0
  /\ locateCurrentWord X true (map js_of_word ws) 2.0 = Ok 1
  /\ locateCurrentWord X true (map js_of_word ws) 5.0 = Ok (-1)
  /\ locateCurrentWord X true (map js_of_word ws) 1.8 = Ok 0.
Proof. repeat split; reflexivity. Qed.

(** C4. On an empty word list the effect resets the index to -1 at once,
    whatever the playback time: no timer is armed, nothing is scrolled,
    and the value of the index is -1. The same holds of the words of an
    empty array. *)
Theorem locateCurrentWord_empty :
  forall (highlight : bool) (t : float) (mounted : bool),
    locateCurrentWord X highlight [] t = Ok (-1)
    /\ currentWordEffect X highlight [] t mounted = Immediate (-1)
    /\ currentWordEffect X highlight (words (Arr [])) t mounted = Immediate (-1).
Proof. intros [|] t mounted; repeat split; reflexivity. Qed.

(** C7. Clicking a word calls the parent's [onWordClick] on exactly the
    word's [start], whatever the props (playback time, transcript,
    highlighting), the component's state and the other fields of the
    word. *)
Theorem handleWordClick_passes_start :
  forall (T : Type) (props : Props T) (st : State) (w : Word),
    handleWordClick props st (js_of_word w)
    = Ok (onWordClick props (Num (start w))).
Proof. intros T props st w. reflexivity. Qed.

(** The words of a non-empty array are its elements, unvalidated, and the
    component does not render the fallback for them. *)
Lemma nonempty_array_not_fallback :
  forall (T : Type) (props : Props T) (st : State) (e : value)
         (elems : list value),
    transcriptData props = Arr (e :: elems) ->
    words (transcriptData props) = e :: elems
    /\ InteractiveTranscript X props st <> Ok Fallback.
Proof.
  intros T props st e elems H. unfold InteractiveTranscript. rewrite H.
  split; [reflexivity|].
  simpl. destruct (render_word _ _ _ _); simpl; [|discriminate].
  destruct (render_words _ _ _ _); simpl; [|discriminate].
  destruct (valid_child _ && forallb _ _); discriminate.
Qed.

(** C3, as amended. Transcript data that is not an array, or is an empty
    array, gives zero words; the component renders the fallback and the
    effect resets the index at once; neither throws. *)
Theorem malformed_transcript_degrades :
  forall (T : Type) (props : Props T) (st : State) (mounted : bool),
    isArray (transcriptData props) = false \/ transcriptData props = Arr [] ->
    words (transcriptData props) = []
    /\ InteractiveTranscript X props st = Ok Fallback
    /\ currentWordEffect X (highlightCurrentWord props)
         (words (transcriptData props)) (currentTime props) mounted
       = Immediate (-1).
Proof.
  intros T props st mounted H.
  assert (Hw : words (transcriptData props) = []).
  { destruct H as [H | H].
    - destruct (transcriptData props); try reflexivity. discriminate H.
    - rewrite H. reflexivity. }
  unfold InteractiveTranscript. rewrite Hw. repeat split.
  unfold currentWordEffect. simpl. rewrite orb_true_r. reflexivity.
Qed.

End Synchronizer.

(** Scenario B of the specification: the string "hello world". *)
Lemma malformed_transcript_degrades_witness :
  words (Str "hello world") = []
  /\ InteractiveTranscript (fun _ => nan)
       {| transcriptData := Str "hello world"; currentTime := 0%float;
          onWordClick := fun _ => tt; highlightCurrentWord := true |}
       {| showConfidence := false; currentWordIndex := -1 |}
     = Ok Fallback
  /\ currentWordEffect (fun _ => nan) true (words (Str "hello world"))
       0%float true
     = Immediate (-1).
Proof.
  apply (malformed_transcript_degrades (fun _ => nan) unit
           {| transcriptData := Str "hello world"; currentTime := 0%float;
              onWordClick := fun _ => tt; highlightCurrentWord := true |}
           {| showConfidence := false; currentWordIndex := -1 |} true).
  left. reflexivity.
Defined.

(** C3 as stated fails. An array whose only element lacks [start], [end]
    and [confidence] is malformed, yet one word is reported and the
    transcript view is rendered, not the fallback; and for an array that
    holds [null] the component throws a TypeError. *)
Lemma missing_fields_not_degraded :
  malformed (Arr [Obj [("word", Str "hello")]])
  /\ words (Arr [Obj [("word", Str "hello")]]) = [Obj [("word", Str "hello")]]
  /\ InteractiveTranscript (fun _ => nan)
       {| transcriptData := Arr [Obj [("word", Str "hello")]];
          currentTime := 0%float;
          onWordClick := fun _ => tt; highlightCurrentWord := true |}
       {| showConfidence := false; currentWordIndex := -1 |}
     = Ok (TranscriptView 1
             [ {| data_word_index := 0; isCurrentWord := false;
                  displayWord := Str "hello"; badge := None |} ])
  /\ malformed (Arr [Null])
  /\ InteractiveTranscript (fun _ => nan)
       {| transcriptData := Arr [Null]; currentTime := 0%float;
          onWordClick := fun _ => tt; highlightCurrentWord := true |}
       {| showConfidence := false; currentWordIndex := -1 |}
     = Throw TypeError.
Proof.
  repeat split; try reflexivity.
  - right. right. eexists. split; reflexivity.
  - right. right. eexists. split; reflexivity.
Qed.

(** [getConfidenceBadge] has three bands in order: monotone, and each band
    is reached. *)
Lemma getConfidenceBadge_monotone (c1 c2 : float) :
  PrimFloat.leb c1 c2 = true ->
  exists b1 b2,
    band_of_badge (getConfidenceBadge c1) = Some b1
    /\ band_of_badge (getConfidenceBadge c2) = Some b2
    /\ band_rank b1 <= band_rank b2.
Proof.
  intros H. unfold getConfidenceBadge.
  destruct (PrimFloat.leb 0.9 c1) eqn:H9.
  - rewrite (FloatOrder.leb_trans _ _ _ H9 H).
    exists High, High. repeat split. simpl. lia.
  - destruct (PrimFloat.leb 0.7 c1) eqn:H7.
    + rewrite (FloatOrder.leb_trans _ _ _ H7 H).
      destruct (PrimFloat.leb 0.9 c2);
        [exists Medium, High | exists Medium, Medium];
        repeat split; simpl; lia.
    + destruct (PrimFloat.leb 0.9 c2); [|destruct (PrimFloat.leb 0.7 c2)];
        [exists Low, High | exists Low, Medium | exists Low, Low];
        repeat split; simpl; lia.
Qed.

Lemma getConfidenceBadge_bands :
  getConfidenceBadge 0.95 = "High"
  /\ getConfidenceBadge 0.8 = "Medium"
  /\ getConfidenceBadge 0.5 = "Low".
Proof. repeat split; reflexivity. Qed.

(** [getConfidenceColor] is monotone as well, on the two bands it has. *)
Lemma getConfidenceColor_monotone (c1 c2 : float) :
  PrimFloat.leb c1 c2 = true ->
  exists b1 b2,
    band_of_color (getConfidenceColor c1) = Some b1
    /\ band_of_color (getConfidenceColor c2) = Some b2
    /\ band_rank b1 <= band_rank b2.
Proof.
  intros H. unfold getConfidenceColor.
  destruct (PrimFloat.leb 0.7 c1) eqn:H7.
  - rewrite (FloatOrder.leb_trans _ _ _ H7 H).
    exists High, High. repeat split. simpl. lia.
  - destruct (PrimFloat.leb 0.7 c2);
      [exists Low, High | exists Low, Low]; repeat split; simpl; lia.
Qed.

(** C6 fails on [getConfidenceColor]: both of its tests use the cutoff
    0.7, so the yellow (medium) class is produced for no confidence; at
    0.8 the badge text is "Medium" while the colour is the green of the
    high band. *)
Theorem getConfidenceColor_never_medium :
  (forall c : float, getConfidenceColor c <> "text-yellow-600")
  /\ (forall c : float, band_of_color (getConfidenceColor c) <> Some Medium)
  /\ getConfidenceColor 0.8 = "text-green-600"
  /\ getConfidenceBadge 0.8 = "Medium".
Proof.
  repeat split; try reflexivity; intros c; unfold getConfidenceColor;
    destruct (PrimFloat.leb 0.7 c); simpl; discriminate.
Qed.

End TranscriptFacts.

(* ===================================================================== *)
(** ** The webhook and the server actions: proofs *)
(* ===================================================================== *)

Module ServerFacts.
Import JS Store Supabase Videos Webhook Shape.

Lemma get_has (v : value) (k : string) (x : value) :
  has v k x -> get v k = Ok x.
Proof. intros (props & -> & H). simpl. rewrite H. reflexivity. Qed.

(** Reading through a missing field raises. *)
Lemma get_nothing (v : value) (k : string) :
  nothing_at v k ->
  exists x, get v k = Ok x /\ (x = Undefined \/ x = Null).
Proof.
  intros (props & -> & [H | [H | H]]); simpl; rewrite H; eauto.
Qed.

Lemma first_nothing (elems : list value) :
  no_first elems ->
  exists x, first (Arr elems) = Ok x /\ (x = Undefined \/ x = Null).
Proof.
  intros [-> | (rest & [-> | ->])]; simpl; eauto.
Qed.

Lemma get_nullish (x : value) (k : string) :
  x = Undefined \/ x = Null -> get x k = Throw TypeError.
Proof. intros [-> | ->]; reflexivity. Qed.

Lemma first_nullish (x : value) :
  x = Undefined \/ x = Null -> first x = Throw TypeError.
Proof. intros [-> | ->]; reflexivity. Qed.

(** A body that lacks a nested field is an object, and one of the
    handler's reads raises a TypeError on it. *)
Lemma webhook_reads_lacking (data : value) :
  lacks_nested_field data ->
  webhook_reads {| json := Ok data |} = Throw TypeError.
Proof.
  intros Hlack.
  assert (Hobj : exists props, data = Obj props).
  { destruct Hlack as [(p & -> & _) | (p & -> & _) | r (p & -> & _) _
                      | r c (p & -> & _) _ _ | r c cs (p & -> & _) _ _
                      | r c cs al (p & -> & _) _ _ _]; eauto. }
  assert (Hchain :
    bind (get data "metadata") (fun m => get m "request_id") = Throw TypeError
    \/ forall k, bind (alternative0 data) (fun a => get a k) = Throw TypeError).
  { destruct Hlack as [Hm | Hr | r Hr Hc | r c Hr Hc Hn | r c cs Hr Hc Ha
                      | r c cs al Hr Hc Ha Hn];
      [left | right; intros k; unfold alternative0 ..];
      repeat match goal with
             | H : has _ _ _ |- _ => destruct H as (? & -> & ?)
             | H : nothing_at _ _ |- _ =>
                 destruct H as (? & -> & [? | [? | ?]])
             | H : no_first _ |- _ => destruct H as [-> | (? & [-> | ->])]
             end;
      simpl;
      repeat (match goal with
              | H : lookup _ _ = _ |- _ => rewrite H
              end; simpl);
      reflexivity. }
  destruct Hobj as (props & ->).
  unfold webhook_reads, optional. cbn [json bind].
  destruct Hchain as [Hm | Ht].
  - rewrite Hm. reflexivity.
  - destruct (bind (get (Obj props) "metadata") _) as [rid|e] eqn:Em.
    + cbn [bind]. rewrite (Ht "transcript"). reflexivity.
    + cbn [bind]. f_equal. simpl in Em.
      destruct (lookup "metadata" props) as [m|]; simpl in Em;
        [|congruence].
      destruct m as [| |b|n|s|l|p]; simpl in Em; try congruence.
      destruct (lookup "request_id" p); discriminate Em.
Qed.

(** On a body of the documented shape the handler reads the request id,
    the transcript of the first alternative of the first channel, and its
    words. *)
Lemma webhook_reads_documented (data : value) (rid text : string)
    (ws : list value) :
  documented data rid text ws ->
  webhook_reads {| json := Ok data |} = Ok (Str rid, Str text, Arr ws).
Proof.
  intros (md & res & ch & chs & alt & alts & Hmd & Hrid & Hres & Hch & Halt
          & Htext & Hws).
  assert (Ha : alternative0 data = Ok alt).
  { unfold alternative0. rewrite (get_has _ _ _ Hres). simpl.
    rewrite (get_has _ _ _ Hch). simpl. rewrite (get_has _ _ _ Halt).
    reflexivity. }
  unfold webhook_reads. simpl.
  destruct Hmd as (props & -> & Hmd). simpl optional.
  simpl get at 1. rewrite Hmd. simpl.
  rewrite (get_has _ _ _ Hrid). simpl. rewrite Ha. simpl.
  rewrite (get_has _ _ _ Htext). simpl. rewrite (get_has _ _ _ Hws).
  reflexivity.
Qed.

Lemma length_snoc {A} (l : list A) (x : A) :
  List.length (l ++ [x]) = S (List.length l).
Proof. rewrite length_app. simpl. lia. Qed.

(** Bring the traces and the positions in the fault plan to the forms
    [trace w ++ calls] and [S (... (length (trace w)))]. *)
Ltac norm_trace :=
  rewrite <- ?app_assoc; simpl;
  rewrite ?length_app; simpl;
  rewrite ?Nat.add_succ_r, ?Nat.add_0_r; simpl.

(** Every way a run of [updateTranscript] can go, by the faults of its two
    calls. *)
Lemma updateTranscript_run (r t d : value) (w : world) :
  updateTranscript r t d w =
  match plan w (List.length (trace w)) with
  | Throws =>
      (Ok (fail (Caught (Failure "createClient"))),
       with_trace w (trace w ++ [CreateClient]))
  | NoFault | ReportsError =>
      match plan w (S (List.length (trace w))) with
      | Throws =>
          (Ok (fail (Caught (Failure "fetch"))),
           with_trace w (trace w ++ [CreateClient; VideosUpdateByRequestId r t d]))
      | ReportsError =>
          (Ok (fail (Message "Failed to update transcript")),
           with_trace w (trace w ++ [CreateClient; VideosUpdateByRequestId r t d]))
      | NoFault =>
          (Ok (succeed None),
           with_videos
             (with_trace w
                (trace w ++ [CreateClient; VideosUpdateByRequestId r t d]))
             (map (fun v =>
                     if eq_text (deepgram_request_id v) r
                     then set_transcript t d v else v)
                  (videos w)))
      end
  end.
Proof.
  unfold updateTranscript, try_catch, mbind, createClient,
    videos_update_transcript, mbind, remote, ret, throw.
  simpl.
  destruct (plan w (List.length (trace w))); simpl;
    rewrite ?length_snoc, <- ?app_assoc; simpl;
    destruct (plan w (S (List.length (trace w)))); reflexivity.
Qed.

Lemma updateTranscript_returns (r t d : value) (w : world) :
  exists res w', updateTranscript r t d w = (Ok res, w').
Proof.
  rewrite updateTranscript_run.
  destruct (plan w (List.length (trace w)));
    destruct (plan w (S (List.length (trace w)))); eauto.
Qed.

(** The handler in one step: a 500 when a read raises, otherwise the run
    of [updateTranscript], whose result is dropped, and a 200. *)
Lemma POST_run (request : Request) (w : world) :
  POST request w =
  match webhook_reads request with
  | Throw _ => (Ok {| body := "error"; http_status := 500 |}, w)
  | Ok (r, t, d) =>
      (Ok {| body := "ok"; http_status := 200 |},
       snd (updateTranscript r t d w))
  end.
Proof.
  unfold POST, webhook_reads, try_catch, mbind, lift, ret.
  destruct (json request) as [data|e]; [|reflexivity]. simpl.
  destruct (optional data _) as [r|e]; [|reflexivity]. simpl.
  destruct (optional data _) as [t|e]; [|reflexivity]. simpl.
  destruct (optional data _) as [d|e]; [|reflexivity]. simpl.
  destruct (updateTranscript_returns r t d w) as (res & w' & ->).
  reflexivity.
Qed.

Lemma eq_text_same (rid : string) : eq_text (Some rid) (Str rid) = true.
Proof. simpl. apply String.eqb_refl. Qed.

Lemma eq_text_other (c : option string) (rid : string) :
  c <> Some rid -> eq_text c (Str rid) = false.
Proof.
  intros H. destruct c as [c|]; [|reflexivity]. simpl.
  apply String.eqb_neq. congruence.
Qed.

(** C2. On a callback body of the documented shape the handler reads the
    request id, the transcript text of alternative 0 of channel 0 and its
    words, and calls [updateTranscript] on them; when the store reports no
    error, [updateTranscript] returns success and every video row whose
    [deepgram_request_id] is that request id gets the transcript text, the
    word array and the status [transcribed] (its other columns kept),
    while every other row is left as it was. *)
Theorem webhook_updates_transcript :
  forall (w : world) (data : value) (rid text : string) (ws : list value),
    documented data rid text ws ->
    plan w (List.length (trace w)) <> Throws ->
    plan w (S (List.length (trace w))) = NoFault ->
    exists (res : ActionResult unit) (w' : world),
      webhook_reads {| json := Ok data |} = Ok (Str rid, Str text, Arr ws)
      /\ updateTranscript (Str rid) (Str text) (Arr ws) w = (Ok res, w')
      /\ success res = true
      /\ POST {| json := Ok data |} w
         = (Ok {| body := "ok"; http_status := 200 |}, w')
      /\ trace w'
         = (trace w ++ [CreateClient;
                        VideosUpdateByRequestId (Str rid) (Str text) (Arr ws)])%list
      /\ List.length (videos w') = List.length (videos w)
      /\ forall (i : nat) (v : Video),
           nth_error (videos w) i = Some v ->
           exists v' : Video,
             nth_error (videos w') i = Some v'
             /\ (deepgram_request_id v = Some rid ->
                 transcript_text v' = Str text
                 /\ transcript_data_full v' = Arr ws
                 /\ status v' = transcribed
                 /\ id v' = id v
                 /\ project_id v' = project_id v
                 /\ storage_path v' = storage_path v
                 /\ created_at v' = created_at v
                 /\ deepgram_request_id v' = deepgram_request_id v)
             /\ (deepgram_request_id v <> Some rid -> v' = v).
Proof.
  intros w data rid text ws Hdoc Hc Hu.
  pose proof (webhook_reads_documented _ _ _ _ Hdoc) as Hreads.
  pose proof (updateTranscript_run (Str rid) (Str text) (Arr ws) w) as Hrun.
  rewrite Hu in Hrun.
  assert (Hrun' : updateTranscript (Str rid) (Str text) (Arr ws) w
    = (Ok (succeed None),
       with_videos
         (with_trace w
            (trace w ++ [CreateClient;
               VideosUpdateByRequestId (Str rid) (Str text) (Arr ws)]))
         (map (fun v => if eq_text (deepgram_request_id v) (Str rid)
                        then set_transcript (Str text) (Arr ws) v else v)
              (videos w)))).
  { destruct (plan w (List.length (trace w))); congruence. }
  clear Hrun.
  eexists. eexists. split; [exact Hreads|]. split; [exact Hrun'|].
  split; [reflexivity|]. split.
  { rewrite POST_run, Hreads, Hrun'. reflexivity. }
  split; [reflexivity|]. split; [apply length_map|].
  intros i v Hv. simpl videos.
  eexists. split.
  { rewrite nth_error_map, Hv. reflexivity. }
  split.
  - intros Hrid. rewrite Hrid, eq_text_same. simpl. repeat split.
    exact Hrid.
  - intros Hrid. rewrite (eq_text_other _ _ Hrid). reflexivity.
Qed.

(** Scenario C of the specification, first half: request "abc" and a
    one-word array. *)
Lemma webhook_updates_transcript_witness :
  exists (res : ActionResult unit) (w' : world),
    webhook_reads {| json := Ok (Demo.payload "abc") |}
      = Ok (Str "abc", Str "cuban", Arr [Demo.cuban])
    /\ updateTranscript (Str "abc") (Str "cuban") (Arr [Demo.cuban])
         (Demo.world_of (fun _ => NoFault)) = (Ok res, w')
    /\ success res = true
    /\ POST {| json := Ok (Demo.payload "abc") |}
         (Demo.world_of (fun _ => NoFault))
       = (Ok {| body := "ok"; http_status := 200 |}, w')
    /\ trace w'
       = (trace (Demo.world_of (fun _ => NoFault))
          ++ [CreateClient;
              VideosUpdateByRequestId (Str "abc") (Str "cuban")
                (Arr [Demo.cuban])])%list
    /\ List.length (videos w')
       = List.length (videos (Demo.world_of (fun _ => NoFault)))
    /\ forall (i : nat) (v : Video),
         nth_error (videos (Demo.world_of (fun _ => NoFault))) i = Some v ->
         exists v' : Video,
           nth_error (videos w') i = Some v'
           /\ (deepgram_request_id v = Some "abc" ->
               transcript_text v' = Str "cuban"
               /\ transcript_data_full v' = Arr [Demo.cuban]
               /\ status v' = transcribed
               /\ id v' = id v
               /\ project_id v' = project_id v
               /\ storage_path v' = storage_path v
               /\ created_at v' = created_at v
               /\ deepgram_request_id v' = deepgram_request_id v)
           /\ (deepgram_request_id v <> Some "abc" -> v' = v).
Proof.
  apply (webhook_updates_transcript (Demo.world_of (fun _ => NoFault))
           (Demo.payload "abc") "abc" "cuban" [Demo.cuban]).
  - unfold documented, has, Demo.payload.
    do 6 eexists. repeat split; eexists; split; reflexivity.
  - simpl. discriminate.
  - reflexivity.
Defined.

Example scenario_C_rows :
  videos (snd (POST {| json := Ok (Demo.payload "abc") |}
                 (Demo.world_of (fun _ => NoFault))))
  = [ {| id := id Demo.video1;
         project_id := "p1";
         storage_path := "videos/p1/clip.mp4";
         status := transcribed;
         transcript_text := Str "cuban";
         transcript_data_full := Arr [Demo.cuban];
         created_at := created_at Demo.video1;
         deepgram_request_id := Some "abc" |};
      Demo.video2 ].
Proof. reflexivity. Qed.

(** A request id that no row carries changes no row, whatever the faults. *)
Lemma updateTranscript_no_match (rid : string) (t d : value) (w : world) :
  (forall v, In v (videos w) -> deepgram_request_id v <> Some rid) ->
  videos (snd (updateTranscript (Str rid) t d w)) = videos w.
Proof.
  intros Hno. rewrite updateTranscript_run.
  destruct (plan w (List.length (trace w)));
    destruct (plan w (S (List.length (trace w)))); try reflexivity.
  all: simpl; rewrite <- (map_id (videos w)) at 2; apply map_ext_in;
    intros v Hv; rewrite (eq_text_other _ _ (Hno v Hv)); reflexivity.
Qed.

(** C5. The handler always answers, with 200 and the body "ok" or with
    500: it answers 500 exactly when reading the request raises, and then
    nothing else was done; otherwise it answers 200 "ok", whatever
    [updateTranscript] meets. Reading raises, and the answer is 500, when
    the body is not JSON and when the body is an object that lacks one of
    the nested fields [metadata], [results], [channels], channel 0,
    [alternatives] or alternative 0. A body of the documented shape whose
    request id matches no video row gets 200 and changes no row. *)
Theorem webhook_response_codes :
  forall (request : Request) (w : world),
  exists (resp : Response) (w' : world),
    POST request w = (Ok resp, w')
    /\ (forall e, webhook_reads request = Throw e ->
        resp = {| body := "error"; http_status := 500 |} /\ w' = w)
    /\ (forall r t d, webhook_reads request = Ok (r, t, d) ->
        resp = {| body := "ok"; http_status := 200 |}
        /\ w' = snd (updateTranscript r t d w))
    /\ (forall e, json request = Throw e -> http_status resp = 500)
    /\ (forall data, json request = Ok data ->
        (forall x, get data "metadata" = Ok x -> x = Undefined) ->
        data <> Null -> data <> Undefined ->
        http_status resp = 500)
    /\ (forall data,
        json request = Ok data ->
        lacks_nested_field data ->
        resp = {| body := "error"; http_status := 500 |} /\ w' = w)
    /\ (forall data rid text ws,
        json request = Ok data ->
        documented data rid text ws ->
        (forall v, In v (videos w) -> deepgram_request_id v <> Some rid) ->
        resp = {| body := "ok"; http_status := 200 |}
        /\ videos w' = videos w).
Proof.
  intros request w. rewrite POST_run.
  destruct (webhook_reads request) as [[[r t] d]|e] eqn:Hreads.
  - eexists. eexists. split; [reflexivity|].
    split; [discriminate|].
    split; [intros r' t' d' [= <- <- <-]; split; reflexivity|].
    split.
    { intros e He. unfold webhook_reads in Hreads. rewrite He in Hreads.
      discriminate. }
    split.
    { intros data Hd Hmd Hn Hu. exfalso.
      unfold webhook_reads in Hreads. rewrite Hd in Hreads. simpl in Hreads.
      assert (Hopt : forall k, optional data k = k data)
        by (intros k; destruct data; try reflexivity; congruence).
      rewrite Hopt in Hreads.
      destruct (get data "metadata") as [x|] eqn:Hx; [|discriminate].
      rewrite (Hmd x eq_refl) in Hreads. discriminate. }
    split.
    { intros data Hd Hlack. exfalso.
      destruct request as [j]. simpl in Hd. subst j.
      rewrite (webhook_reads_lacking _ Hlack) in Hreads. discriminate. }
    intros data rid text ws Hd Hdoc Hno. split; [reflexivity|].
    destruct request as [j]. simpl in Hd. subst j.
    rewrite (webhook_reads_documented _ _ _ _ Hdoc) in Hreads.
    injection Hreads as <- <- <-.
    apply updateTranscript_no_match. exact Hno.
  - eexists. eexists. split; [reflexivity|].
    split; [intros _ _; split; reflexivity|].
    split; [discriminate|].
    split; [reflexivity|].
    split; [reflexivity|].
    split; [intros data _ _; split; reflexivity|].
    intros data rid text ws Hd Hdoc _. exfalso.
    destruct request as [j]. simpl in Hd. subst j.
    rewrite (webhook_reads_documented _ _ _ _ Hdoc) in Hreads.
    discriminate.
Qed.

(** Concrete runs: a body that is not JSON, the body [{}], the body
    [null], and a documented body for a request id that no row has
    (scenario C, second half). *)
Example webhook_runs :
  let w := Demo.world_of (fun _ => NoFault) in
  POST {| json := Throw SyntaxError |} w
    = (Ok {| body := "error"; http_status := 500 |}, w)
  /\ POST {| json := Ok (Obj []) |} w
    = (Ok {| body := "error"; http_status := 500 |}, w)
  /\ fst (POST {| json := Ok Null |} w)
    = Ok {| body := "ok"; http_status := 200 |}
  /\ fst (POST {| json := Ok (Demo.payload "zzz") |} w)
    = Ok {| body := "ok"; http_status := 200 |}
  /\ videos (snd (POST {| json := Ok (Demo.payload "zzz") |} w)) = videos w.
Proof. repeat split; reflexivity. Qed.

(** Bodies that carry the request id and stop short at each level of
    [results] are answered 500 and nothing is done; a body that lacks
    only the leaves [transcript] and [words] is answered 200. *)
Example webhook_runs_missing_fields :
  let w := Demo.world_of (fun _ => NoFault) in
  let metadata := ("metadata", Obj [("request_id", Str "abc")]) in
  let error_500 := (Ok {| body := "error"; http_status := 500 |}, w) in
  POST {| json := Ok (Obj [metadata]) |} w = error_500
  /\ POST {| json := Ok (Obj [metadata; ("results", Obj [])]) |} w
     = error_500
  /\ POST {| json := Ok (Obj [metadata;
                               ("results", Obj [("channels", Arr [])])]) |} w
     = error_500
  /\ POST {| json := Ok (Obj [metadata;
                               ("results",
                                Obj [("channels", Arr [Obj []])])]) |} w
     = error_500
  /\ POST {| json :=
               Ok (Obj [metadata;
                        ("results",
                         Obj [("channels",
                               Arr [Obj [("alternatives", Arr [])]])])]) |} w
     = error_500
  /\ fst (POST {| json :=
                    Ok (Obj [metadata;
                             ("results",
                              Obj [("channels",
                                    Arr [Obj [("alternatives",
                                               Arr [Obj []])]])])]) |} w)
     = Ok {| body := "ok"; http_status := 200 |}.
Proof. repeat split; reflexivity. Qed.

(** The first five of these bodies lack a nested field, one at each
    level. *)
Example lacks_nested_field_bodies :
  let metadata := ("metadata", Obj [("request_id", Str "abc")]) in
  lacks_nested_field (Obj [("results", Obj [])])
  /\ lacks_nested_field (Obj [metadata])
  /\ lacks_nested_field (Obj [metadata; ("results", Obj [])])
  /\ lacks_nested_field
       (Obj [metadata; ("results", Obj [("channels", Arr [])])])
  /\ lacks_nested_field
       (Obj [metadata; ("results", Obj [("channels", Arr [Obj []])])])
  /\ lacks_nested_field
       (Obj [metadata;
             ("results",
              Obj [("channels", Arr [Obj [("alternatives", Arr [])]])])]).
Proof.
  repeat split.
  - apply lacks_metadata. eexists. split; [reflexivity|]. left. reflexivity.
  - apply lacks_results. eexists. split; [reflexivity|]. left. reflexivity.
  - eapply lacks_channels.
    + eexists. split; reflexivity.
    + eexists. split; [reflexivity|]. left. reflexivity.
  - eapply lacks_channel_0.
    + eexists. split; reflexivity.
    + eexists. split; reflexivity.
    + left. reflexivity.
  - eapply lacks_alternatives.
    + eexists. split; reflexivity.
    + eexists. split; reflexivity.
    + eexists. split; [reflexivity|]. left. reflexivity.
  - eapply lacks_alternative_0.
    + eexists. split; reflexivity.
    + eexists. split; reflexivity.
    + eexists. split; reflexivity.
    + left. reflexivity.
Qed.

(** C9. When the update comes back with an error, [updateTranscript]
    throws nothing and returns [{ success: false, error: "Failed to update
    transcript" }]; the handler drops that result and answers 200 "ok", as
    it does in every world for a body it can read, so the failure cannot be
    told from success by the response. *)
Theorem webhook_hides_store_failure :
  forall (w : world) (request : Request) (r t d : value),
    webhook_reads request = Ok (r, t, d) ->
    plan w (List.length (trace w)) <> Throws ->
    plan w (S (List.length (trace w))) = ReportsError ->
    exists w' : world,
      updateTranscript r t d w
      = (Ok {| success := false; data := None;
               error := Some (Message "Failed to update transcript") |}, w')
      /\ POST request w = (Ok {| body := "ok"; http_status := 200 |}, w')
      /\ forall w0 : world,
           fst (POST request w0) = Ok {| body := "ok"; http_status := 200 |}.
Proof.
  intros w request r t d Hreads Hc Hu.
  pose proof (updateTranscript_run r t d w) as Hrun. rewrite Hu in Hrun.
  eexists. split.
  { rewrite Hrun. destruct (plan w (List.length (trace w)));
      [reflexivity | reflexivity | congruence]. }
  split.
  - rewrite POST_run, Hreads, Hrun.
    destruct (plan w (List.length (trace w)));
      [reflexivity | reflexivity | congruence].
  - intros w0. rewrite POST_run, Hreads. reflexivity.
Qed.

Lemma webhook_hides_store_failure_witness :
  exists w' : world,
    updateTranscript (Str "abc") (Str "cuban") (Arr [Demo.cuban])
      Demo.failing_update
    = (Ok {| success := false; data := None;
             error := Some (Message "Failed to update transcript") |}, w')
    /\ POST {| json := Ok (Demo.payload "abc") |}
         Demo.failing_update
       = (Ok {| body := "ok"; http_status := 200 |}, w')
    /\ forall w0 : world,
         fst (POST {| json := Ok (Demo.payload "abc") |} w0)
         = Ok {| body := "ok"; http_status := 200 |}.
Proof.
  apply (webhook_hides_store_failure
           Demo.failing_update
           {| json := Ok (Demo.payload "abc") |}
           (Str "abc") (Str "cuban") (Arr [Demo.cuban])).
  - reflexivity.
  - simpl. discriminate.
  - reflexivity.
Defined.

(** A client that cannot be created is hidden in the same way: the
    exception is caught inside [updateTranscript]. *)
Lemma webhook_hides_client_failure (w : world) (r t d : value) :
  plan w (List.length (trace w)) = Throws ->
  fst (updateTranscript r t d w)
  = Ok {| success := false; data := None;
          error := Some (Caught (Failure "createClient")) |}.
Proof. intros H. rewrite updateTranscript_run, H. reflexivity. Qed.

Lemma missing_iff (x : option entry) :
  missing x = true <-> x = None \/ x = Some (EString "").
Proof.
  split.
  - destruct x as [[[|c s]|f]|]; simpl; intros H; try discriminate; auto.
  - intros [-> | ->]; reflexivity.
Qed.

Lemma size_exceeds_iff (x : option entry) :
  size_exceeds x maxSize = true
  <-> exists f, x = Some (EFile f) /\ size f > 104857600.
Proof.
  split.
  - destruct x as [[s|f]|]; simpl; intros H; try discriminate.
    exists f. split; [reflexivity|]. apply Z.gtb_lt in H.
    unfold maxSize in H. lia.
  - intros (f & -> & H). simpl. apply Z.gtb_lt. unfold maxSize. lia.
Qed.

Lemma type_allowed_iff (f : File) :
  type_allowed allowedTypes (Some (EFile f)) = true
  <-> In (type f)
         ["video/mp4"; "video/mov"; "video/avi"; "video/webm";
          "video/quicktime"].
Proof.
  unfold type_allowed, allowedTypes. rewrite existsb_exists. split.
  - intros (x & Hin & Heq). apply String.eqb_eq in Heq. now subst.
  - intros H. exists (type f). split; [exact H | apply String.eqb_refl].
Qed.

(** C10. A form that lacks the file or the project id, or whose file is
    larger than 104857600 bytes or of a type outside the allowed list, is
    answered with the message of the first check it fails, in the order
    file, project id, size, type. The world is returned as it was: no
    client was created, the session was not consulted, nothing was
    uploaded; so the answer is the same for a signed-in caller and an
    anonymous one and is never "Authentication required". *)
Theorem uploadVideoFile_validates_first :
  forall (formData : FormData) (w : world),
    file_missing formData \/ project_missing formData
    \/ file_too_large formData \/ type_disallowed formData ->
    exists msg : string,
      uploadVideoFile formData w
      = (Ok {| success := false; data := None; error := Some (Message msg) |},
         w)
      /\ In msg ["No file provided"; "Project ID is required";
                 "File size must be less than 100MB";
                 "File type not supported. Please use MP4, MOV, AVI, or WebM"]
      /\ (file_missing formData -> msg = "No file provided")
      /\ (~ file_missing formData -> project_missing formData ->
          msg = "Project ID is required")
      /\ (~ file_missing formData -> ~ project_missing formData ->
          file_too_large formData ->
          msg = "File size must be less than 100MB")
      /\ (~ file_missing formData -> ~ project_missing formData ->
          ~ file_too_large formData -> type_disallowed formData ->
          msg = "File type not supported. Please use MP4, MOV, AVI, or WebM").
Proof.
  intros formData w Hbad.
  assert (Hf' : file_missing formData
                <-> missing (formData_get "file" formData) = true)
    by (symmetry; apply missing_iff).
  assert (Hp' : project_missing formData
                <-> missing (formData_get "projectId" formData) = true)
    by (symmetry; apply missing_iff).
  assert (Hs' : file_too_large formData
                <-> size_exceeds (formData_get "file" formData) maxSize = true)
    by (symmetry; apply size_exceeds_iff).
  unfold uploadVideoFile, try_catch.
  destruct (missing (formData_get "file" formData)) eqn:Hf.
  { assert (Hfm : file_missing formData) by (apply Hf'; reflexivity).
    exists "No file provided".
    repeat split; try reflexivity; simpl; auto; tauto. }
  assert (Hfm : ~ file_missing formData) by (rewrite Hf'; discriminate).
  destruct (missing (formData_get "projectId" formData)) eqn:Hp.
  { assert (Hpm : project_missing formData) by (apply Hp'; reflexivity).
    exists "Project ID is required".
    repeat split; try reflexivity; simpl; auto; tauto. }
  assert (Hpm : ~ project_missing formData) by (rewrite Hp'; discriminate).
  destruct (size_exceeds (formData_get "file" formData) maxSize) eqn:Hs.
  { assert (Hsm : file_too_large formData) by (apply Hs'; reflexivity).
    exists "File size must be less than 100MB".
    repeat split; try reflexivity; simpl; auto; tauto. }
  assert (Hsm : ~ file_too_large formData) by (rewrite Hs'; discriminate).
  assert (Ht : type_allowed allowedTypes (formData_get "file" formData) = false).
  { destruct Hbad as [H | [H | [H | (f & Hfile & Hnot)]]]; try tauto.
    rewrite Hfile. destruct (type_allowed allowedTypes (Some (EFile f))) eqn:E;
      [|reflexivity].
    apply type_allowed_iff in E. contradiction. }
  rewrite Ht.
  exists "File type not supported. Please use MP4, MOV, AVI, or WebM".
  repeat split; try reflexivity; simpl; auto 6; tauto.
Qed.

(** A 200 MB MP4 sent by a caller who is not signed in, to a world where
    creating the client would throw. *)
Lemma uploadVideoFile_validates_first_witness :
  exists msg : string,
    uploadVideoFile
      [("file", EFile {| name := "big.mp4"; size := 209715200;
                         type := "video/mp4" |});
       ("projectId", EString "p1")]
      {| session := None; projects := []; videos := []; bucket := [];
         public_url := fun _ => ""; plan := fun _ => Throws; clock := fun _ => "";
         random := fun _ => ""; trace := [] |}
    = (Ok {| success := false; data := None; error := Some (Message msg) |},
       {| session := None; projects := []; videos := []; bucket := [];
          public_url := fun _ => ""; plan := fun _ => Throws; clock := fun _ => "";
          random := fun _ => ""; trace := [] |})
    /\ msg = "File size must be less than 100MB".
Proof.
  destruct (uploadVideoFile_validates_first
              [("file", EFile {| name := "big.mp4"; size := 209715200;
                                 type := "video/mp4" |});
               ("projectId", EString "p1")]
              {| session := None; projects := []; videos := []; bucket := [];
                 public_url := fun _ => ""; plan := fun _ => Throws;
                 clock := fun _ => ""; random := fun _ => ""; trace := [] |})
    as (msg & Hrun & _ & _ & _ & Hsize & _).
  - right. right. left. eexists. split; [reflexivity | simpl; lia].
  - exists msg. split; [exact Hrun|]. apply Hsize.
    + intros [H | H]; discriminate H.
    + intros [H | H]; discriminate H.
    + eexists. split; [reflexivity | simpl; lia].
Defined.

Example uploadVideoFile_runs :
  let w := Demo.world_of (fun _ => NoFault) in
  fst (uploadVideoFile [("projectId", EString "p1")] w)
    = Ok (fail (Message "No file provided"))
  /\ fst (uploadVideoFile [("file", EFile Demo.clip)] w)
    = Ok (fail (Message "Project ID is required"))
  /\ fst (uploadVideoFile
            [("file", EFile {| name := "notes.pdf"; size := 10;
                               type := "application/pdf" |});
             ("projectId", EString "p1")] w)
    = Ok (fail (Message
        "File type not supported. Please use MP4, MOV, AVI, or WebM"))
  /\ fst (uploadVideoFile
            [("file", EFile {| name := "edge.mp4"; size := 104857600;
                               type := "video/mp4" |});
             ("projectId", EString "p1")] w)
    = Ok (succeed (Some
        {| storagePath := "videos/p1/1759312800000_k2j8x1m4q.mp4";
           publicUrl :=
             "https://store.example/storage/v1/object/public/videos/videos/p1/1759312800000_k2j8x1m4q.mp4" |}))
  /\ fst (uploadVideoFile
            [("file", EFile {| name := "edge.mp4"; size := 104857600;
                               type := "video/mp4" |});
             ("projectId", EString "p1")]
            Demo.failing_update)
    = Ok (fail (Message "Authentication required")).
Proof. repeat split; reflexivity. Qed.

(** Every way a run of [deleteVideoFile] can go, by the faults of its
    three calls. It never throws. *)
Lemma deleteVideoFile_run (path : string) (w : world) :
  deleteVideoFile path w =
  match plan w (List.length (trace w)) with
  | Throws =>
      (Ok (fail (MessageOf (Failure "createClient"))),
       with_trace w (trace w ++ [CreateClient]))
  | NoFault | ReportsError =>
      match plan w (S (List.length (trace w))) with
      | Throws =>
          (Ok (fail (MessageOf (Failure "auth.getUser"))),
           with_trace w (trace w ++ [CreateClient; AuthGetUser]))
      | ReportsError =>
          (Ok (fail (Message "Authentication required")),
           with_trace w (trace w ++ [CreateClient; AuthGetUser]))
      | NoFault =>
          match session w with
          | None =>
              (Ok (fail (Message "Authentication required")),
               with_trace w (trace w ++ [CreateClient; AuthGetUser]))
          | Some _ =>
              match plan w (S (S (List.length (trace w)))) with
              | Throws =>
                  (Ok (fail (MessageOf (Failure "fetch"))),
                   with_trace w
                     (trace w ++ [CreateClient; AuthGetUser;
                                  StorageRemove [path]]))
              | ReportsError =>
                  (Ok (succeed None),
                   with_trace w
                     (trace w ++ [CreateClient; AuthGetUser;
                                  StorageRemove [path]]))
              | NoFault =>
                  (Ok (succeed None),
                   with_bucket
                     (with_trace w
                        (trace w ++ [CreateClient; AuthGetUser;
                                     StorageRemove [path]]))
                     (filter (fun o => negb (String.eqb (fst o) path))
                             (bucket w)))
              end
          end
      end
  end.
Proof.
  unfold deleteVideoFile, try_catch, mbind, createClient, auth_getUser,
    storage_remove, mbind, remote, read, ret, throw.
  simpl.
  destruct (plan w (List.length (trace w))); simpl; norm_trace;
    destruct (plan w (S (List.length (trace w)))); simpl; try reflexivity;
    destruct (session w); simpl; try reflexivity; norm_trace;
    destruct (plan w (S (S (List.length (trace w))))); reflexivity.
Qed.

(** With unique keys, a join on one key yields what the row of that key
    yields. *)
Lemma flat_map_unique {A B} (key : A -> string) (g : A -> list B)
    (l : list A) (v : A) :
  NoDup (map key l) -> In v l ->
  flat_map (fun x => if String.eqb (key x) (key v) then g x else []) l = g v.
Proof.
  induction l as [|a l IH]; simpl; intros Hnd Hin; [contradiction|].
  inversion Hnd as [|k ks Hnotin Hnd']; subst.
  destruct Hin as [-> | Hin].
  - rewrite String.eqb_refl.
    assert (Hrest : flat_map
              (fun x => if String.eqb (key x) (key v) then g x else []) l = []).
    { clear IH Hnd Hnd'. induction l as [|b l IHl]; [reflexivity|]. simpl.
      destruct (String.eqb_spec (key b) (key v)) as [E|E].
      - exfalso. apply Hnotin. simpl. left. exact E.
      - apply IHl. intros H. apply Hnotin. simpl. right. exact H. }
    rewrite Hrest. apply app_nil_r.
  - destruct (String.eqb_spec (key a) (key v)) as [E|E].
    + exfalso. apply Hnotin. rewrite E. apply in_map. exact Hin.
    + simpl. apply IH; assumption.
Qed.

Lemma filter_other_projects (ps : list Project) (k user : string) :
  ~ In k (map p_id ps) ->
  filter (fun q => String.eqb (p_id q) k && String.eqb (p_user_id q) user) ps
  = [].
Proof.
  induction ps as [|a ps IH]; simpl; intros H; [reflexivity|].
  destruct (String.eqb_spec (p_id a) k) as [E|E]; simpl.
  - exfalso. apply H. left. exact E.
  - apply IH. intros Hin. apply H. right. exact Hin.
Qed.

Lemma filter_unique_project (ps : list Project) (p : Project) :
  NoDup (map p_id ps) -> In p ps ->
  filter (fun q => String.eqb (p_id q) (p_id p)
                   && String.eqb (p_user_id q) (p_user_id p)) ps = [p].
Proof.
  induction ps as [|a ps IH]; simpl; intros Hnd Hin; [contradiction|].
  inversion Hnd as [|k ks Hnotin Hnd']; subst.
  destruct Hin as [-> | Hin].
  - rewrite !String.eqb_refl. simpl.
    rewrite (filter_other_projects _ _ _ Hnotin). reflexivity.
  - destruct (String.eqb_spec (p_id a) (p_id p)) as [E|E]; simpl.
    + exfalso. apply Hnotin. rewrite E. apply in_map. exact Hin.
    + apply IH; assumption.
Qed.

(** The ownership select finds exactly the video, when ids are keys, the
    video is in the table and its project belongs to the user. *)
Lemma owned_rows_owned (w : world) (v : Video) (p : Project) :
  NoDup (map id (videos w)) -> NoDup (map p_id (projects w)) ->
  In v (videos w) -> In p (projects w) -> p_id p = project_id v ->
  owned_rows w (id v) (p_user_id p) = [v].
Proof.
  intros Hv Hp Hin Hinp Hfk. unfold owned_rows.
  rewrite (flat_map_unique id
             (fun x => map (fun _ => x)
                (filter (fun q => String.eqb (p_id q) (project_id x)
                                  && String.eqb (p_user_id q) (p_user_id p))
                        (projects w)))
             (videos w) v Hv Hin).
  rewrite <- Hfk, (filter_unique_project _ _ Hp Hinp). reflexivity.
Qed.

Section DeleteFacts.

Variable uuid : string -> bool.

(** The run of [deleteVideo] on a video its caller owns, when the calls up
    to the deletion of the row go well: the row is deleted, the cleanup
    (if the row has a storage path) runs on the world so reached and its
    result is dropped. *)
Lemma deleteVideo_run (w : world) (vid user : string) (v : Video) :
  uuid vid = true ->
  session w = Some user ->
  owned_rows w vid user = [v] ->
  plan w (List.length (trace w)) <> Throws ->
  plan w (S (List.length (trace w))) = NoFault ->
  plan w (S (S (List.length (trace w)))) = NoFault ->
  plan w (S (S (S (List.length (trace w))))) = NoFault ->
  deleteVideo uuid vid w
  = (Ok (succeed None),
     with_trace
       (match storage_path v with
        | EmptyString => fun w4 => w4
        | String _ _ => fun w4 => snd (deleteVideoFile (storage_path v) w4)
        end
          (with_videos
             (with_trace w
                (trace w ++ [CreateClient; AuthGetUser;
                             VideosSelectOwned vid user; VideosDelete vid]))
             (filter (fun x => negb (String.eqb (id x) vid)) (videos w))))
       (trace
          (match storage_path v with
           | EmptyString => fun w4 => w4
           | String _ _ => fun w4 => snd (deleteVideoFile (storage_path v) w4)
           end
             (with_videos
                (with_trace w
                   (trace w ++ [CreateClient; AuthGetUser;
                                VideosSelectOwned vid user; VideosDelete vid]))
                (filter (fun x => negb (String.eqb (id x) vid)) (videos w))))
        ++ [RevalidatePath ("/projects/" ++ project_id v);
            RevalidatePath "/videos"])).
Proof.
  intros Hu Hs Hrows H0 H1 H2 H3.
  unfold deleteVideo, try_catch, mbind, videoIdSchema_parse, createClient,
    auth_getUser, videos_select_owned, videos_delete, revalidatePath,
    mbind, remote, read, ret, throw.
  rewrite Hu. simpl.
  destruct (plan w (List.length (trace w))) eqn:E0; try congruence; simpl;
    norm_trace; rewrite H1; simpl; rewrite Hs; simpl; norm_trace;
    rewrite H2; simpl.
  all: match goal with
       | H : owned_rows ?w0 ?a ?b = _ |- context [owned_rows ?w' ?a ?b] =>
           change (owned_rows w' a b) with (owned_rows w0 a b)
       end.
  all: rewrite Hrows; simpl; norm_trace; rewrite H3; simpl.
  all: destruct (storage_path v) as [|c path] eqn:Ep;
    [simpl; norm_trace; reflexivity|].
  all: match goal with
       | |- _ = (_, with_trace (snd (deleteVideoFile _ ?x)) _) =>
           set (w4 := x)
       end.
  all: repeat match goal with
       | W := _ : world |- context [deleteVideoFile ?p ?x] =>
           lazymatch x with
           | W => fail
           | _ => change x with W
           end
       end.
  all: match goal with
       | |- context [deleteVideoFile ?p ?x] =>
           destruct (deleteVideoFile p x) as [[r0|e0] w5] eqn:Ed
       end.
  all: try (rewrite deleteVideoFile_run in Ed;
            repeat match type of Ed with
                   | context [match ?x with _ => _ end] => destruct x
                   end; discriminate Ed).
  all: simpl; rewrite <- app_assoc; reflexivity.
Qed.

Lemma deleted_rows_gone (vs : list Video) (k : string) (x : Video) :
  In x (filter (fun y => negb (String.eqb (id y) k)) vs) -> id x <> k.
Proof.
  intros H. apply filter_In in H as [_ H].
  apply negb_true_iff, String.eqb_neq in H. exact H.
Qed.

Ltac close_case :=
  repeat split; try reflexivity; try (intros; congruence); auto;
  try apply deleted_rows_gone.

(** C8. For a video its caller owns, when the calls up to the deletion of
    the row go well, [deleteVideo] returns success whatever happens to the
    cleanup of the file: the row is deleted first and stays deleted; the
    cleanup comes after it and only if the row has a storage path; it
    makes at most the three calls createClient, getUser, remove, in that
    order, so the removal is attempted at most once; and when the removal
    does not go through the bucket is as it was. *)
Theorem deleteVideo_tolerates_cleanup_failure :
  forall (w : world) (v : Video) (p : Project),
    uuid (id v) = true ->
    session w = Some (p_user_id p) ->
    NoDup (map id (videos w)) ->
    NoDup (map p_id (projects w)) ->
    In v (videos w) ->
    In p (projects w) ->
    p_id p = project_id v ->
    plan w (List.length (trace w)) <> Throws ->
    plan w (1 + List.length (trace w)) = NoFault ->
    plan w (2 + List.length (trace w)) = NoFault ->
    plan w (3 + List.length (trace w)) = NoFault ->
    exists (w' : world) (cleanup : list call),
      deleteVideo uuid (id v) w
      = (Ok {| success := true; data := None; error := None |}, w')
      /\ videos w'
         = filter (fun x => negb (String.eqb (id x) (id v))) (videos w)
      /\ (forall x, In x (videos w') -> id x <> id v)
      /\ trace w'
         = (trace w
            ++ [CreateClient; AuthGetUser;
                VideosSelectOwned (id v) (p_user_id p); VideosDelete (id v)]
            ++ cleanup
            ++ [RevalidatePath ("/projects/" ++ project_id v);
                RevalidatePath "/videos"])%list
      /\ (storage_path v = "" -> cleanup = [])
      /\ (storage_path v <> "" ->
          cleanup = [CreateClient]
          \/ cleanup = [CreateClient; AuthGetUser]
          \/ cleanup = [CreateClient; AuthGetUser;
                        StorageRemove [storage_path v]])
      /\ (storage_path v <> "" ->
          plan w (4 + List.length (trace w)) <> Throws ->
          plan w (5 + List.length (trace w)) = NoFault ->
          cleanup = [CreateClient; AuthGetUser; StorageRemove [storage_path v]])
      /\ (plan w (6 + List.length (trace w)) <> NoFault ->
          bucket w' = bucket w).
Proof.
  intros w v p Hu Hs Hndv Hndp Hv Hp Hfk H0 H1 H2 H3.
  simpl Nat.add in *.
  pose proof (owned_rows_owned w v p Hndv Hndp Hv Hp Hfk) as Hrows.
  rewrite (deleteVideo_run w (id v) (p_user_id p) v
             Hu Hs Hrows H0 H1 H2 H3).
  destruct (storage_path v) as [|c path] eqn:Epath.
  { simpl. norm_trace. eexists. exists []. close_case. }
  rewrite deleteVideoFile_run. simpl. norm_trace. rewrite Hs.
  destruct (plan w (S (S (S (S (List.length (trace w))))))) eqn:E4;
    destruct (plan w (S (S (S (S (S (List.length (trace w)))))))) eqn:E5;
    destruct (plan w (S (S (S (S (S (S (List.length (trace w))))))))) eqn:E6;
    simpl; norm_trace;
    eexists;
    first
      [ exists [CreateClient; AuthGetUser; StorageRemove [String c path]];
        solve [ close_case ]
      | exists [CreateClient; AuthGetUser]; solve [ close_case ]
      | exists [CreateClient]; solve [ close_case ] ].
Qed.

End DeleteFacts.

(** The demo world with a storage removal that throws: the seventh call
    (position 6) is the [remove] of the cleanup. *)
Lemma deleteVideo_tolerates_cleanup_failure_witness :
  exists (w' : world) (cleanup : list call),
    deleteVideo (fun s => Nat.eqb (String.length s) 36) (id Demo.video1)
      Demo.broken_storage
    = (Ok {| success := true; data := None; error := None |}, w')
    /\ videos w'
       = filter (fun x => negb (String.eqb (id x) (id Demo.video1)))
           (videos Demo.broken_storage)
    /\ (forall x, In x (videos w') -> id x <> id Demo.video1)
    /\ trace w'
       = (trace Demo.broken_storage
          ++ [CreateClient; AuthGetUser;
              VideosSelectOwned (id Demo.video1) "u1";
              VideosDelete (id Demo.video1)]
          ++ cleanup
          ++ [RevalidatePath ("/projects/" ++ project_id Demo.video1);
              RevalidatePath "/videos"])%list
    /\ (storage_path Demo.video1 = "" -> cleanup = [])
    /\ (storage_path Demo.video1 <> "" ->
        cleanup = [CreateClient]
        \/ cleanup = [CreateClient; AuthGetUser]
        \/ cleanup = [CreateClient; AuthGetUser;
                      StorageRemove [storage_path Demo.video1]])
    /\ (storage_path Demo.video1 <> "" ->
        plan Demo.broken_storage 4 <> Throws ->
        plan Demo.broken_storage 5 = NoFault ->
        cleanup = [CreateClient; AuthGetUser;
                   StorageRemove [storage_path Demo.video1]])
    /\ (plan Demo.broken_storage 6 <> NoFault ->
        bucket w' = bucket Demo.broken_storage).
Proof.
  apply (deleteVideo_tolerates_cleanup_failure
           (fun s => Nat.eqb (String.length s) 36)
           Demo.broken_storage
           Demo.video1 {| p_id := "p1"; p_user_id := "u1" |}).
  - reflexivity.
  - reflexivity.
  - simpl. repeat constructor; simpl; intuition discriminate.
  - simpl. repeat constructor; simpl; intuition discriminate.
  - simpl. auto.
  - simpl. auto.
  - reflexivity.
  - simpl. discriminate.
  - reflexivity.
  - reflexivity.
  - reflexivity.
Defined.

Example deleteVideo_runs :
  let uuid := fun s => Nat.eqb (String.length s) 36 in
  let broken := Demo.broken_storage in
  let sound := Demo.world_of (fun _ => NoFault) in
  fst (deleteVideo uuid (id Demo.video1) broken) = Ok (succeed None)
  /\ videos (snd (deleteVideo uuid (id Demo.video1) broken)) = [Demo.video2]
  /\ bucket (snd (deleteVideo uuid (id Demo.video1) broken))
     = [("videos/p1/clip.mp4", Demo.clip)]
  /\ trace (snd (deleteVideo uuid (id Demo.video1) broken))
     = [CreateClient; AuthGetUser; VideosSelectOwned (id Demo.video1) "u1";
        VideosDelete (id Demo.video1);
        CreateClient; AuthGetUser; StorageRemove ["videos/p1/clip.mp4"];
        RevalidatePath "/projects/p1"; RevalidatePath "/videos"]
  /\ bucket (snd (deleteVideo uuid (id Demo.video1) sound)) = []
  /\ fst (deleteVideo uuid (id Demo.video2) sound)
     = Ok (fail (Message "Video not found or access denied"))
  /\ fst (deleteVideo uuid "42" sound)
     = Ok (fail (MessageOf (ZodError "Invalid video ID"))).
Proof. repeat split; reflexivity. Qed.

End ServerFacts.

(* ===================================================================== *)
(** ** Reading actions, uploads and deletions: further proofs *)
(* ===================================================================== *)

Module ActionFacts.
Import JS Store Supabase Videos Webhook Shape VideoReads Outcome ServerFacts.

(** A row of the ownership select is a row of the table with the asked
    id, whose project is in the projects table and belongs to the user. *)
Lemma owned_rows_sound (w : world) (videoId userId : string) (v : Video) :
  In v (owned_rows w videoId userId) ->
  In v (videos w) /\ id v = videoId
  /\ exists p, In p (projects w) /\ p_id p = project_id v
               /\ p_user_id p = userId.
Proof.
  unfold owned_rows. intros H. apply in_flat_map in H as (x & Hx & H).
  destruct (String.eqb_spec (id x) videoId) as [E|E]; [|contradiction].
  apply in_map_iff in H as (p & <- & Hp).
  apply filter_In in Hp as [Hp Hc].
  apply andb_true_iff in Hc as [H1 H2].
  apply String.eqb_eq in H1, H2.
  repeat split; try assumption. exists p. auto.
Qed.

Lemma single_In {A} (rows : list A) (r : A) :
  single rows = Some r -> In r rows.
Proof.
  destruct rows as [|a [|b rest]]; simpl; try discriminate.
  intros [= ->]. now left.
Qed.

(** [getVideoPublicUrl] never throws and changes nothing but the trace,
    where it leaves at most the two calls createClient and getUser. It
    succeeds exactly for a caller with a session whose two calls go
    well, and then the URL is the one the storage client gives for the
    path as it was passed; a caller without a session gets no URL. *)
Theorem getVideoPublicUrl_gate :
  forall (storagePath : string) (w : world),
  exists (r : ActionResult PublicUrl) (calls : list call),
    getVideoPublicUrl storagePath w
    = (Ok r, with_trace w (trace w ++ calls))
    /\ (calls = [CreateClient] \/ calls = [CreateClient; AuthGetUser])
    /\ (success r = true <->
        plan w (List.length (trace w)) <> Throws
        /\ plan w (S (List.length (trace w))) = NoFault
        /\ session w <> None)
    /\ (success r = true ->
        data r = Some {| publicUrl := public_url w storagePath |})
    /\ (session w = None -> success r = false /\ data r = None).
Proof.
  intros storagePath w.
  unfold getVideoPublicUrl, try_catch, mbind, createClient, auth_getUser,
    storage_getPublicUrl, mbind, remote, read, ret, throw.
  simpl.
  destruct (plan w (List.length (trace w))) eqn:E0; simpl; norm_trace;
    try (eexists; exists [CreateClient]; repeat split; auto;
         try discriminate; intros (H & _); congruence);
    destruct (plan w (S (List.length (trace w)))) eqn:E1; simpl;
    try (eexists; exists [CreateClient; AuthGetUser]; repeat split; auto;
         try discriminate; intros (_ & H & _); congruence);
    destruct (session w) eqn:Es; simpl;
    eexists; exists [CreateClient; AuthGetUser];
    repeat split; auto; try discriminate; try congruence;
    intros (_ & _ & H); congruence.
Qed.

Section ReadById.

Variable uuid : string -> bool.

(** [getVideoById] never throws and changes nothing but the trace. A
    video it returns has the asked id, is a row of the table, and its
    project is a row of the projects table that belongs to the signed-in
    user; an id that is not a UUID is refused before any call is made. *)
Theorem getVideoById_returns_owned :
  forall (id0 : string) (w : world),
  exists (r : ActionResult Video) (calls : list call),
    getVideoById uuid id0 w = (Ok r, with_trace w (trace w ++ calls))
    /\ (success r = true <-> data r <> None)
    /\ (forall v, data r = Some v ->
        uuid id0 = true /\ In v (videos w) /\ id v = id0
        /\ exists user p,
             session w = Some user /\ In p (projects w)
             /\ p_id p = project_id v /\ p_user_id p = user)
    /\ (uuid id0 = false ->
        calls = [] /\ r = fail (MessageOf (ZodError "Invalid video ID"))).
Proof.
  intros id0 w.
  unfold getVideoById, try_catch, mbind, videoIdSchema_parse, createClient,
    auth_getUser, videos_select_owned, mbind, remote, read, ret, throw.
  destruct (uuid id0) eqn:Eu; simpl.
  2:{ eexists. exists []. rewrite app_nil_r.
      assert (Hw : with_trace w (trace w) = w) by (destruct w; reflexivity).
      rewrite Hw. repeat split; simpl; try congruence; discriminate. }
  destruct (plan w (List.length (trace w))) eqn:E0; simpl; norm_trace;
    try (eexists; eexists; split; [reflexivity|]; simpl;
         repeat split; try congruence; discriminate);
    destruct (plan w (S (List.length (trace w)))) eqn:E1; simpl;
    try (eexists; eexists; split; [reflexivity|]; simpl;
         repeat split; try congruence; discriminate);
    destruct (session w) as [user|] eqn:Es; simpl; norm_trace;
    try (eexists; eexists; split; [reflexivity|]; simpl;
         repeat split; try congruence; discriminate);
    destruct (plan w (S (S (List.length (trace w))))) eqn:E2; simpl;
    try (eexists; eexists; split; [reflexivity|]; simpl;
         repeat split; try congruence; discriminate).
  all: match goal with
       | |- context [owned_rows ?w' ?a ?b] =>
           change (owned_rows w' a b) with (owned_rows w a b)
       end.
  all: destruct (single (owned_rows w id0 user)) as [v|] eqn:Erow; simpl;
    try (eexists; eexists; split; [reflexivity|]; simpl;
         repeat split; try congruence; discriminate).
  all: eexists; eexists; split; [reflexivity|]; simpl.
  all: split; [split; congruence|].
  all: split; [|congruence].
  all: intros v' [= <-]; split; [reflexivity|].
  all: apply single_In, owned_rows_sound in Erow
         as (Hin & Hid & p & Hp & Hfk & Hu).
  all: repeat split; try assumption; exists user, p; auto.
Qed.

End ReadById.

Lemma assign_twice (v old : value) : assign v (assign v old) = assign v old.
Proof. destruct v; reflexivity. Qed.

Lemma set_transcript_twice (r t d : value) (v : Video) :
  (fun v => if eq_text (deepgram_request_id v) r
            then set_transcript t d v else v)
    (if eq_text (deepgram_request_id v) r then set_transcript t d v else v)
  = (if eq_text (deepgram_request_id v) r then set_transcript t d v else v).
Proof.
  destruct (eq_text (deepgram_request_id v) r) eqn:E; simpl.
  - rewrite E. unfold set_transcript. simpl. rewrite !assign_twice.
    reflexivity.
  - rewrite E. reflexivity.
Qed.

(** A callback that is delivered again changes no row: once
    [updateTranscript] has gone through, a second run with the same
    arguments leaves the videos table as the first run left it, whatever
    the second run meets. *)
Theorem updateTranscript_redelivery :
  forall (r t d : value) (w : world),
    plan w (List.length (trace w)) <> Throws ->
    plan w (S (List.length (trace w))) = NoFault ->
    success_of (fst (updateTranscript r t d w)) = true
    /\ videos (snd (updateTranscript r t d (snd (updateTranscript r t d w))))
       = videos (snd (updateTranscript r t d w)).
Proof.
  intros r t d w H0 H1.
  rewrite (updateTranscript_run r t d w), H1.
  destruct (plan w (List.length (trace w))) eqn:E0; [ | | congruence];
    (split; [reflexivity|]);
    rewrite updateTranscript_run; simpl snd;
    repeat match goal with
           | |- videos (snd (match ?a with _ => _ end)) = _ => destruct a
           end;
    try reflexivity;
    simpl; rewrite map_map; apply map_ext; intros v;
    apply set_transcript_twice.
Qed.

Lemma updateTranscript_redelivery_witness :
  success_of (fst (updateTranscript (Str "abc") (Str "cuban")
                     (Arr [Demo.cuban]) (Demo.world_of (fun _ => NoFault))))
  = true
  /\ videos (snd (updateTranscript (Str "abc") (Str "cuban")
                    (Arr [Demo.cuban])
                    (snd (updateTranscript (Str "abc") (Str "cuban")
                            (Arr [Demo.cuban])
                            (Demo.world_of (fun _ => NoFault))))))
     = videos (snd (updateTranscript (Str "abc") (Str "cuban")
                      (Arr [Demo.cuban]) (Demo.world_of (fun _ => NoFault)))).
Proof.
  apply (updateTranscript_redelivery (Str "abc") (Str "cuban")
           (Arr [Demo.cuban]) (Demo.world_of (fun _ => NoFault))).
  - simpl. discriminate.
  - reflexivity.
Defined.

(** [deleteVideoFile]: it never throws and leaves the tables alone; a
    caller without a session is refused and nothing is removed; when the
    removal itself comes back with an error the result is success all the
    same and the bucket is unchanged; and when the three calls go well for
    a caller with a session, whoever that is, no object with that path is
    left. *)
Theorem deleteVideoFile_contract :
  forall (path : string) (w : world),
  exists (r : ActionResult unit) (w' : world),
    deleteVideoFile path w = (Ok r, w')
    /\ videos w' = videos w /\ projects w' = projects w
    /\ (session w = None -> success r = false /\ bucket w' = bucket w)
    /\ (bucket w' = bucket w
        \/ bucket w'
           = filter (fun o => negb (String.eqb (fst o) path)) (bucket w))
    /\ (plan w (List.length (trace w)) <> Throws ->
        plan w (S (List.length (trace w))) = NoFault ->
        session w <> None ->
        (plan w (S (S (List.length (trace w)))) = ReportsError ->
         success r = true /\ bucket w' = bucket w)
        /\ (plan w (S (S (List.length (trace w)))) = NoFault ->
            success r = true
            /\ forall o, In o (bucket w') -> fst o <> path)).
Proof.
  intros path w. rewrite deleteVideoFile_run.
  assert (Hgone : forall o,
            In o (filter (fun o => negb (String.eqb (fst o) path)) (bucket w))
            -> fst o <> path).
  { intros o H. apply filter_In in H as [_ H].
    apply negb_true_iff, String.eqb_neq in H. exact H. }
  destruct (plan w (List.length (trace w))) eqn:E0;
    destruct (plan w (S (List.length (trace w)))) eqn:E1;
    destruct (session w) eqn:Es;
    destruct (plan w (S (S (List.length (trace w))))) eqn:E2;
    eexists; eexists; (split; [reflexivity|]); simpl;
    repeat split; auto; try congruence; try discriminate.
Qed.

(** A [try] whose handler returns a result never throws, and the handler
    does not touch the world. *)
Lemma try_catch_returns {A} (m : M A) (h : exn -> A) (w : world) :
  exists r, fst (try_catch m (fun e => ret (h e)) w) = Ok r.
Proof. unfold try_catch, ret. destruct (m w) as [[a|e] w']; simpl; eauto. Qed.

Lemma try_catch_world {A} (m : M A) (h : exn -> A) (w : world) :
  snd (try_catch m (fun e => ret (h e)) w) = snd (m w).
Proof. unfold try_catch, ret. destruct (m w) as [[a|e] w']; reflexivity. Qed.

Section DeleteAccess.

Variable uuid : string -> bool.

(** [deleteVideo] removes nothing unless its caller owns the video: if a
    run changes the videos table or the bucket, then the id is a UUID and
    the table has a row of that id whose project belongs to the signed-in
    user. It never throws. *)
Theorem deleteVideo_needs_ownership :
  forall (id0 : string) (w : world),
    (exists r, fst (deleteVideo uuid id0 w) = Ok r)
    /\ ((videos (snd (deleteVideo uuid id0 w)) = videos w
         /\ bucket (snd (deleteVideo uuid id0 w)) = bucket w)
        \/ (uuid id0 = true
            /\ exists user v p,
                 session w = Some user /\ In v (videos w) /\ id v = id0
                 /\ In p (projects w) /\ p_id p = project_id v
                 /\ p_user_id p = user)).
Proof.
  intros id0 w. unfold deleteVideo.
  split; [apply try_catch_returns|].
  rewrite !try_catch_world.
  unfold mbind, videoIdSchema_parse, createClient, auth_getUser,
    videos_select_owned, mbind, remote, read, ret, throw.
  destruct (uuid id0) eqn:Eu; simpl; [|left; split; reflexivity].
  destruct (plan w (List.length (trace w))) eqn:E0; simpl; norm_trace;
    try (left; split; reflexivity);
    destruct (plan w (S (List.length (trace w)))) eqn:E1; simpl;
    try (left; split; reflexivity);
    destruct (session w) as [user|] eqn:Es; simpl; norm_trace;
    try (left; split; reflexivity);
    destruct (plan w (S (S (List.length (trace w))))) eqn:E2; simpl;
    try (left; split; reflexivity).
  all: match goal with
       | |- context [owned_rows ?w' ?a ?b] =>
           change (owned_rows w' a b) with (owned_rows w a b)
       end.
  all: destruct (single (owned_rows w id0 user)) as [v|] eqn:Erow;
    [|left; split; reflexivity].
  all: right; split; [reflexivity|].
  all: apply single_In, owned_rows_sound in Erow
         as (Hin & Hid & p & Hp & Hfk & Hu).
  all: exists user, v, p; auto 7.
Qed.

End DeleteAccess.

(** The logging handler and the updating handler read the same
    properties. Where the updating handler answers 500 and does nothing,
    the logging one throws; where the logging one answers, it answers 200
    "ok", and so does the updating one. *)
Theorem logging_webhook_agrees :
  forall (request : Request) (w : world),
    (forall e, WebhookLog.POST request = Throw e ->
       Webhook.POST request w
       = (Ok {| body := "error"; http_status := 500 |}, w))
    /\ (forall resp, WebhookLog.POST request = Ok resp ->
        resp = {| body := "ok"; http_status := 200 |}
        /\ fst (Webhook.POST request w) = Ok resp)
    /\ (fst (Webhook.POST request w)
        = Ok {| body := "error"; http_status := 500 |}
        -> exists e, WebhookLog.POST request = Throw e).
Proof.
  intros request w. rewrite POST_run.
  unfold WebhookLog.POST, webhook_reads.
  destruct (json request) as [data|e0]; simpl.
  2:{ repeat split; try discriminate; eauto. }
  destruct (optional data
              (fun d => bind (alternative0 d) (fun a => get a "transcript")))
    as [t|et];
    destruct (optional data
                (fun d => bind (alternative0 d) (fun a => get a "words")))
      as [d|ed];
    destruct (optional data
                (fun d => bind (get d "metadata")
                            (fun metadata => get metadata "request_id")))
      as [r|er];
    simpl; repeat split; try discriminate; eauto; congruence.
Qed.

Ltac upload_refused :=
  eexists; eexists; (split; [reflexivity|]); simpl;
  (split; [reflexivity|]); (split; [reflexivity|]);
  left; split; reflexivity.

(** [uploadVideoFile] stores a file only for the owner of the project. It
    never throws and never touches the tables; either it reports failure
    and the bucket is as it was, or the form held a File within the size
    limit and of an allowed type, the caller is signed in and owns the
    project named by the form, and exactly one object was added: the
    file, under videos/<project id>/<time>_<random>.<extension>, a path
    that was free, with the URL the storage client gives for that path
    in the result. *)
Theorem uploadVideoFile_stores_for_owner :
  forall (formData : FormData) (w : world),
  exists (r : ActionResult uploaded_file) (w' : world),
    uploadVideoFile formData w = (Ok r, w')
    /\ videos w' = videos w
    /\ projects w' = projects w
    /\ ((success r = false /\ bucket w' = bucket w)
        \/ exists (f : File) (user : string) (p : Project)
                  (stamp rnd : string),
             let path :=
               "videos/" ++ entry_text (formData_get "projectId" formData)
               ++ "/" ++ stamp ++ "_" ++ rnd ++ "."
               ++ last_segment (name f) "" in
             formData_get "file" formData = Some (EFile f)
             /\ size f <= 104857600
             /\ In (type f)
                  ["video/mp4"; "video/mov"; "video/avi"; "video/webm";
                   "video/quicktime"]
             /\ session w = Some user
             /\ In p (projects w)
             /\ p_id p = entry_text (formData_get "projectId" formData)
             /\ p_user_id p = user
             /\ has_object path (bucket w) = false
             /\ r = succeed (Some {| storagePath := path;
                                     Videos.publicUrl :=
                                       public_url w path |})
             /\ bucket w' = (bucket w ++ [(path, f)])%list).
Proof.
  intros formData w. unfold uploadVideoFile, try_catch.
  destruct (formData_get "file" formData) as [[s|f]|] eqn:Ef;
    [ destruct s; simpl; destruct (missing (formData_get "projectId" formData));
      upload_refused
    | | upload_refused ].
  simpl missing. cbv iota.
  destruct (missing (formData_get "projectId" formData)) eqn:Ep;
    [upload_refused|].
  destruct (size_exceeds (Some (EFile f)) maxSize) eqn:Esz; [upload_refused|].
  destruct (type_allowed allowedTypes (Some (EFile f))) eqn:Ety;
    [|upload_refused].
  simpl negb. cbv iota.
  unfold mbind, createClient, auth_getUser, projects_select_owned,
    storage_upload, storage_getPublicUrl, mbind, remote, read, ret, throw.
  simpl.
  destruct (plan w (List.length (trace w))) eqn:E0; simpl; norm_trace;
    try upload_refused;
    destruct (plan w (S (List.length (trace w)))) eqn:E1; simpl;
    try upload_refused;
    destruct (session w) as [user|] eqn:Es; simpl; norm_trace;
    try upload_refused;
    destruct (plan w (S (S (List.length (trace w))))) eqn:E2; simpl;
    try upload_refused.
  all: match goal with
       | |- context [single ?l] => destruct (single l) as [p|] eqn:Erow
       end; simpl; norm_trace; try upload_refused.
  all: destruct (plan w (S (S (S (List.length (trace w)))))) eqn:E3; simpl;
    try upload_refused.
  all: match goal with
       | |- context [has_object ?path ?b] =>
           destruct (has_object path b) eqn:Eobj
       end; simpl; try upload_refused.
  all: eexists; eexists; (split; [reflexivity|]); simpl;
    (split; [reflexivity|]); (split; [reflexivity|]); right.
  all: apply single_In, filter_In in Erow as [Hp Hc];
    apply andb_true_iff in Hc as [Hc1 Hc2];
    apply String.eqb_eq in Hc1, Hc2.
  all: exists f, user, p; do 2 eexists; cbv zeta.
  all: split; [reflexivity|].
  all: split;
    [ simpl in Esz; apply Z.gtb_ltb in Esz || idtac;
      unfold maxSize in Esz; lia |].
  all: split; [apply type_allowed_iff; exact Ety|].
  all: split; [reflexivity|].
  all: split; [exact Hp|]. 
  all: split; [exact Hc1|].
  all: split; [exact Hc2|].
  all: split; [exact Eobj|].
  all: split; reflexivity.
Qed.

Lemma append_snoc (acc : string) (c : ascii) (rest : string) :
  ((acc ++ String c EmptyString) ++ rest)%string
  = (acc ++ String c rest)%string.
Proof. induction acc as [|a acc IH]; simpl; [reflexivity | now rewrite IH]. Qed.

Lemma last_segment_acc (name : string) :
  forall acc : string,
    (has_dot name = false -> last_segment name acc = (acc ++ name)%string)
    /\ (has_dot name = true ->
        has_dot (last_segment name acc) = false
        /\ exists prefix : string,
             name = (prefix ++ "." ++ last_segment name acc)%string).
Proof.
  induction name as [|c rest IH]; intros acc; simpl.
  - split; [intros _ | discriminate].
    induction acc as [|a acc IHa]; simpl; [reflexivity | now rewrite <- IHa].
  - destruct (Ascii.eqb_spec c "."%char) as [-> | Hc]; simpl.
    + split; [discriminate | intros _].
      destruct (has_dot rest) eqn:Hd.
      * destruct (IH EmptyString) as [_ H]. destruct (H eq_refl) as [Hn [p Hp]].
        split; [exact Hn|]. exists (String "." p). simpl. f_equal. exact Hp.
      * destruct (IH EmptyString) as [H _]. rewrite (H eq_refl). simpl.
        split; [exact Hd|]. exists EmptyString. reflexivity.
    + destruct (IH (acc ++ String c EmptyString)%string) as [H1 H2]. split.
      * intros Hd. rewrite (H1 Hd). apply append_snoc.
      * intros Hd. destruct (H2 Hd) as [Hn [p Hp]].
        split; [exact Hn|]. exists (String c p). simpl. f_equal. exact Hp.
Qed.

(** [name.split(".").pop()], the extension given to an uploaded object,
    has no dot and ends the name: it is what follows the last dot, and
    the whole name when the name has no dot. *)
Theorem last_segment_is_extension :
  forall name : string,
    has_dot (last_segment name "") = false
    /\ (has_dot name = false -> last_segment name "" = name)
    /\ (has_dot name = true ->
        exists prefix : string,
          name = (prefix ++ "." ++ last_segment name "")%string).
Proof.
  intros name. destruct (last_segment_acc name EmptyString) as [H1 H2].
  destruct (has_dot name) eqn:Hd.
  - destruct (H2 eq_refl) as [Hn Hp]. repeat split; auto; discriminate.
  - rewrite (H1 eq_refl). simpl. repeat split; auto; discriminate.
Qed.

Section CreateFromForm.

Variable createVideo : CreateVideoData -> M (ActionResult Video).

(** A file the upload rejects on its form creates no record: with a
    non-empty File that is too large or of a type outside the list,
    [createVideoWithFile] answers with the upload's message (or with
    "Project ID is required" when that field is the empty string) and
    returns the world as it was, whatever [createVideo] would do. *)
Theorem createVideoWithFile_rejects_before_creating :
  forall (formData : FormData) (w : world) (f : File),
    formData_get "file" formData = Some (EFile f) ->
    size f > 0 ->
    size f > 104857600
    \/ ~ In (type f)
           ["video/mp4"; "video/mov"; "video/avi"; "video/webm";
            "video/quicktime"] ->
    exists msg : string,
      createVideoWithFile createVideo formData w
      = (Ok (fail (Message msg)), w)
      /\ (formData_get "projectId" formData = Some (EString "") ->
          msg = "Project ID is required")
      /\ (formData_get "projectId" formData <> Some (EString "") ->
          size f > 104857600 -> msg = "File size must be less than 100MB")
      /\ (formData_get "projectId" formData <> Some (EString "") ->
          size f <= 104857600 ->
          msg = "File type not supported. Please use MP4, MOV, AVI, or WebM").
Proof.
  intros formData w f Hf Hpos Hbad.
  unfold createVideoWithFile, try_catch, mbind. rewrite Hf.
  assert (Hc : has_content (Some (EFile f)) = true)
    by (simpl; apply Z.gtb_lt; lia).
  rewrite Hc. cbv zeta.
  unfold uploadVideoFile, try_catch. cbv zeta.
  change (formData_get "file"
            [("file", appended (Some (EFile f)));
             ("projectId", appended (formData_get "projectId" formData))])
    with (Some (EFile f)).
  change (formData_get "projectId"
            [("file", appended (Some (EFile f)));
             ("projectId", appended (formData_get "projectId" formData))])
    with (Some (appended (formData_get "projectId" formData))).
  change (missing (Some (EFile f))) with false. cbv iota.
  destruct (formData_get "projectId" formData) as [[[|c s]|g]|] eqn:Ep;
    simpl appended; simpl missing; cbv iota.
  1:{ exists "Project ID is required". simpl.
      split; [reflexivity|]. split; [reflexivity|].
      split; intros H; exfalso; apply H; reflexivity. }
  all: destruct (size_exceeds (Some (EFile f)) maxSize) eqn:Esz.
  all: try (exists "File size must be less than 100MB"; simpl;
            split; [reflexivity|]; split; [intros H; congruence|];
            split; [intros; reflexivity|];
            intros _ Hle;
            apply size_exceeds_iff in Esz as (f' & [= <-] & Hgt); lia).
  all: assert (Hty : type_allowed allowedTypes (Some (EFile f)) = false)
    by (destruct Hbad as [Hbig | Hnot];
        [ assert (size_exceeds (Some (EFile f)) maxSize = true)
            by (apply size_exceeds_iff; eauto); congruence
        | destruct (type_allowed allowedTypes (Some (EFile f))) eqn:E;
          [apply type_allowed_iff in E; contradiction | reflexivity] ]).
  all: rewrite Hty; simpl.
  all: exists "File type not supported. Please use MP4, MOV, AVI, or WebM".
  all: split; [reflexivity|]; split; [intros H; congruence|];
    split; [|intros; reflexivity].
  all: intros _ Hgt; exfalso;
    assert (size_exceeds (Some (EFile f)) maxSize = true)
      by (apply size_exceeds_iff; eauto); congruence.
Qed.

(** A form with a good file but no project id field is not answered with
    "Project ID is required": the upload is given the text "null" as
    project id, so a signed-in caller is told, after the client, the
    session and the projects table have been consulted, that the project
    was not found. *)
Theorem createVideoWithFile_absent_project :
  forall (formData : FormData) (w : world) (f : File) (user : string),
    formData_get "file" formData = Some (EFile f) ->
    0 < size f <= 104857600 ->
    In (type f)
       ["video/mp4"; "video/mov"; "video/avi"; "video/webm";
        "video/quicktime"] ->
    formData_get "projectId" formData = None ->
    session w = Some user ->
    (forall p, In p (projects w) -> p_id p <> "null") ->
    plan w (List.length (trace w)) <> Throws ->
    plan w (S (List.length (trace w))) = NoFault ->
    plan w (S (S (List.length (trace w)))) = NoFault ->
    createVideoWithFile createVideo formData w
    = (Ok (fail (Message "Project not found or access denied")),
       with_trace w
         (trace w ++ [CreateClient; AuthGetUser;
                      ProjectsSelectOwned "null" user])).
Proof.
  intros formData w f user Hf [Hpos Hle] Hty Hp Hs Hnone H0 H1 H2.
  unfold createVideoWithFile, try_catch, mbind. rewrite Hf, Hp.
  assert (Hc : has_content (Some (EFile f)) = true)
    by (simpl; apply Z.gtb_lt; lia).
  rewrite Hc. cbv zeta.
  unfold uploadVideoFile, try_catch. cbv zeta.
  change (formData_get "file"
            [("file", appended (Some (EFile f)));
             ("projectId", appended None)])
    with (Some (EFile f)).
  change (formData_get "projectId"
            [("file", appended (Some (EFile f)));
             ("projectId", appended None)])
    with (Some (EString "null")).
  change (missing (Some (EFile f))) with false.
  change (missing (Some (EString "null"))) with false. cbv iota.
  assert (Hsz : size_exceeds (Some (EFile f)) maxSize = false).
  { destruct (size_exceeds (Some (EFile f)) maxSize) eqn:E; [|reflexivity].
    apply size_exceeds_iff in E as (f' & [= <-] & Hgt). lia. }
  rewrite Hsz. apply type_allowed_iff in Hty. rewrite Hty. simpl negb.
  cbv iota.
  unfold mbind, createClient, auth_getUser, projects_select_owned,
    mbind, remote, read, ret, throw.
  simpl.
  assert (Hrows : filter (fun p => String.eqb (p_id p) "null"
                                   && String.eqb (p_user_id p) user)
                         (projects w) = []).
  { clear - Hnone. induction (projects w) as [|p ps IH]; [reflexivity|].
    simpl. destruct (String.eqb_spec (p_id p) "null") as [E|E].
    - exfalso. apply (Hnone p); [now left | exact E].
    - simpl. apply IH. intros q Hq. apply Hnone. now right. }
  destruct (plan w (List.length (trace w))) eqn:E0; try congruence; simpl;
    norm_trace; rewrite H1; simpl; rewrite Hs; simpl; norm_trace;
    rewrite H2; simpl; rewrite Hrows; reflexivity.
Qed.

End CreateFromForm.

End ActionFacts.

(* ===================================================================== *)
(** ** The video page, the transcript text and the upload form: proofs *)
(* ===================================================================== *)

Module ClientFacts.
Import JS Store Transcript TranscriptText Shape.

(** A double that is below something is below itself: it is not NaN. *)
Lemma leb_self (x y : float) :
  PrimFloat.leb x y = true -> PrimFloat.leb x x = true.
Proof.
  rewrite !leb_spec. unfold SFleb, SFcompare.
  destruct (Prim2SF x) as [sx|sx| |sx mx ex], (Prim2SF y) as [sy|sy| |sy my ey];
    try discriminate; intros _;
    try (destruct sx; reflexivity);
    destruct sx; rewrite Z.compare_refl, Pos.compare_cont_refl; reflexivity.
Qed.

Section PageFacts.

Variable X : value -> float.

(** What the array test of the page says of the component's words. *)
Lemma hasInteractiveTranscript_words (video : Video) :
  (Page.hasInteractiveTranscript video = true ->
   words (transcript_data_full video) <> []
   /\ transcript_data_full video = Arr (words (transcript_data_full video)))
  /\ (Page.hasInteractiveTranscript video = false ->
      words (transcript_data_full video) = []).
Proof.
  unfold Page.hasInteractiveTranscript.
  destruct (transcript_data_full video) as [| |b|n|s|elems|props];
    try (split; [discriminate | reflexivity]).
  destruct elems as [|e elems].
  - split; [discriminate | reflexivity].
  - replace (Z.of_nat (List.length (e :: elems)) >? 0) with true
      by (symmetry; apply Z.gtb_lt; simpl List.length; lia).
    split; [|discriminate]. intros _. split; [discriminate | reflexivity].
Qed.

(** The page shows the interactive transcript exactly when the URL has
    been fetched (it is no longer loading, there is no error and the URL
    is not empty) and the array of words is not empty; the component then
    has these very elements as its words and does not render its own
    fallback. With the URL fetched and no such array the page shows its
    plain card, and the component's words would be empty. While the URL
    is loading the page shows the loading card and no transcript at all.
    So the component's fallback is never what the page shows. *)
Theorem page_shows_transcript_iff_words :
  forall (video : Video) (st : Page.PageState) (child : State),
    (Page.VideoPlayerWithTranscript X video st child = Page.LoadingVideo
     <-> Page.isLoadingUrl st = true)
    /\ (forall (url : string) (c : result view),
          Page.VideoPlayerWithTranscript X video st child
          = Page.Player url (Page.Interactive c)
          <-> Page.isLoadingUrl st = false
              /\ Page.truthy_text (Page.urlError st) = false
              /\ Page.publicUrl st = Some url /\ url <> ""
              /\ Page.hasInteractiveTranscript video = true
              /\ c = InteractiveTranscript X (Page.child_props X video st)
                       child)
    /\ (forall (url : string) (c : result Page.card),
          Page.VideoPlayerWithTranscript X video st child
          = Page.Player url (Page.Plain c)
          <-> Page.isLoadingUrl st = false
              /\ Page.truthy_text (Page.urlError st) = false
              /\ Page.publicUrl st = Some url /\ url <> ""
              /\ Page.hasInteractiveTranscript video = false
              /\ c = Page.transcript_card video)
    /\ (Page.hasInteractiveTranscript video = true ->
        words (transcript_data_full video) <> []
        /\ transcript_data_full video
           = Arr (words (transcript_data_full video)))
    /\ (Page.hasInteractiveTranscript video = false ->
        words (transcript_data_full video) = [])
    /\ (forall url : string,
          Page.VideoPlayerWithTranscript X video st child
          <> Page.Player url (Page.Interactive (Ok Fallback))).
Proof.
  intros video st child.
  destruct (hasInteractiveTranscript_words video) as [Hyes Hno].
  assert (Hnf : Page.hasInteractiveTranscript video = true ->
                InteractiveTranscript X (Page.child_props X video st) child
                <> Ok Fallback).
  { intros Hh. destruct (Hyes Hh) as [Hne Harr].
    destruct (words (transcript_data_full video)) as [|e elems] eqn:Ew;
      [exfalso; apply Hne; reflexivity|].
    apply (TranscriptFacts.nonempty_array_not_fallback X _
             (Page.child_props X video st) child e elems).
    simpl. exact Harr. }
  assert (Hurl : forall o url,
            Page.truthy_text o = true /\ Page.text_of o = url
            <-> o = Some url /\ url <> "").
  { intros o url. destruct o as [[|c t]|]; simpl; split.
    - intros [H _]; discriminate H.
    - intros [[= <-] H]. exfalso. apply H. reflexivity.
    - intros [_ <-]. split; [reflexivity | discriminate].
    - intros [[= <-] _]. split; reflexivity.
    - intros [H _]; discriminate H.
    - intros [H _]; discriminate H. }
  unfold Page.VideoPlayerWithTranscript.
  destruct (Page.isLoadingUrl st).
  { split; [split; reflexivity|].
    split; [intros url c; split; [discriminate | intros [H _]; discriminate H]|].
    split; [intros url c; split; [discriminate | intros [H _]; discriminate H]|].
    split; [exact Hyes|]. split; [exact Hno|]. discriminate. }
  destruct (Page.truthy_text (Page.urlError st)) eqn:Ee; simpl.
  { split; [split; discriminate|].
    split; [intros url c; split;
            [discriminate | intros (_ & H & _); discriminate H]|].
    split; [intros url c; split;
            [discriminate | intros (_ & H & _); discriminate H]|].
    split; [exact Hyes|]. split; [exact Hno|]. discriminate. }
  destruct (Page.truthy_text (Page.publicUrl st)) eqn:Ep; simpl.
  2:{ split; [split; discriminate|].
      split; [intros url c; split;
              [discriminate
              | intros (_ & _ & H1 & H2 & _);
                destruct (proj2 (Hurl _ url) (conj H1 H2)) as [H _];
                rewrite H in Ep; discriminate Ep]|].
      split; [intros url c; split;
              [discriminate
              | intros (_ & _ & H1 & H2 & _);
                destruct (proj2 (Hurl _ url) (conj H1 H2)) as [H _];
                rewrite H in Ep; discriminate Ep]|].
      split; [exact Hyes|]. split; [exact Hno|]. discriminate. }
  split; [split; discriminate|].
  destruct (Page.hasInteractiveTranscript video) eqn:Eh.
  - split.
    { intros url c. split.
      - intros [= Hu <-].
        destruct (proj1 (Hurl _ url) (conj Ep Hu)) as [H1 H2].
        repeat split; assumption.
      - intros (_ & _ & H1 & H2 & _ & ->).
        destruct (proj2 (Hurl _ url) (conj H1 H2)) as [_ H].
        rewrite H. reflexivity. }
    split; [intros url c; split;
            [discriminate | intros (_ & _ & _ & _ & H & _); discriminate H]|].
    split; [exact Hyes|]. split; [exact Hno|].
    intros url [= _ H]. exact (Hnf eq_refl H).
  - split; [intros url c; split;
            [discriminate | intros (_ & _ & _ & _ & H & _); discriminate H]|].
    split.
    { intros url c. split.
      - intros [= Hu <-].
        destruct (proj1 (Hurl _ url) (conj Ep Hu)) as [H1 H2].
        repeat split; assumption.
      - intros (_ & _ & H1 & H2 & _ & ->).
        destruct (proj2 (Hurl _ url) (conj H1 H2)) as [_ H].
        rewrite H. reflexivity. }
    split; [exact Hyes|]. split; [exact Hno|]. discriminate.
Qed.

(** Clicking a word seeks to its start: with the player attached and the
    media element mounted, the click assigns exactly the word's start to
    the element's [currentTime] and makes it the page's current time. The
    word then highlighted is the first one whose interval holds that
    time: the clicked word or an earlier one, never a later one, and the
    clicked one exactly when no earlier interval reaches its start. *)
Theorem click_seeks_to_word_start :
  forall (video : Video) (st : Page.PageState) (dom : Page.Dom)
         (child : State) (ws : list Word) (i : nat) (w : Word),
    transcript_data_full video = Arr (map js_of_word ws) ->
    nth_error ws i = Some w ->
    PrimFloat.is_finite (start w) = true ->
    PrimFloat.leb (start w) (end_ w) = true ->
    Page.player_attached dom = true ->
    Page.element_mounted dom = true ->
    exists (dom' : Page.Dom) (st' : Page.PageState) (r : Z),
      bind (handleWordClick (Page.child_props X video st) child (js_of_word w))
           (fun seek => seek dom st)
      = Ok (dom', st')
      /\ Page.currentTime st' = start w
      /\ Page.assignments dom' = (Page.assignments dom ++ [start w])%list
      /\ locateCurrentWord X true (words (transcript_data_full video))
           (Page.currentTime st') = Ok r
      /\ 0 <= r <= Z.of_nat i
      /\ (r = Z.of_nat i <->
          forall (j : nat) (w' : Word),
            (j < i)%nat -> nth_error ws j = Some w' ->
            within (start w) w' = false).
Proof.
  intros video st dom child ws i w Hd Hi Hfin Hle Hp He.
  assert (Hin : within (start w) w = true).
  { unfold within. rewrite (leb_self _ _ Hle), Hle. reflexivity. }
  assert (Hws : words (transcript_data_full video) = map js_of_word ws).
  { rewrite Hd. destruct ws as [|a ws]; [destruct i; discriminate|].
    reflexivity. }
  exists {| Page.player_attached := Page.player_attached dom;
            Page.element_mounted := Page.element_mounted dom;
            Page.assignments := Page.assignments dom ++ [start w] |},
         (Page.setCurrentTime (start w) st).
  assert (Hclick :
    bind (handleWordClick (Page.child_props X video st) child (js_of_word w))
         (fun seek => seek dom st)
    = Ok ({| Page.player_attached := Page.player_attached dom;
             Page.element_mounted := Page.element_mounted dom;
             Page.assignments := Page.assignments dom ++ [start w] |},
          Page.setCurrentTime (start w) st)).
  { unfold handleWordClick. simpl.
    unfold Page.handleWordClick, Page.seekTo. rewrite Hp, He, Hfin.
    reflexivity. }
  rewrite Hclick, Hws. simpl Page.currentTime. simpl Page.assignments.
  rewrite TranscriptFacts.locateCurrentWord_unfold. simpl negb. simpl orb.
  replace (Z.of_nat (List.length (map js_of_word ws)) =? 0) with false
    by (symmetry; apply Z.eqb_neq; destruct ws;
        [destruct i; discriminate | simpl List.length; lia]).
  unfold findIndex.
  destruct (TranscriptFacts.findIndex_from_words X (start w) ws 0)
    as [[Hr Hall] | (k & w0 & Hr & Hn & Hw & Hbefore)].
  - apply nth_error_In in Hi. rewrite (Hall w Hi) in Hin. discriminate.
  - exists (0 + Z.of_nat k). rewrite Hr.
    assert (Hki : (k <= i)%nat).
    { destruct (Nat.le_gt_cases k i) as [H|H]; [exact H|].
      rewrite (Hbefore i w H Hi) in Hin. discriminate. }
    repeat split; try reflexivity; try lia.
    + intros Hk j w' Hj Hw'. apply (Hbefore j w'); [lia | exact Hw'].
    + intros Hnone. destruct (Nat.eq_dec k i) as [->|Hne]; [lia|].
      assert (Hlt : (k < i)%nat) by lia.
      rewrite (Hnone k w0 Hlt Hn) in Hw. discriminate.
Qed.

End PageFacts.

(** Clicking "food", whose start is the end of "cuban": the seek goes to
    1.8 and the word highlighted is "cuban". *)
Lemma click_seeks_to_word_start_witness :
  exists (dom' : Page.Dom) (st' : Page.PageState) (r : Z),
    bind (handleWordClick
            (Page.child_props (fun _ => nan) Demo2.video Demo2.page)
            Demo2.child (js_of_word Demo2.food))
         (fun seek => seek Demo2.dom Demo2.page)
    = Ok (dom', st')
    /\ Page.currentTime st' = start Demo2.food
    /\ Page.assignments dom'
       = (Page.assignments Demo2.dom ++ [start Demo2.food])%list
    /\ locateCurrentWord (fun _ => nan) true
         (words (transcript_data_full Demo2.video))
         (Page.currentTime st') = Ok r
    /\ 0 <= r <= Z.of_nat 1
    /\ (r = Z.of_nat 1 <->
        forall (j : nat) (w' : Word),
          (j < 1)%nat -> nth_error [Demo2.cuban; Demo2.food] j = Some w' ->
          within (start Demo2.food) w' = false).
Proof.
  apply (click_seeks_to_word_start (fun _ => nan) Demo2.video Demo2.page
           Demo2.dom Demo2.child [Demo2.cuban; Demo2.food] 1%nat Demo2.food);
    reflexivity.
Defined.

Example click_on_food_highlights_cuban :
  locateCurrentWord (fun _ => nan) true
    (words (transcript_data_full Demo2.video)) (start Demo2.food) = Ok 0.
Proof. reflexivity. Qed.

Lemma get_returns (v : value) (k : string) :
  v <> Undefined -> v <> Null -> exists x, get v k = Ok x.
Proof.
  destruct v; simpl; intros; try congruence; eauto.
  destruct (lookup k props); eauto.
Qed.

Lemma first_returns (v : value) :
  v <> Undefined -> v <> Null -> exists x, first v = Ok x.
Proof.
  destruct v; simpl; intros; try congruence; eauto.
  - destruct s; eauto.
  - destruct elems; eauto.
  - destruct (lookup "0" props); eauto.
Qed.

Lemma get_opt_returns (v : value) (k : string) :
  exists x, get_opt v k = Ok x.
Proof.
  unfold get_opt, Webhook.optional.
  destruct v; eauto; apply get_returns; discriminate.
Qed.

Lemma first_opt_returns (v : value) : exists x, first_opt v = Ok x.
Proof.
  unfold first_opt, Webhook.optional.
  destruct v; eauto; apply first_returns; discriminate.
Qed.

(** The optional chain never throws. *)
Lemma transcript_of_results_returns (results : value) :
  exists t, transcript_of_results results = Ok t.
Proof.
  unfold transcript_of_results.
  destruct (get_opt_returns results "channels") as [a ->]. simpl.
  destruct (first_opt_returns a) as [b ->]. simpl.
  destruct (get_opt_returns b "alternatives") as [c ->]. simpl.
  destruct (first_opt_returns c) as [d ->]. simpl.
  apply get_opt_returns.
Qed.

Lemma get_opt_strict (v : value) (k : string) (x : value) :
  get_opt v k = Ok x -> x <> Undefined -> get v k = Ok x.
Proof.
  unfold get_opt, Webhook.optional.
  destruct v; auto; intros [= <-]; congruence.
Qed.

Lemma first_opt_strict (v x : value) :
  first_opt v = Ok x -> x <> Undefined -> first v = Ok x.
Proof.
  unfold first_opt, Webhook.optional.
  destruct v; auto; intros [= <-]; congruence.
Qed.

Lemma get_opt_undefined (k : string) : get_opt Undefined k = Ok Undefined.
Proof. reflexivity. Qed.

Lemma first_opt_undefined : first_opt Undefined = Ok Undefined.
Proof. reflexivity. Qed.

(** When the optional chain ends in something that is not undefined,
    every link was there, and the plain chain reads the same value. *)
Lemma transcript_of_results_strict (td results t : value) :
  get td "results" = Ok results ->
  transcript_of_results results = Ok t ->
  t <> Undefined ->
  bind (Webhook.alternative0 td) (fun a => get a "transcript") = Ok t.
Proof.
  intros Hres H Ht. unfold Webhook.alternative0. rewrite Hres. simpl.
  unfold transcript_of_results in H.
  destruct (get_opt_returns results "channels") as [a Ha].
  rewrite Ha in H. simpl in H.
  destruct (first_opt_returns a) as [b Hb]. rewrite Hb in H. simpl in H.
  destruct (get_opt_returns b "alternatives") as [c Hc].
  rewrite Hc in H. simpl in H.
  destruct (first_opt_returns c) as [d Hd]. rewrite Hd in H. simpl in H.
  assert (Nd : d <> Undefined) by (intros ->; rewrite get_opt_undefined in H;
                                   congruence).
  assert (Nc : c <> Undefined) by (intros ->; rewrite first_opt_undefined in Hd;
                                   congruence).
  assert (Nb : b <> Undefined) by (intros ->; rewrite get_opt_undefined in Hc;
                                   congruence).
  assert (Na : a <> Undefined) by (intros ->; rewrite first_opt_undefined in Hb;
                                   congruence).
  rewrite (get_opt_strict _ _ _ Ha Na). simpl.
  rewrite (first_opt_strict _ _ Hb Nb). simpl.
  rewrite (get_opt_strict _ _ _ Hc Nc). simpl.
  rewrite (first_opt_strict _ _ Hd Nd). simpl.
  apply get_opt_strict; assumption.
Qed.

Lemma truthy_defined (v : value) : truthy v = true -> v <> Undefined.
Proof. intros H ->. discriminate. Qed.

(** What [getTranscriptText] returns, case by case; the text of its
    [catch] is never among them unless it is the stored value itself. *)
Lemma getTranscriptText_cases (td : value) :
  (truthy td = false /\ getTranscriptText td = Shown (Str ""))
  \/ (truthy td = true
      /\ exists results deepgram,
           get td "results" = Ok results
           /\ transcript_of_results results = Ok deepgram
           /\ ((truthy deepgram = true
                /\ getTranscriptText td = Shown deepgram)
               \/ (truthy deepgram = false /\ is_string td = true
                   /\ getTranscriptText td = Shown td)
               \/ (truthy deepgram = false /\ is_string td = false
                   /\ exists t, get td "transcript" = Ok t
                      /\ getTranscriptText td
                         = if truthy t then Shown t else Stringified td))).
Proof.
  unfold getTranscriptText.
  destruct (truthy td) eqn:Ht; [right | left; split; reflexivity].
  split; [reflexivity|].
  assert (Nu : td <> Undefined) by (intros ->; discriminate).
  assert (Nn : td <> Null) by (intros ->; discriminate).
  destruct (get_returns td "results" Nu Nn) as [results Hres].
  destruct (transcript_of_results_returns results) as [deepgram Hd].
  exists results, deepgram. rewrite Hres. simpl. rewrite Hd. simpl.
  repeat split.
  destruct (truthy deepgram) eqn:Hdt.
  - left. split; [reflexivity|].
    pose proof (transcript_of_results_strict td results deepgram Hres Hd
                  (truthy_defined _ Hdt)) as Hs.
    unfold bind in Hs.
    destruct (Webhook.alternative0 td) as [a|e]; [|discriminate].
    simpl. rewrite Hs. reflexivity.
  - right. destruct (is_string td) eqn:Hstr.
    + left. repeat split.
    + right. repeat split.
      destruct (get_returns td "transcript" Nu Nn) as [t Htr].
      exists t. rewrite Htr. simpl. split; [reflexivity|].
      destruct (truthy t); reflexivity.
Qed.

(** The transcript manager shows what the webhook stored: for a callback
    body of the documented shape with a transcript that is not empty,
    [getTranscriptText] of the body is that transcript. *)
Theorem getTranscriptText_reads_callback :
  forall (data : value) (rid text : string) (ws : list value),
    documented data rid text ws ->
    text <> "" ->
    getTranscriptText data = Shown (Str text).
Proof.
  intros data rid text ws Hdoc Htext.
  destruct Hdoc as (md & res & ch & chs & alt & alts & Hmd & Hrid & Hres & Hch
                    & Halt & Htr & Hws).
  assert (Hchain : transcript_of_results res = Ok (Str text)).
  { unfold transcript_of_results, get_opt, first_opt, Webhook.optional.
    destruct Hch as (p1 & -> & L1). simpl. rewrite L1. simpl.
    destruct Halt as (p2 & -> & L2). simpl. rewrite L2. simpl.
    destruct Htr as (p3 & -> & L3). simpl. rewrite L3. reflexivity. }
  assert (Ht : truthy (Str text) = true)
    by (destruct text; [congruence | reflexivity]).
  destruct (getTranscriptText_cases data)
    as [[Hf _] | (_ & results & deepgram & Hr & Hd & Hcases)].
  { destruct Hmd as (p & -> & _). discriminate. }
  rewrite (ServerFacts.get_has _ _ _ Hres) in Hr. injection Hr as <-.
  rewrite Hchain in Hd. injection Hd as <-.
  destruct Hcases as [[_ H] | [[H _] | [H _]]]; [exact H | | ]; congruence.
Qed.

Lemma getTranscriptText_reads_callback_witness :
  getTranscriptText (Demo.payload "abc") = Shown (Str "cuban").
Proof.
  apply (getTranscriptText_reads_callback (Demo.payload "abc") "abc" "cuban"
           [Demo.cuban]).
  - unfold documented, has, Demo.payload.
    do 6 eexists. repeat split; eexists; split; reflexivity.
  - discriminate.
Defined.

(** The page's plain card and the transcript manager turn a stored
    transcript into text in the same way, with two exceptions. A value
    that is not a string, has no Deepgram transcript and has a non-empty
    [transcript] property of its own is shown as that property by the
    manager and as JSON by the card. A Deepgram transcript that React
    does not accept as a child (an object, or an array that holds one)
    makes the card throw where the manager returns it; the card throws in
    no other case. The card shows its "no transcript" hint exactly when
    the manager shows the empty text for a missing value. *)
Theorem card_and_manager_texts :
  forall video : Video,
    (truthy (transcript_text video) = false ->
     Page.transcript_card video
     = Ok (Page.NoTranscript (Page.status_hint (status video)))
     /\ getTranscriptText (transcript_text video) = Shown (Str ""))
    /\ (truthy (transcript_text video) = true ->
        Page.transcript_card video
        = Ok (Page.TranscriptText (getTranscriptText (transcript_text video)))
        \/ (is_string (transcript_text video) = false
            /\ exists t,
                 get (transcript_text video) "transcript" = Ok t
                 /\ truthy t = true
                 /\ getTranscriptText (transcript_text video) = Shown t
                 /\ Page.transcript_card video
                    = Ok (Page.TranscriptText
                            (Stringified (transcript_text video))))
        \/ (is_string (transcript_text video) = false
            /\ exists d,
                 getTranscriptText (transcript_text video) = Shown d
                 /\ truthy d = true
                 /\ valid_child d = false
                 /\ Page.transcript_card video = Throw InvalidChild))
    /\ (forall e, Page.transcript_card video = Throw e ->
        e = InvalidChild
        /\ exists d,
             getTranscriptText (transcript_text video) = Shown d
             /\ valid_child d = false)
    /\ (forall s, transcript_text video = Str s -> s <> "" ->
        Page.transcript_card video
        = Ok (Page.TranscriptText (Shown (Str s)))).
Proof.
  intros video.
  assert (Hmain :
    (truthy (transcript_text video) = false ->
     Page.transcript_card video
     = Ok (Page.NoTranscript (Page.status_hint (status video)))
     /\ getTranscriptText (transcript_text video) = Shown (Str ""))
    /\ (truthy (transcript_text video) = true ->
        Page.transcript_card video
        = Ok (Page.TranscriptText (getTranscriptText (transcript_text video)))
        \/ (is_string (transcript_text video) = false
            /\ exists t,
                 get (transcript_text video) "transcript" = Ok t
                 /\ truthy t = true
                 /\ getTranscriptText (transcript_text video) = Shown t
                 /\ Page.transcript_card video
                    = Ok (Page.TranscriptText
                            (Stringified (transcript_text video))))
        \/ (is_string (transcript_text video) = false
            /\ exists d,
                 getTranscriptText (transcript_text video) = Shown d
                 /\ truthy d = true
                 /\ valid_child d = false
                 /\ Page.transcript_card video = Throw InvalidChild))).
  { unfold Page.transcript_card.
    destruct (getTranscriptText_cases (transcript_text video))
      as [[Hf Hg] | (Ht & results & deepgram & Hr & Hd & Hcases)].
    - rewrite Hf. split; [intros _; split; [reflexivity | exact Hg]|].
      discriminate.
    - rewrite Ht. split; [discriminate|]. intros _.
      assert (Hopt : get_opt (transcript_text video) "results" = Ok results).
      { unfold get_opt, Webhook.optional.
        destruct (transcript_text video); try discriminate; exact Hr. }
      destruct (is_string (transcript_text video)) eqn:Hs.
      + left. destruct (transcript_text video) as [| |b|n|s|e|p] eqn:Ev;
          try discriminate.
        f_equal. f_equal. simpl in Hr. injection Hr as <-.
        destruct Hcases as [[Hdt _] | [[_ [_ H]] | [_ [H _]]]];
          [ | now rewrite H | discriminate].
        simpl in Hd. injection Hd as <-. discriminate.
      + rewrite Hopt. simpl. rewrite Hd. simpl.
        destruct Hcases as [[Hdt H] | [[_ [H _]] | [Hdf [_ (t & Htr & H)]]]];
          [ | congruence | ].
        * rewrite Hdt. unfold react_child.
          destruct (valid_child deepgram) eqn:Hv; simpl.
          -- left. rewrite H. reflexivity.
          -- right. right. split; [reflexivity|]. exists deepgram. auto.
        * rewrite Hdf. destruct (truthy t) eqn:Htt.
          -- right. left. split; [reflexivity|]. exists t. auto.
          -- left. rewrite H. reflexivity. }
  destruct Hmain as [Hfalsy Htruthy].
  split; [exact Hfalsy|]. split; [exact Htruthy|]. split.
  - intros e He. destruct (truthy (transcript_text video)) eqn:Ht.
    + destruct (Htruthy eq_refl)
        as [H | [(_ & t & _ & _ & _ & H) | (_ & d & Hg & _ & Hv & H)]];
        try (rewrite H in He; discriminate He).
      rewrite H in He. injection He as <-.
      split; [reflexivity|]. exists d. auto.
    + destruct (Hfalsy eq_refl) as [H _]. rewrite H in He. discriminate He.
  - intros s Hs Hne. unfold Page.transcript_card. rewrite Hs.
    destruct s; [exfalso; apply Hne; reflexivity | reflexivity].
Qed.

(** An object where text is expected: React refuses it, in the card as in
    the component, where the transcript manager hands it on; a word that
    is null fails earlier, in the component function. *)
Example react_refuses_objects :
  let odd := Obj [("a", Num 1)] in
  let stored :=
    Obj [("results",
          Obj [("channels",
                Arr [Obj [("alternatives",
                           Arr [Obj [("transcript", odd)]])]])])] in
  let video :=
    {| id := id Demo.video1; project_id := project_id Demo.video1;
       storage_path := storage_path Demo.video1; status := transcribed;
       transcript_text := stored; transcript_data_full := Null;
       created_at := created_at Demo.video1;
       deepgram_request_id := None |} in
  let props (data : value) :=
    {| transcriptData := data; currentTime := 0%float;
       onWordClick := fun _ : value => tt; highlightCurrentWord := true |} in
  let st := {| showConfidence := false; currentWordIndex := -1 |} in
  Page.transcript_card video = Throw InvalidChild
  /\ getTranscriptText stored = Shown odd
  /\ InteractiveTranscript (fun _ => nan)
       (props (Arr [Obj [("word", odd)]])) st
     = Throw InvalidChild
  /\ InteractiveTranscript (fun _ => nan)
       (props (Arr [Obj [("word", odd)]; Null])) st
     = Throw TypeError.
Proof. repeat split; reflexivity. Qed.

(** Running on after a logged call keeps the call in the trace. *)
Lemma trace_after_createClient (w : world) :
  exists f,
    Supabase.createClient w
    = (f, with_trace w (trace w ++ [CreateClient])).
Proof.
  unfold Supabase.createClient, mbind, remote, ret, throw. simpl.
  destruct (plan w (List.length (trace w))); eauto.
Qed.

(** The file chooser and the server action accept the same files. A file
    within 100 MB and of an allowed type is selected by the form, with the
    storage path videos/<project>/<time>_<name>, and passes the checks of
    [uploadVideoFile], which goes on to create its client; any other file
    is refused by the form, which keeps its earlier selection and path,
    with the very message [uploadVideoFile] answers for that file. *)
Theorem file_chooser_matches_server :
  forall (projectId now : string) (f : File) (st : UploadForm.FormState)
         (w : world),
    projectId <> "" ->
    (size f <= 104857600
     /\ In (type f)
          ["video/mp4"; "video/mov"; "video/avi"; "video/webm";
           "video/quicktime"]
     /\ UploadForm.selectedFile
          (UploadForm.handleFileSelect projectId now (Some f) st) = Some f
     /\ UploadForm.storage_path
          (UploadForm.handleFileSelect projectId now (Some f) st)
        = ("videos/" ++ projectId ++ "/" ++ now ++ "_" ++ name f)%string
     /\ UploadForm.error_of "file"
          (UploadForm.errors
             (UploadForm.handleFileSelect projectId now (Some f) st)) = None
     /\ exists calls,
          trace (snd (Videos.uploadVideoFile
                        [("file", Videos.EFile f);
                         ("projectId", Videos.EString projectId)] w))
          = (trace w ++ CreateClient :: calls)%list)
    \/ (exists msg : string,
          (size f > 104857600
           \/ ~ In (type f)
                  ["video/mp4"; "video/mov"; "video/avi"; "video/webm";
                   "video/quicktime"])
          /\ UploadForm.errors
               (UploadForm.handleFileSelect projectId now (Some f) st)
             = [("file", msg)]
          /\ UploadForm.selectedFile
               (UploadForm.handleFileSelect projectId now (Some f) st)
             = UploadForm.selectedFile st
          /\ UploadForm.storage_path
               (UploadForm.handleFileSelect projectId now (Some f) st)
             = UploadForm.storage_path st
          /\ Videos.uploadVideoFile
               [("file", Videos.EFile f);
                ("projectId", Videos.EString projectId)] w
             = (Ok (Videos.fail (Videos.Message msg)), w)).
Proof.
  intros projectId now f st w Hp.
  unfold UploadForm.handleFileSelect, Videos.uploadVideoFile.
  rewrite ActionFacts.try_catch_world. unfold try_catch. cbv zeta.
  change (Videos.formData_get "file"
            [("file", Videos.EFile f); ("projectId", Videos.EString projectId)])
    with (Some (Videos.EFile f)).
  change (Videos.formData_get "projectId"
            [("file", Videos.EFile f); ("projectId", Videos.EString projectId)])
    with (Some (Videos.EString projectId)).
  change (Videos.missing (Some (Videos.EFile f))) with false.
  assert (Hm : Videos.missing (Some (Videos.EString projectId)) = false)
    by (destruct projectId; [congruence | reflexivity]).
  rewrite Hm. cbv iota.
  change (Videos.size_exceeds (Some (Videos.EFile f)) Videos.maxSize)
    with (size f >? 100 * 1024 * 1024).
  change (Videos.type_allowed Videos.allowedTypes (Some (Videos.EFile f)))
    with (existsb (String.eqb (type f))
            ["video/mp4"; "video/mov"; "video/avi"; "video/webm";
             "video/quicktime"]).
  destruct (size f >? 100 * 1024 * 1024) eqn:Esz.
  { right. exists "File size must be less than 100MB".
    apply Z.gtb_lt in Esz. repeat split; auto. left. lia. }
  assert (Hle : size f <= 104857600).
  { destruct (Z.gtb_spec (size f) (100 * 1024 * 1024)); [discriminate | lia]. }
  destruct (existsb (String.eqb (type f))
              ["video/mp4"; "video/mov"; "video/avi"; "video/webm";
               "video/quicktime"]) eqn:Ety;
    change (negb true) with false; change (negb false) with true;
    cbv iota.
  - left.
    assert (Hin : In (type f)
                    ["video/mp4"; "video/mov"; "video/avi"; "video/webm";
                     "video/quicktime"]).
    { apply existsb_exists in Ety as (x & Hx & E).
      apply String.eqb_eq in E. now subst. }
    repeat split; auto.
    + simpl. destruct (UploadForm.has_error "storage_path"
                         (UploadForm.errors st)); reflexivity.
    + unfold mbind at 1.
      destruct (trace_after_createClient w) as [fr ->].
      destruct fr as [[]|e].
      2:{ exists []. reflexivity. }
      unfold mbind, Supabase.auth_getUser, Supabase.projects_select_owned,
        Supabase.storage_upload, Supabase.storage_getPublicUrl, mbind,
        remote, read, ret, throw.
      simpl. ServerFacts.norm_trace.
      destruct (plan w (S (List.length (trace w)))); simpl;
        try (eexists; reflexivity);
        destruct (session w); simpl; ServerFacts.norm_trace;
        try (eexists; reflexivity);
        destruct (plan w (S (S (List.length (trace w))))); simpl;
        try (eexists; reflexivity);
        match goal with
        | |- context [Supabase.single ?l] => destruct (Supabase.single l)
        end; simpl; ServerFacts.norm_trace;
        try (eexists; reflexivity);
        destruct (plan w (S (S (S (List.length (trace w)))))); simpl;
        try (eexists; reflexivity);
        match goal with
        | |- context [Supabase.has_object ?p ?b] =>
            destruct (Supabase.has_object p b)
        end; simpl; eexists; reflexivity.
  - right.
    exists "File type not supported. Please use MP4, MOV, AVI, or WebM".
    repeat split; auto. right. intros Hin.
    assert (existsb (String.eqb (type f))
              ["video/mp4"; "video/mov"; "video/avi"; "video/webm";
               "video/quicktime"] = true)
      by (apply existsb_exists; exists (type f); split;
          [exact Hin | apply String.eqb_refl]).
    congruence.
Qed.

Lemma file_chooser_matches_server_witness :
  UploadForm.selectedFile
    (UploadForm.handleFileSelect "p1" "1759312800000" (Some Demo.clip)
       {| UploadForm.storage_path := ""; UploadForm.selectedFile := None;
          UploadForm.errors := [] |})
  = Some Demo.clip
  /\ UploadForm.storage_path
       (UploadForm.handleFileSelect "p1" "1759312800000" (Some Demo.clip)
          {| UploadForm.storage_path := ""; UploadForm.selectedFile := None;
             UploadForm.errors := [] |})
     = "videos/p1/1759312800000_clip.mp4".
Proof.
  destruct (file_chooser_matches_server "p1" "1759312800000" Demo.clip
              {| UploadForm.storage_path := ""; UploadForm.selectedFile := None;
                 UploadForm.errors := [] |}
              (Demo.world_of (fun _ => NoFault)))
    as [(_ & _ & Hsel & Hpath & _) | (msg & _ & Herr & _)].
  - discriminate.
  - split; [exact Hsel | exact Hpath].
  - discriminate Herr.
Defined.

Section RenderFacts.

Variable X : value -> float.

Lemma render_word_typed (highlight : bool) (st : State) (index : Z)
    (w : Word) :
  render_word X highlight st index (js_of_word w)
  = Ok (Rendering.span_of highlight st index w).
Proof.
  unfold render_word, Rendering.span_of, Rendering.display_of, js_of_word.
  destruct (punctuated_word w) as [[|c s]|]; reflexivity.
Qed.

Lemma render_words_typed (highlight : bool) (st : State) :
  forall (ws : list Word) (index : Z),
  exists spans,
    render_words X highlight st (map js_of_word ws) index = Ok spans
    /\ List.length spans = List.length ws
    /\ forall (j : nat) (w : Word),
         nth_error ws j = Some w ->
         nth_error spans j
         = Some (Rendering.span_of highlight st (index + Z.of_nat j) w).
Proof.
  induction ws as [|a ws IH]; intros index; simpl.
  - exists []. repeat split. intros [|j] w H; discriminate H.
  - rewrite render_word_typed. simpl.
    destruct (IH (index + 1)) as (spans & -> & Hlen & Hnth). simpl.
    eexists. split; [reflexivity|]. split; [simpl; now rewrite Hlen|].
    intros [|j] w H; simpl in *.
    + injection H as <-. f_equal. f_equal. lia.
    + rewrite (Hnth j w H). f_equal. f_equal. lia.
Qed.

(** On well-formed words the component never throws: it renders one span
    per word, in order, numbered from 0, each with the word's display
    text; a span is marked current exactly when highlighting is on and
    its number is [currentWordIndex], so at most one span is marked. *)
Theorem transcript_view_of_words :
  forall (T : Type) (props : Props T) (st : State) (a : Word)
         (ws : list Word),
    transcriptData props = Arr (map js_of_word (a :: ws)) ->
    exists spans : list span,
      InteractiveTranscript X props st
      = Ok (TranscriptView (Z.of_nat (List.length (a :: ws))) spans)
      /\ List.length spans = List.length (a :: ws)
      /\ (forall (j : nat) (w : Word),
            nth_error (a :: ws) j = Some w ->
            nth_error spans j
            = Some (Rendering.span_of (highlightCurrentWord props) st
                      (Z.of_nat j) w))
      /\ (forall (j k : nat) (s1 s2 : span),
            nth_error spans j = Some s1 -> nth_error spans k = Some s2 ->
            isCurrentWord s1 = true -> isCurrentWord s2 = true -> j = k).
Proof.
  intros T props st a ws Hd. unfold InteractiveTranscript. rewrite Hd.
  destruct (render_words_typed (highlightCurrentWord props) st (a :: ws) 0)
    as (spans & Hr & Hlen & Hnth).
  exists spans.
  assert (Hw : words (Arr (map js_of_word (a :: ws)))
               = map js_of_word (a :: ws)) by reflexivity.
  rewrite Hw, Hr.
  replace (Z.of_nat (List.length (map js_of_word (a :: ws))) =? 0) with false
    by (symmetry; apply Z.eqb_neq; simpl List.length; lia).
  rewrite length_map. simpl bind.
  assert (Hvalid : forallb (fun s => valid_child (displayWord s)) spans
                   = true).
  { apply forallb_forall. intros s Hs.
    apply In_nth_error in Hs. destruct Hs as [j Hj].
    destruct (nth_error (a :: ws) j) as [wj|] eqn:Ej.
    - rewrite (Hnth j wj Ej) in Hj. injection Hj as <-. reflexivity.
    - apply nth_error_None in Ej.
      assert (nth_error spans j <> None) by congruence.
      apply nth_error_Some in H. lia. }
  rewrite Hvalid.
  split; [reflexivity|]. split; [exact Hlen|]. split.
  - intros j w H. rewrite (Hnth j w H). reflexivity.
  - intros j k s1 s2 H1 H2 C1 C2.
    assert (Hj : (j < List.length (a :: ws))%nat)
      by (rewrite <- Hlen; apply nth_error_Some; congruence).
    assert (Hk : (k < List.length (a :: ws))%nat)
      by (rewrite <- Hlen; apply nth_error_Some; congruence).
    destruct (nth_error (a :: ws) j) as [wj|] eqn:Ej;
      [|apply nth_error_None in Ej; lia].
    destruct (nth_error (a :: ws) k) as [wk|] eqn:Ek;
      [|apply nth_error_None in Ek; lia].
    rewrite (Hnth j wj Ej) in H1. rewrite (Hnth k wk Ek) in H2.
    injection H1 as <-. injection H2 as <-.
    unfold Rendering.span_of in C1, C2. simpl in C1, C2.
    apply andb_true_iff in C1 as [_ C1]. apply andb_true_iff in C2 as [_ C2].
    apply Z.eqb_eq in C1, C2. lia.
Qed.

End RenderFacts.

Lemma transcript_view_of_words_witness :
  exists spans : list span,
    InteractiveTranscript (fun _ => nan)
      (Page.child_props (fun _ => nan) Demo2.video Demo2.page) Demo2.child
    = Ok (TranscriptView 2 spans)
    /\ List.length spans = 2%nat
    /\ (forall (j : nat) (w : Word),
          nth_error [Demo2.cuban; Demo2.food] j = Some w ->
          nth_error spans j
          = Some (Rendering.span_of true Demo2.child (Z.of_nat j) w))
    /\ (forall (j k : nat) (s1 s2 : span),
          nth_error spans j = Some s1 -> nth_error spans k = Some s2 ->
          isCurrentWord s1 = true -> isCurrentWord s2 = true -> j = k).
Proof.
  apply (transcript_view_of_words (fun _ => nan) _
           (Page.child_props (fun _ => nan) Demo2.video Demo2.page)
           Demo2.child Demo2.cuban [Demo2.food]).
  reflexivity.
Defined.

End ClientFacts.

(* ===================================================================== *)
(** ** How the actions compose *)
(* ===================================================================== *)

Module ComposeFacts.
Import JS Store Supabase Videos VideoReads Outcome.

Ltac refused :=
  let H := fresh in
  intros H; unfold ret, fail, succeed in H; simpl in H;
  first [ discriminate H | congruence | inversion H ].

Lemma filter_absent (path : string) (b : list (string * File)) :
  has_object path b = false ->
  filter (fun o => negb (String.eqb (fst o) path)) b = b.
Proof.
  unfold has_object. induction b as [|o b IH]; simpl; [reflexivity|].
  intros H. apply orb_false_iff in H as [Ho Hb]. rewrite Ho. simpl.
  now rewrite (IH Hb).
Qed.

Lemma filter_added (path : string) (f : File) (b : list (string * File)) :
  has_object path b = false ->
  filter (fun o => negb (String.eqb (fst o) path)) (b ++ [(path, f)]) = b.
Proof.
  intros H. rewrite filter_app, (filter_absent _ _ H). simpl.
  rewrite String.eqb_refl. simpl. apply app_nil_r.
Qed.

(** Upload, URL and removal fit together. After a successful upload in a
    world without faults, [getVideoPublicUrl] of the stored path returns
    the URL the upload returned, and [deleteVideoFile] of that path
    brings the bucket back to what it was before the upload. *)
Theorem upload_url_delete_round_trip :
  forall (formData : FormData) (w w1 : world) (d : uploaded_file),
    (forall n, plan w n = NoFault) ->
    uploadVideoFile formData w = (Ok (succeed (Some d)), w1) ->
    fst (getVideoPublicUrl (storagePath d) w1)
    = Ok (succeed (Some {| publicUrl := Videos.publicUrl d |}))
    /\ bucket w1 <> bucket w
    /\ bucket (snd (deleteVideoFile (storagePath d) w1)) = bucket w.
Proof.
  intros formData w w1 d Hall.
  unfold uploadVideoFile, try_catch.
  destruct (formData_get "file" formData) as [[s|f]|] eqn:Ef;
    [ destruct s; simpl; destruct (missing (formData_get "projectId" formData));
      refused
    | | refused ].
  simpl missing. cbv iota.
  destruct (missing (formData_get "projectId" formData)); [refused|].
  destruct (size_exceeds (Some (EFile f)) maxSize); [refused|].
  destruct (type_allowed allowedTypes (Some (EFile f))); [|refused].
  simpl negb. cbv iota.
  unfold mbind, createClient, auth_getUser, projects_select_owned,
    storage_upload, storage_getPublicUrl, mbind, remote, read, ret, throw.
  destruct (session w) as [user|] eqn:Es.
  2:{ repeat (progress (simpl; rewrite ?Hall, ?Es)). refused. }
  repeat (progress (simpl; rewrite ?Hall, ?Es)).
  match goal with
  | |- context [single ?l] => destruct (single l) as [p|]
  end; [|refused].
  repeat (progress (simpl; rewrite ?Hall, ?Es)).
  match goal with
  | |- context [has_object ?path ?b] =>
      destruct (has_object path b) eqn:Eobj
  end; [refused|].
  simpl.
  intros [= <- <-]. simpl storagePath. simpl Videos.publicUrl.
  split; [|split].
  - unfold getVideoPublicUrl, try_catch, mbind, createClient, auth_getUser,
      storage_getPublicUrl, mbind, remote, read, ret, throw.
    repeat (progress (simpl; rewrite ?Hall, ?Es)). reflexivity.
  - simpl. intros H.
    apply (f_equal (@List.length (string * File))) in H.
    rewrite length_app in H. simpl in H. lia.
  - rewrite ServerFacts.deleteVideoFile_run.
    repeat (progress (simpl; rewrite ?Hall, ?Es)).
    apply filter_added. exact Eobj.
Qed.

Lemma upload_url_delete_round_trip_witness :
  fst (getVideoPublicUrl "videos/p1/1759312800000_k2j8x1m4q.mp4"
         (snd (uploadVideoFile
                 [("file", EFile Demo.clip); ("projectId", EString "p1")]
                 (Demo.world_of (fun _ => NoFault)))))
  = Ok (succeed (Some {| publicUrl :=
         "https://store.example/storage/v1/object/public/videos/videos/p1/1759312800000_k2j8x1m4q.mp4" |}))
  /\ bucket (snd (uploadVideoFile
                    [("file", EFile Demo.clip); ("projectId", EString "p1")]
                    (Demo.world_of (fun _ => NoFault))))
     <> bucket (Demo.world_of (fun _ => NoFault))
  /\ bucket (snd (deleteVideoFile "videos/p1/1759312800000_k2j8x1m4q.mp4"
                    (snd (uploadVideoFile
                            [("file", EFile Demo.clip);
                             ("projectId", EString "p1")]
                            (Demo.world_of (fun _ => NoFault))))))
     = bucket (Demo.world_of (fun _ => NoFault)).
Proof.
  apply (upload_url_delete_round_trip
           [("file", EFile Demo.clip); ("projectId", EString "p1")]
           (Demo.world_of (fun _ => NoFault))
           (snd (uploadVideoFile
                   [("file", EFile Demo.clip); ("projectId", EString "p1")]
                   (Demo.world_of (fun _ => NoFault))))
           {| storagePath := "videos/p1/1759312800000_k2j8x1m4q.mp4";
              Videos.publicUrl :=
                "https://store.example/storage/v1/object/public/videos/videos/p1/1759312800000_k2j8x1m4q.mp4" |}).
  - reflexivity.
  - reflexivity.
Defined.

Lemma owned_rows_deleted (w : world) (vs : list Video) (vid user : string) :
  owned_rows
    (with_videos w (filter (fun x => negb (String.eqb (id x) vid)) vs))
    vid user = [].
Proof.
  unfold owned_rows. simpl.
  induction vs as [|a vs IH]; simpl; [reflexivity|].
  destruct (String.eqb_spec (id a) vid) as [E|E]; simpl; [exact IH|].
  destruct (String.eqb_spec (id a) vid) as [E'|_]; [contradiction|].
  simpl. exact IH.
Qed.

Section DeleteThenRead.

Variable uuid : string -> bool.

(** A deleted video cannot be read back. After [deleteVideo] of a video
    its caller owns, in a world without faults, [getVideoById] of the same
    id answers "Video not found or access denied", and the bucket holds
    no object at the video's storage path. *)
Theorem deleted_video_is_gone :
  forall (w : world) (v : Video) (p : Project),
    uuid (id v) = true ->
    session w = Some (p_user_id p) ->
    NoDup (map id (videos w)) ->
    NoDup (map p_id (projects w)) ->
    In v (videos w) ->
    In p (projects w) ->
    p_id p = project_id v ->
    (forall n, plan w n = NoFault) ->
    fst (deleteVideo uuid (id v) w) = Ok (succeed None)
    /\ fst (getVideoById uuid (id v) (snd (deleteVideo uuid (id v) w)))
       = Ok (fail (Message "Video not found or access denied"))
    /\ (storage_path v <> "" ->
        forall o, In o (bucket (snd (deleteVideo uuid (id v) w))) ->
                  fst o <> storage_path v).
Proof.
  intros w v p Hu Hs Hndv Hndp Hv Hp Hfk Hall.
  pose proof (ServerFacts.owned_rows_owned w v p Hndv Hndp Hv Hp Hfk) as Hrows.
  assert (H0 : plan w (List.length (trace w)) <> Throws)
    by (rewrite Hall; discriminate).
  rewrite (ServerFacts.deleteVideo_run uuid w (id v) (p_user_id p) v
             Hu Hs Hrows H0 (Hall _) (Hall _) (Hall _)).
  simpl fst. simpl snd. split; [reflexivity|].
  unfold getVideoById, try_catch, mbind, videoIdSchema_parse, createClient,
    auth_getUser, videos_select_owned, mbind, remote, read, ret, throw.
  rewrite Hu.
  destruct (storage_path v) as [|c path] eqn:Epath.
  - repeat (progress (simpl; rewrite ?Hall, ?Hs)).
    match goal with
    | |- context [owned_rows ?w' ?a ?b] =>
        change (owned_rows w' a b)
          with (owned_rows
                  (with_videos w
                     (filter (fun x => negb (String.eqb (id x) a)) (videos w)))
                  a b)
    end.
    rewrite owned_rows_deleted. split; [reflexivity|].
    intros H. congruence.
  - rewrite ServerFacts.deleteVideoFile_run.
    repeat (progress (simpl; rewrite ?Hall, ?Hs)).
    match goal with
    | |- context [owned_rows ?w' ?a ?b] =>
        change (owned_rows w' a b)
          with (owned_rows
                  (with_videos w
                     (filter (fun x => negb (String.eqb (id x) a)) (videos w)))
                  a b)
    end.
    rewrite owned_rows_deleted. split; [reflexivity|].
    intros _ o Ho. apply filter_In in Ho as [_ Ho].
    apply negb_true_iff, String.eqb_neq in Ho. exact Ho.
Qed.

End DeleteThenRead.

Lemma deleted_video_is_gone_witness :
  fst (deleteVideo (fun s => Nat.eqb (String.length s) 36) (id Demo.video1)
         (Demo.world_of (fun _ => NoFault)))
  = Ok (succeed None)
  /\ fst (getVideoById (fun s => Nat.eqb (String.length s) 36)
            (id Demo.video1)
            (snd (deleteVideo (fun s => Nat.eqb (String.length s) 36)
                    (id Demo.video1) (Demo.world_of (fun _ => NoFault)))))
     = Ok (fail (Message "Video not found or access denied"))
  /\ (storage_path Demo.video1 <> "" ->
      forall o,
        In o (bucket (snd (deleteVideo
                             (fun s => Nat.eqb (String.length s) 36)
                             (id Demo.video1)
                             (Demo.world_of (fun _ => NoFault))))) ->
        fst o <> storage_path Demo.video1).
Proof.
  apply (deleted_video_is_gone (fun s => Nat.eqb (String.length s) 36)
           (Demo.world_of (fun _ => NoFault)) Demo.video1
           {| p_id := "p1"; p_user_id := "u1" |}).
  - reflexivity.
  - reflexivity.
  - simpl. repeat constructor; simpl; intuition discriminate.
  - simpl. repeat constructor; simpl; intuition discriminate.
  - simpl. auto.
  - simpl. auto.
  - reflexivity.
  - reflexivity.
Defined.

(** A 200 MB file: no record is created, whatever [createVideo] is. *)
Lemma createVideoWithFile_rejects_before_creating_witness :
  exists msg : string,
    createVideoWithFile (fun _ => ret (succeed (Some Demo.video1)))
      [("file", EFile {| name := "big.mp4"; size := 209715200;
                         type := "video/mp4" |});
       ("projectId", EString "p1")]
      (Demo.world_of (fun _ => NoFault))
    = (Ok (fail (Message msg)), Demo.world_of (fun _ => NoFault))
    /\ msg = "File size must be less than 100MB".
Proof.
  destruct (ActionFacts.createVideoWithFile_rejects_before_creating
              (fun _ => ret (succeed (Some Demo.video1)))
              [("file", EFile {| name := "big.mp4"; size := 209715200;
                                 type := "video/mp4" |});
               ("projectId", EString "p1")]
              (Demo.world_of (fun _ => NoFault))
              {| name := "big.mp4"; size := 209715200; type := "video/mp4" |})
    as (msg & Hrun & _ & Hsize & _).
  - reflexivity.
  - reflexivity.
  - left. reflexivity.
  - exists msg. split; [exact Hrun|]. apply Hsize.
    + discriminate.
    + reflexivity.
Defined.

(** The demo clip sent without a project id. *)
Lemma createVideoWithFile_absent_project_witness :
  createVideoWithFile (fun _ => ret (succeed (Some Demo.video1)))
    [("file", EFile Demo.clip)] (Demo.world_of (fun _ => NoFault))
  = (Ok (fail (Message "Project not found or access denied")),
     with_trace (Demo.world_of (fun _ => NoFault))
       (trace (Demo.world_of (fun _ => NoFault))
        ++ [CreateClient; AuthGetUser; ProjectsSelectOwned "null" "u1"])).
Proof.
  apply (ActionFacts.createVideoWithFile_absent_project
           (fun _ => ret (succeed (Some Demo.video1)))
           [("file", EFile Demo.clip)] (Demo.world_of (fun _ => NoFault))
           Demo.clip "u1").
  - reflexivity.
  - simpl. lia.
  - simpl. auto.
  - reflexivity.
  - reflexivity.
  - simpl. intros p [<- | [<- | []]]; discriminate.
  - simpl. discriminate.
  - reflexivity.
  - reflexivity.
Defined.

End ComposeFacts.

(* ===================================================================== *)
(** ** The list of videos and the file name: proofs *)
(* ===================================================================== *)

Module ListFacts.
Import Store VideosList FileName.

Lemma filter_length_le {A} (f : A -> bool) (l : list A) :
  (List.length (filter f l) <= List.length l)%nat.
Proof.
  induction l as [|a l IH]; simpl; [lia|].
  destruct (f a); simpl; lia.
Qed.

Lemma filter_length_mono {A} (f g : A -> bool) (l : list A) :
  (forall a, f a = true -> g a = true) ->
  (List.length (filter f l) <= List.length (filter g l))%nat.
Proof.
  intros Hfg. induction l as [|a l IH]; simpl; [lia|].
  destruct (f a) eqn:Ef.
  - rewrite (Hfg a Ef). simpl. lia.
  - destruct (g a); simpl; lia.
Qed.

Lemma filter_all {A} (f : A -> bool) (l : list A) :
  (forall a, f a = true) -> filter f l = l.
Proof.
  intros Hf. induction l as [|a l IH]; simpl; [reflexivity|].
  rewrite Hf, IH. reflexivity.
Qed.

Lemma status_counts_add_up (videos : list Video) :
  (getStatusCount videos uploaded + getStatusCount videos transcribing
   + getStatusCount videos transcribed + getStatusCount videos error_status
   = List.length videos)%nat.
Proof.
  unfold getStatusCount.
  induction videos as [|v vs IH]; simpl; [reflexivity|].
  destruct (status v); simpl; lia.
Qed.

Section ListOfVideos.

Variable toLowerCase : string -> string.
Variable includes : string -> string -> bool.
Variable project_title : Video -> option string.

Let shown := filteredVideos toLowerCase includes project_title.
Let view := render toLowerCase includes project_title.

(** The numbers on the status buttons are what the filter gives. The four
    counts add up to the number on the "All" button; with nothing typed in
    the search box, choosing a status shows exactly as many videos as its
    button says, and with a search term at most that many; the videos
    shown are always among the videos given. "Clear Filters" shows every
    video again, so after it the "no match" notice is gone. *)
Theorem status_buttons_count_the_filter :
  forall (st : ListState) (videos : list Video),
    fold_right Nat.add O (map (getStatusCount videos) videoStatusValues)
    = List.length videos
    /\ (forall s, statusFilter st = Only s ->
        (List.length (shown st videos) <= getStatusCount videos s)%nat
        /\ (searchTerm st = "" ->
            List.length (shown st videos) = getStatusCount videos s))
    /\ (forall v, In v (shown st videos) -> In v videos)
    /\ shown (clearFilters st) videos = videos
    /\ (view st videos = NoVideosYet <-> videos = [])
    /\ (view st videos = NoMatch <-> videos <> [] /\ shown st videos = [])
    /\ (videos <> [] ->
        view (clearFilters st) videos = Grid (List.length videos)).
Proof.
  intros st videos. subst shown view.
  assert (Hclear : filteredVideos toLowerCase includes project_title
                     (clearFilters st) videos = videos).
  { unfold filteredVideos. apply filter_all. intros a.
    unfold matchesSearch, matchesStatus. reflexivity. }
  split.
  { simpl. pose proof (status_counts_add_up videos). lia. }
  split.
  { intros s Hs. unfold filteredVideos, getStatusCount. split.
    - apply filter_length_mono. intros a Ha.
      apply andb_true_iff in Ha. destruct Ha as [_ Ha].
      unfold matchesStatus in Ha. rewrite Hs in Ha. exact Ha.
    - intros Hterm. f_equal. apply filter_ext. intros a.
      unfold matchesSearch, matchesStatus. rewrite Hterm, Hs. reflexivity. }
  split.
  { intros v Hv. unfold filteredVideos in Hv.
    apply filter_In in Hv. tauto. }
  split; [exact Hclear|].
  split.
  { unfold render. destruct videos as [|v vs].
    - split; reflexivity.
    - split; [|discriminate].
      destruct (List.length _); discriminate. }
  split.
  { unfold render. destruct videos as [|v vs].
    - split; [discriminate|]. intros [H _]. exfalso. apply H. reflexivity.
    - destruct (filteredVideos toLowerCase includes project_title st
                  (v :: vs)) as [|x xs] eqn:E; simpl.
      + split; [intros _; split; [discriminate|reflexivity]|reflexivity].
      + split; [discriminate|]. intros [_ H]. discriminate H. }
  intros Hne. unfold render. rewrite Hclear.
  destruct videos as [|v vs]; [exfalso; apply Hne; reflexivity|].
  reflexivity.
Qed.

End ListOfVideos.

(** The sort buttons: a click on a column makes it the sort column and
    leaves the filters alone; a click on the current column flips the
    order, so two clicks on it change nothing, and a click on another
    column starts with descending order, a second click giving
    ascending. *)
Theorem toggleSort_flips_or_resets :
  forall (field : SortField) (st : ListState),
    sortField (toggleSort field st) = field
    /\ searchTerm (toggleSort field st) = searchTerm st
    /\ statusFilter (toggleSort field st) = statusFilter st
    /\ (sortField st = field ->
        sortOrder (toggleSort field st) <> sortOrder st
        /\ toggleSort field (toggleSort field st) = st)
    /\ (sortField st <> field ->
        sortOrder (toggleSort field st) = desc
        /\ sortOrder (toggleSort field (toggleSort field st)) = asc).
Proof.
  intros field [term filt f o]. unfold toggleSort; simpl.
  split; [destruct f, field; reflexivity|].
  split; [destruct f, field; reflexivity|].
  split; [destruct f, field; reflexivity|].
  split.
  - intros Heq. subst field.
    destruct f, o; simpl; split; first [discriminate | reflexivity].
  - intros Hne.
    destruct f, field; simpl;
      try (exfalso; apply Hne; reflexivity); split; reflexivity.
Qed.

Lemma has_slash_snoc (acc : string) (c : ascii) :
  has_slash (acc ++ String c EmptyString)
  = (has_slash acc || Ascii.eqb c "/"%char)%bool.
Proof.
  induction acc as [|a acc IH]; simpl.
  - rewrite orb_false_r. reflexivity.
  - rewrite IH. rewrite orb_assoc. reflexivity.
Qed.

Lemma string_snoc_assoc (acc : string) (c : ascii) (rest : string) :
  ((acc ++ String c EmptyString) ++ rest = acc ++ String c rest)%string.
Proof. induction acc as [|a acc IH]; simpl; [reflexivity|]. rewrite IH. reflexivity. Qed.

Lemma last_part_no_slash (s : string) :
  forall acc, has_slash s = false ->
    last_part "/"%char s acc = (acc ++ s)%string.
Proof.
  induction s as [|c rest IH]; intros acc H; simpl in *.
  - induction acc as [|a acc IHa]; simpl; [reflexivity|].
    rewrite <- IHa. reflexivity.
  - apply orb_false_iff in H. destruct H as [Hc Hrest].
    rewrite Hc. rewrite IH by exact Hrest. apply string_snoc_assoc.
Qed.

Lemma last_part_after_slash (dir base : string) :
  forall acc,
    last_part "/"%char (dir ++ String "/"%char base) acc
    = last_part "/"%char base EmptyString.
Proof.
  induction dir as [|c rest IH]; intros acc; simpl.
  - reflexivity.
  - destruct (Ascii.eqb c "/"%char); apply IH.
Qed.

Lemma last_part_slash_free (s : string) :
  forall acc, has_slash acc = false ->
    has_slash (last_part "/"%char s acc) = false.
Proof.
  induction s as [|c rest IH]; intros acc H; simpl.
  - exact H.
  - destruct (Ascii.eqb c "/"%char) eqn:Ec.
    + apply IH. reflexivity.
    + apply IH. rewrite has_slash_snoc, H, Ec. reflexivity.
Qed.

(** The name shown for a video is the last part of its storage path: for
    a path that ends in a non-empty part without a slash it is that part,
    and a path without a slash is its own name. A path that ends in a
    slash is shown whole, the only case in which the name has a slash.
    The name is empty only for the empty path. *)
Theorem getFileName_is_last_part :
  forall s : string,
    (getFileName s = "" <-> s = "")
    /\ (has_slash s = false -> getFileName s = s)
    /\ (forall dir base : string,
          s = (dir ++ "/" ++ base)%string ->
          has_slash base = false ->
          getFileName s = if String.eqb base "" then s else base)
    /\ (has_slash (getFileName s) = true -> getFileName s = s)
    /\ download_name s = (getFileName s ++ "_transcript.txt")%string.
Proof.
  intros s. unfold getFileName.
  split.
  { destruct (last_part "/"%char s EmptyString) eqn:E.
    - tauto.
    - split; [discriminate|]. intros ->. simpl in E. discriminate E. }
  split.
  { intros H. rewrite (last_part_no_slash s EmptyString H). simpl.
    destruct s; reflexivity. }
  split.
  { intros dir base -> Hb. simpl.
    rewrite last_part_after_slash.
    rewrite (last_part_no_slash base EmptyString Hb). simpl.
    destruct base; reflexivity. }
  split; [|reflexivity].
  pose proof (last_part_slash_free s EmptyString eq_refl) as Hfree.
  destruct (last_part "/"%char s EmptyString) eqn:E.
  - reflexivity.
  - intros H. rewrite H in Hfree. discriminate Hfree.
Qed.

End ListFacts.
